(** * SRE incident-response workflow: a shallow embedding

    The development follows [src/entities/sre_incident/workflow.py]:

    - [Py]: the few Python primitives the handlers use (exceptions, string
      methods, decoded JSON values and their comparisons);
    - the data model ([AlertInput], [ProcessedAlert], [TriageResult], ...);
    - the five handlers and the response handler, written as the source has
      them, over an explicit environment for [json.loads], [hash] and
      [datetime.now];
    - [Engine]: the workflow runner the handlers are written against
      ([agent_framework], which is imported by the source and not part of it);
    - the [workflow] built from the executors, and the properties of its runs;
    - the function tools and the module-level code of the agent scripts
      [src/entities/ag_ui/agui_server.py], [src/entities/ag_ui/_main.py] and
      [src/_agui_server.py]. The text of [src/agui_client.py] is not a Python
      program (its string literals are broken across lines) and has no
      counterpart here.

    Strings are byte strings (UTF-8). [str.upper] is modelled on ASCII
    letters: the severity strings that are upper-cased contain no other
    letter. [str.lower] is modelled on ASCII letters and on the two characters
    outside ASCII whose lower-case form holds an ASCII letter; the lower-cased
    title and description are only searched for ASCII keywords.
    [json.loads] is a parameter with three outcomes: it returns a value,
    raises [json.JSONDecodeError], or raises another exception, which no
    handler catches. [asyncio.sleep] only delays a handler and has no
    counterpart here. *)

From Stdlib Require Import ZArith String Ascii List Bool Lia DecimalString.
From stdpp Require Import base option list gmap strings.

Local Open Scope string_scope.
Local Open Scope Z_scope.
Local Open Scope list_scope.

(** ** Python primitives *)

Module Py.

(** The exceptions the code can raise. *)
Inductive exn : Type :=
| AttributeError (attr : string)
| TypeError (op : string)
| KeyError (key : string)
| IndexError
| RecursionError
| ValueError (message : string)
| ServiceInitializationError.

(** The outcome of evaluating Python code that may raise. *)
Inductive result (A : Type) : Type :=
| Ok (a : A)
| Raise (e : exn).
Global Arguments Ok {A} a.
Global Arguments Raise {A} e.

(** Sequencing: an exception raised by [m] propagates. *)
Definition bind {A B} (m : result A) (f : A -> result B) : result B :=
  match m with
  | Ok a => f a
  | Raise e => Raise e
  end.

Notation "'let*' x := m 'in' k" := (bind m (fun x => k))
  (at level 10, x name, m at level 200, k at level 200, only parsing).

(** [bool(s)] for a [str]: the empty string is falsy. *)
Definition truthy (s : string) : bool := negb (String.eqb s "").

(** [s.startswith(p)] *)
Definition startswith (s p : string) : bool := String.prefix p s.

(** [sub in s] for two [str]. *)
Fixpoint str_in (sub s : string) : bool :=
  String.prefix sub s ||
  match s with
  | EmptyString => false
  | String _ s' => str_in sub s'
  end.

(** [s.endswith(suf)] *)
Fixpoint endswith (s suf : string) : bool :=
  String.eqb s suf ||
  match s with
  | EmptyString => false
  | String _ s' => endswith s' suf
  end.

(** The upper-case and the lower-case form of an ASCII character. *)
Definition upper_ascii (c : ascii) : ascii :=
  let n := nat_of_ascii c in
  if ((97 <=? n) && (n <=? 122))%nat then ascii_of_nat (n - 32) else c.

Definition lower_ascii (c : ascii) : ascii :=
  let n := nat_of_ascii c in
  if ((65 <=? n) && (n <=? 90))%nat then ascii_of_nat (n + 32) else c.

Fixpoint map_string (f : ascii -> ascii) (s : string) : string :=
  match s with
  | EmptyString => EmptyString
  | String c s' => String (f c) (map_string f s')
  end.

(** [s.upper()], for a text whose letters are ASCII letters. *)
Definition upper : string -> string := map_string upper_ascii.

(** [s.lower()], as far as the ASCII characters of the result go. Two
    characters outside ASCII have a lower-case form that holds an ASCII
    letter: U+212A KELVIN SIGN (the bytes E2 84 AA) becomes k, and U+0130
    (C4 B0) becomes i followed by U+0307 (CC 87). The lower-case form of any
    other character outside ASCII holds no ASCII character, and the
    character is left as it is: an ASCII text occurs in the result exactly
    when it occurs in [s.lower()]. *)
Fixpoint lower (s : string) : string :=
  match s with
  | EmptyString => EmptyString
  | String c s1 =>
      let n := nat_of_ascii c in
      match s1 with
      | String c2 s2 =>
          let n2 := nat_of_ascii c2 in
          if ((n =? 196) && (n2 =? 176))%nat
          then String "i" (String (ascii_of_nat 204) (String (ascii_of_nat 135) (lower s2)))
          else
            match s2 with
            | String c3 s3 =>
                if ((n =? 226) && (n2 =? 132) && (nat_of_ascii c3 =? 170))%nat
                then String "k" (lower s3)
                else String (lower_ascii c) (lower s1)
            | EmptyString => String (lower_ascii c) (lower s1)
            end
      | EmptyString => String (lower_ascii c) (lower s1)
      end
  end.

(** [s.isascii()] *)
Fixpoint isascii (s : string) : bool :=
  match s with
  | EmptyString => true
  | String c s' => (nat_of_ascii c <? 128)%nat && isascii s'
  end.

(** [sep.join(l)] *)
Definition join (sep : string) (l : list string) : string := String.concat sep l.

(** The ASCII characters [str.split()] treats as separators. *)
Definition is_space (c : ascii) : bool :=
  let n := nat_of_ascii c in
  ((n =? 32) || ((9 <=? n) && (n <=? 13)) || ((28 <=? n) && (n <=? 31)))%nat.

(** [s.split()]: the maximal runs of non-blank characters. [cur] is the word
    being read, in reverse. *)
Fixpoint split_aux (s : string) (cur : list ascii) : list string :=
  let flush (rest : list string) :=
    match cur with
    | [] => rest
    | _ => string_of_list_ascii (rev cur) :: rest
    end in
  match s with
  | EmptyString => flush []
  | String c s' =>
      if is_space c then flush (split_aux s' []) else split_aux s' (c :: cur)
  end.

Definition split (s : string) : list string := split_aux s [].

(** [s.strip()]: leading and trailing blanks removed. *)
Fixpoint lstrip (s : string) : string :=
  match s with
  | EmptyString => EmptyString
  | String c s' => if is_space c then lstrip s' else s
  end.

Definition reverse (s : string) : string :=
  string_of_list_ascii (rev (list_ascii_of_string s)).

Definition strip (s : string) : string := reverse (lstrip (reverse (lstrip s))).

(** [l[-1]] *)
Definition last_item {A} (l : list A) : result A :=
  match last l with
  | Some x => Ok x
  | None => Raise IndexError
  end.

(** [str(n)] for an [int]. *)
Definition str_int (n : Z) : string := NilZero.string_of_int (Z.to_int n).

(** [d[k]] and [d.get(k)] for a [dict] literal with [str] keys, kept as the
    list of its items in source order. *)
Fixpoint lookup_item {A} (k : string) (d : list (string * A)) : option A :=
  match d with
  | [] => None
  | (k', v) :: d' => if String.eqb k k' then Some v else lookup_item k d'
  end.

Definition getitem {A} (d : list (string * A)) (k : string) : result A :=
  match lookup_item k d with
  | Some v => Ok v
  | None => Raise (KeyError k)
  end.

Definition get {A} (d : list (string * A)) (k : string) (default : A) : A :=
  match lookup_item k d with
  | Some v => v
  | None => default
  end.

(** A [float]: not-a-number, an infinity, or the finite value [m * 2^e]. The
    workflow only compares floats with integer constants, and Python compares
    a float with an int exactly. *)
Inductive float : Type :=
| FNan
| FInf (negative : bool)
| FFinite (m e : Z).

(** [f > n] for a [float] and an [int]. *)
Definition float_gt_int (f : float) (n : Z) : bool :=
  match f with
  | FNan => false
  | FInf negative => negb negative
  | FFinite m e => if 0 <=? e then n <? m * 2 ^ e else n * 2 ^ (- e) <? m
  end.

(** What [json.loads] returns. An object is the list of its items in
    insertion order. *)
#[warnings="-register-all"]
Inductive json : Type :=
| JNull
| JBool (b : bool)
| JInt (n : Z)
| JFloat (f : float)
| JStr (s : string)
| JList (l : list json)
| JDict (items : list (string * json)).

(** What [json.loads] does with a [str]: it returns the decoded value, it
    raises [json.JSONDecodeError] because the text is no JSON document, or it
    raises another exception: [RecursionError] when the arrays and objects of
    the text are nested deeper than the interpreter can follow, [ValueError]
    when an integer has more digits than [int] converts. *)
Inductive loaded : Type :=
| Returned (v : json)
| JSONDecodeError
| Raised (e : exn).

(** [v.get(k, default)]: only a [dict] has the method. *)
Definition json_get (v : json) (k : string) (default : json) : result json :=
  match v with
  | JDict items => Ok (get items k default)
  | _ => Raise (AttributeError "get")
  end.

(** [v.items()] *)
Definition json_items (v : json) : result (list (string * json)) :=
  match v with
  | JDict items => Ok items
  | _ => Raise (AttributeError "items")
  end.

(** [v > n] for a decoded value and an [int]; [bool] is a subclass of [int],
    every other type is unorderable against [int]. *)
Definition json_gt_int (v : json) (n : Z) : result bool :=
  match v with
  | JInt z => Ok (n <? z)
  | JBool b => Ok (n <? Z.b2z b)
  | JFloat f => Ok (float_gt_int f n)
  | _ => Raise (TypeError ">")
  end.

(** [isinstance(v, (int, float))] *)
Definition is_number (v : json) : bool :=
  match v with
  | JInt _ | JBool _ | JFloat _ => true
  | _ => false
  end.

End Py.
Export Py.

(** ** A reference decoder

    The handlers take [json.loads] as a parameter, and what is proved of them
    holds for any decoder. For the closed examples this module gives one: the
    scanner of Python's [json] package (strict mode), with [float] literals
    rounded to the nearest double, ties to even. It takes the number of
    calls the interpreter can still enter, and gives up with [RecursionError]
    where an array, an object, a constant or the report of an error takes a
    call more, and with [ValueError] on an integer of more than 4300 digits,
    as CPython 3.11 does with its default settings. *)

Module JsonDecoder.

(** The blanks of JSON: space, tab, line feed, carriage return. *)
Definition is_ws (c : ascii) : bool :=
  let n := nat_of_ascii c in ((n =? 32) || (n =? 9) || (n =? 10) || (n =? 13))%nat.

Fixpoint skip_ws (s : string) : string :=
  match s with
  | String c s' => if is_ws c then skip_ws s' else s
  | EmptyString => s
  end.

(** The value of a decimal digit, of a hexadecimal digit. *)
Definition digit_value (c : ascii) : option Z :=
  let n := nat_of_ascii c in
  if ((48 <=? n) && (n <=? 57))%nat then Some (Z.of_nat n - 48) else None.

Definition hex_value (c : ascii) : option Z :=
  let n := nat_of_ascii c in
  if ((48 <=? n) && (n <=? 57))%nat then Some (Z.of_nat n - 48)
  else if ((65 <=? n) && (n <=? 70))%nat then Some (Z.of_nat n - 55)
  else if ((97 <=? n) && (n <=? 102))%nat then Some (Z.of_nat n - 87)
  else None.

(** The longest run of decimal digits at the head of [s]: its value, its
    length, and what follows. *)
Fixpoint scan_digits (s : string) (acc : Z) (len : Z) : Z * Z * string :=
  match s with
  | String c s' =>
      match digit_value c with
      | Some d => scan_digits s' (10 * acc + d) (len + 1)
      | None => (acc, len, s)
      end
  | EmptyString => (acc, len, s)
  end.

(** The number of decimal digits of a positive integer. *)
Definition decimal_length (n : Z) : Z := Z.of_nat (String.length (str_int n)).

(** The double nearest to [d * 10^k] for [0 < d], ties to even; what
    [float(...)] returns on a decimal literal. *)
Definition round_to_double (d k : Z) : float :=
  let nd := decimal_length d in
  if 310 <=? nd + k then FInf false
  else if nd + k <=? -400 then FFinite 0 0
  else
    let num := if 0 <=? k then d * 10 ^ k else d in
    let den := if 0 <=? k then 1 else 10 ^ (- k) in
    let quot e := if 0 <=? e then num / (den * 2 ^ e) else (num * 2 ^ (- e)) / den in
    let e := Z.log2 num - Z.log2 den - 52 in
    let e := if 2 ^ 53 <=? quot e then e + 1 else if quot e <? 2 ^ 52 then e - 1 else e in
    let e := Z.max e (-1074) in
    let n := if 0 <=? e then num else num * 2 ^ (- e) in
    let m := if 0 <=? e then den * 2 ^ e else den in
    let q := n / m in
    let r := n mod m in
    let q := if (m <? 2 * r) || ((m =? 2 * r) && Z.odd q) then q + 1 else q in
    if (0 <=? e) && (2 ^ 1024 <=? q * 2 ^ e) then FInf false
    else FFinite q e.

(** [-f] *)
Definition negate (f : float) : float :=
  match f with
  | FNan => FNan
  | FInf s => FInf (negb s)
  | FFinite m e => FFinite (- m) e
  end.

(** How a scanner ends where it reads no value: with the [StopIteration] of
    [scan_once] where no value starts, which [raw_decode] turns into a
    [json.JSONDecodeError]; with a [json.JSONDecodeError] of its own; or with
    another exception. *)
Inductive stop : Type :=
| StopIteration
| DecodeError
| Exception (e : exn).

(** What a scanner finds at the head of a text: a value and the rest of the
    text, or the way it stops. *)
Inductive scanned (A : Type) : Type :=
| Found (a : A) (rest : string)
| Stops (why : stop).
Arguments Found {A} a rest.
Arguments Stops {A} why.

(** [raise JSONDecodeError(msg, doc, pos)] where the interpreter can still
    enter [depth] calls, one inside the other. In CPython 3.11 building the
    exception takes three: the call of the class, its [__init__], and
    [doc.count] there. With less room the [RecursionError] of the call that
    cannot be entered is raised instead. *)
Definition error_calls : nat := 3.

Definition decode_error (depth : nat) : stop :=
  if (depth <? error_calls)%nat then Exception RecursionError else DecodeError.

(** One of the constants NaN, Infinity and -Infinity, which the scanner
    passes to [parse_constant]: one call. *)
Definition constant (depth : nat) (v : json) (rest : string) : scanned json :=
  match depth with
  | O => Stops (Exception RecursionError)
  | S _ => Found v rest
  end.

(** [sys.get_int_max_str_digits()], and the message of the [ValueError] that
    [int] raises on a text of more digits. *)
Definition int_max_str_digits : Z := 4300.

Definition digits_error (len : Z) : exn :=
  ValueError ("Exceeds the limit (4300 digits) for integer string conversion: value has "
              +:+ str_int len
              +:+ " digits; use sys.set_int_max_str_digits() to increase the limit").

(** A number at the head of [s], as the scanner's pattern reads it: an
    optional minus sign and an integer with no leading zero, then an optional
    fraction (a dot and digits), then an optional exponent. Without fraction
    and exponent it is an [int], which has at most 4300 digits, else a
    [float]. *)
Definition scan_number (s : string) : scanned json :=
  let '(negative, s1) :=
    match s with
    | String "-" s' => (true, s')
    | _ => (false, s)
    end in
  let int_part :=
    match s1 with
    | String "0" s' => Some (0, 1, s')
    | String c _ =>
        match digit_value c with
        | Some _ => Some (scan_digits s1 0 0)
        | None => None
        end
    | EmptyString => None
    end in
  match int_part with
  | None => Stops StopIteration
  | Some (i, ilen, s2) =>
      let '(frac, s3) :=
        match s2 with
        | String "." s' =>
            let '(v, len, rest) := scan_digits s' 0 0 in
            if 0 <? len then (Some (v, len), rest) else (None, s2)
        | _ => (None, s2)
        end in
      let '(exp, s4) :=
        match s3 with
        | String c s' =>
            if (nat_of_ascii c =? 101)%nat || (nat_of_ascii c =? 69)%nat then
              let '(sign, s'') :=
                match s' with
                | String "-" t => (-1, t)
                | String "+" t => (1, t)
                | _ => (1, s')
                end in
              let '(v, len, rest) := scan_digits s'' 0 0 in
              if 0 <? len then (Some (sign * v), rest) else (None, s3)
            else (None, s3)
        | EmptyString => (None, s3)
        end in
      match frac, exp with
      | None, None =>
          if int_max_str_digits <? ilen then Stops (Exception (digits_error ilen))
          else Found (JInt (if negative then - i else i)) s4
      | _, _ =>
          let '(fv, flen) := default (0, 0) frac in
          let d := i * 10 ^ flen + fv in
          let k := default 0 exp - flen in
          let f := if d =? 0 then FFinite 0 0 else round_to_double d k in
          Found (JFloat (if negative then negate f else f)) s4
      end
  end.

(** The UTF-8 encoding of a code point. *)
Definition utf8 (cp : Z) : string :=
  let byte n := String (ascii_of_nat (Z.to_nat n)) EmptyString in
  if cp <? 128 then byte cp
  else if cp <? 2048 then byte (192 + cp / 64) +:+ byte (128 + cp mod 64)
  else if cp <? 65536 then
    byte (224 + cp / 4096) +:+ byte (128 + cp / 64 mod 64) +:+ byte (128 + cp mod 64)
  else
    byte (240 + cp / 262144) +:+ byte (128 + cp / 4096 mod 64)
    +:+ byte (128 + cp / 64 mod 64) +:+ byte (128 + cp mod 64).

(** Four hexadecimal digits at the head of [s]. *)
Definition scan_hex4 (s : string) : option (Z * string) :=
  match s with
  | String a (String b (String c (String d rest))) =>
      match hex_value a, hex_value b, hex_value c, hex_value d with
      | Some x, Some y, Some z, Some t => Some (((x * 16 + y) * 16 + z) * 16 + t, rest)
      | _, _, _, _ => None
      end
  | _ => None
  end.

(** The rest of a string literal, after its opening quote, in strict mode:
    the decoded text and what follows the closing quote. *)
Fixpoint scan_string (fuel : nat) (s : string) : option (string * string) :=
  match fuel with
  | O => None
  | S fuel' =>
      match s with
      | EmptyString => None
      | String c s' =>
          let n := nat_of_ascii c in
          if (n =? 34)%nat then Some ("", s')
          else if (n <? 32)%nat then None
          else if (n =? 92)%nat then
            match s' with
            | EmptyString => None
            | String e s'' =>
                let simple ch :=
                  match scan_string fuel' s'' with
                  | Some (t, rest) => Some (String ch t, rest)
                  | None => None
                  end in
                let m := nat_of_ascii e in
                if (m =? 34)%nat then simple e
                else if (m =? 92)%nat then simple e
                else if (m =? 47)%nat then simple e
                else if (m =? 98)%nat then simple (ascii_of_nat 8)
                else if (m =? 102)%nat then simple (ascii_of_nat 12)
                else if (m =? 110)%nat then simple (ascii_of_nat 10)
                else if (m =? 114)%nat then simple (ascii_of_nat 13)
                else if (m =? 116)%nat then simple (ascii_of_nat 9)
                else if (m =? 117)%nat then
                  match scan_hex4 s'' with
                  | None => None
                  | Some (hi, rest) =>
                      let '(cp, rest) :=
                        if (55296 <=? hi) && (hi <=? 56319) then
                          match rest with
                          | String "\" (String "u" rest') =>
                              match scan_hex4 rest' with
                              | Some (lo, rest'') =>
                                  if (56320 <=? lo) && (lo <=? 57343)
                                  then (65536 + (hi - 55296) * 1024 + (lo - 56320), rest'')
                                  else (hi, rest)
                              | None => (hi, rest)
                              end
                          | _ => (hi, rest)
                          end
                        else (hi, rest) in
                      match scan_string fuel' rest with
                      | Some (t, rest') => Some (utf8 cp +:+ t, rest')
                      | None => None
                      end
                  end
                else None
            end
          else
            match scan_string fuel' s' with
            | Some (t, rest) => Some (String c t, rest)
            | None => None
            end
      end
  end.

(** [dict(pairs)]: a repeated key keeps its first position and takes the last
    value. *)
Fixpoint dict_set (k : string) (v : json) (d : list (string * json))
  : list (string * json) :=
  match d with
  | [] => [(k, v)]
  | (k', v') :: d' => if String.eqb k k' then (k, v) :: d' else (k', v') :: dict_set k v d'
  end.

Definition dict_of_pairs (pairs : list (string * json)) : list (string * json) :=
  fold_left (fun d '(k, v) => dict_set k v d) pairs [].

(** The scanner: one JSON value at the head of [s] and what follows it.
    [depth] is the number of calls, one inside the other, that the
    interpreter can still enter: its recursion limit less the calls in
    progress. The scanner enters an array or an object, which is one call,
    before it reads what is inside. *)
Fixpoint scan_once (fuel depth : nat) (s : string) : scanned json :=
  match fuel with
  | O => Stops StopIteration
  | S fuel' =>
      match s with
      | EmptyString => Stops StopIteration
      | String c s' =>
          let n := nat_of_ascii c in
          if (n =? 34)%nat then
            match scan_string (S (String.length s')) s' with
            | Some (t, rest) => Found (JStr t) rest
            | None => Stops (decode_error depth)
            end
          else if (n =? 123)%nat then
            match depth with
            | O => Stops (Exception RecursionError)
            | S depth' =>
                let s1 := skip_ws s' in
                match s1 with
                | String "}" rest => Found (JDict []) rest
                | _ =>
                    match scan_pairs fuel' depth' s1 with
                    | Found pairs rest => Found (JDict (dict_of_pairs pairs)) rest
                    | Stops why => Stops why
                    end
                end
            end
          else if (n =? 91)%nat then
            match depth with
            | O => Stops (Exception RecursionError)
            | S depth' =>
                let s1 := skip_ws s' in
                match s1 with
                | String "]" rest => Found (JList []) rest
                | _ =>
                    match scan_items fuel' depth' s1 with
                    | Found items rest => Found (JList items) rest
                    | Stops why => Stops why
                    end
                end
            end
          else if String.prefix "null" s then Found JNull (substring 4 (String.length s) s)
          else if String.prefix "true" s then Found (JBool true) (substring 4 (String.length s) s)
          else if String.prefix "false" s
          then Found (JBool false) (substring 5 (String.length s) s)
          else
            match scan_number s with
            | Found v rest => Found v rest
            | Stops StopIteration =>
                if String.prefix "NaN" s
                then constant depth (JFloat FNan) (substring 3 (String.length s) s)
                else if String.prefix "Infinity" s
                then constant depth (JFloat (FInf false)) (substring 8 (String.length s) s)
                else if String.prefix "-Infinity" s
                then constant depth (JFloat (FInf true)) (substring 9 (String.length s) s)
                else Stops StopIteration
            | Stops why => Stops why
            end
      end
  end

(** The items of an array, from its first value to its closing bracket. *)
with scan_items (fuel depth : nat) (s : string) : scanned (list json) :=
  match fuel with
  | O => Stops StopIteration
  | S fuel' =>
      match scan_once fuel' depth s with
      | Stops why => Stops why
      | Found v rest =>
          match skip_ws rest with
          | String "]" rest' => Found [v] rest'
          | String "," rest' =>
              match scan_items fuel' depth (skip_ws rest') with
              | Found vs rest'' => Found (v :: vs) rest''
              | Stops why => Stops why
              end
          | _ => Stops (decode_error depth)
          end
      end
  end

(** The pairs of an object, from its first key to its closing brace. *)
with scan_pairs (fuel depth : nat) (s : string) : scanned (list (string * json)) :=
  match fuel with
  | O => Stops StopIteration
  | S fuel' =>
      match s with
      | String c s' =>
          if (nat_of_ascii c =? 34)%nat then
            match scan_string (S (String.length s')) s' with
            | None => Stops (decode_error depth)
            | Some (key, rest) =>
                match skip_ws rest with
                | String ":" rest1 =>
                    match scan_once fuel' depth (skip_ws rest1) with
                    | Stops why => Stops why
                    | Found v rest2 =>
                        match skip_ws rest2 with
                        | String "}" rest3 => Found [(key, v)] rest3
                        | String "," rest3 =>
                            match scan_pairs fuel' depth (skip_ws rest3) with
                            | Found ps rest4 => Found ((key, v) :: ps) rest4
                            | Stops why => Stops why
                            end
                        | _ => Stops (decode_error depth)
                        end
                    end
                | _ => Stops (decode_error depth)
                end
            end
          else Stops (decode_error depth)
      | EmptyString => Stops (decode_error depth)
      end
  end.

(** What [json.loads] ends with where a scanner stopped. *)
Definition raised (why : stop) : loaded :=
  match why with
  | StopIteration | DecodeError => JSONDecodeError
  | Exception e => Raised e
  end.

(** The byte order mark U+FEFF. *)
Definition BOM : string :=
  String (ascii_of_nat 239) (String (ascii_of_nat 187) (String (ascii_of_nat 191) "")).

(** [json.loads(s)] where [depth] calls can still be entered once the
    scanner is called: one value, blanks allowed around it, nothing else.
    [raw_decode], that called the scanner, reports the [StopIteration], and
    [decode], that called [raw_decode], what follows the value. *)
Definition loads (depth : nat) (s : string) : loaded :=
  if String.prefix BOM s then JSONDecodeError
  else
    match scan_once (2 * String.length s + 2) depth (skip_ws s) with
    | Found v rest =>
        match skip_ws rest with
        | EmptyString => Returned v
        | _ => raised (decode_error (2 + depth))
        end
    | Stops StopIteration => raised (decode_error (1 + depth))
    | Stops why => raised why
    end.

End JsonDecoder.

(** ** The workflow engine

    The source builds its workflow with [agent_framework] ([Executor],
    [WorkflowBuilder], [WorkflowContext], [handler], [response_handler]) and
    leaves running it to that library. This module is the engine as the
    specification describes it (components of section 2, data model of section
    3, design of section 4). A run is driven by fuel, since a graph may have
    cycles; a handler receives the number of handler invocations that came
    before it in the run, so that what it reads from its environment can
    depend on when it runs. *)

Module Engine.

(** Modelled from the spec: the engine's tag of a payload, the type a handler
    is declared for (section 4.1, dispatch by message type). *)
Class Tagged (A Ty : Type) := tag_of : A -> Ty.

(** Modelled from the spec: the errors that make a run Failed (section 7). The
    spec names no code for an exception that escapes a handler; it is kept in
    [HandlerFailed]. *)
Inductive Error : Type :=
| UnroutableMessage
| NoMatchingRoute
| HandlerFailed (e : exn).

(** Modelled from the spec: the errors of a resume call (sections 4.3, 7). *)
Inductive ResumeError : Type :=
| ResponseTypeMismatch
| UnknownOrExpiredRequest.

Section Model.

Context {Msg Resp Out MsgTy RespTy : Type}.
Context `{!EqDecision MsgTy, !EqDecision RespTy}.
Context `{!Tagged Msg MsgTy, !Tagged Resp RespTy}.

(** Modelled from the spec: what a handler does through its run context,
    exactly one of: send messages downstream, open one external request,
    yield terminal output (section 4.1). *)
Inductive Effect : Type :=
| Emit (messages : list Msg)
| RequestInfo (request_data : Msg) (response_type : RespTy)
| YieldOutput (output : Out).

(** Modelled from the spec: a handler, keyed by the message type it accepts,
    with the message type it declares to send (section 3, Executor). *)
Record Handler : Type := {
  h_input : MsgTy;
  h_output : option MsgTy;
  h_run : nat -> Msg -> result Effect
}.

(** Modelled from the spec: a response handler, bound to the original request
    payload and the response payload (section 4.3). *)
Record ResponseHandler : Type := {
  rh_request : MsgTy;
  rh_response : RespTy;
  rh_output : option MsgTy;
  rh_run : nat -> Msg -> Resp -> result Effect
}.

(** Modelled from the spec: an executor, a name and its handlers (section 3). *)
Record Executor : Type := {
  id : string;
  handlers : list Handler;
  response_handlers : list ResponseHandler
}.

(** Modelled from the spec: the condition of an edge, "always" (the default
    edge) or a predicate over the outgoing message (section 3, Edge). *)
Inductive Condition : Type :=
| Always
| Case (predicate : Msg -> bool).

(** Modelled from the spec: a directed edge between two executors. *)
Record Edge : Type := {
  e_source : string;
  e_condition : Condition;
  e_target : string
}.

(** Modelled from the spec: the immutable graph (section 3, Graph). *)
Record Workflow : Type := {
  wf_name : string;
  wf_description : string;
  wf_start : string;
  wf_executors : list Executor;
  wf_edges : list Edge
}.

(** Modelled from the spec: the builder of a graph, executors and edges being
    registered before any run starts (section 4.2). *)
Record Builder : Type := {
  b_name : string;
  b_description : string;
  b_start : option Executor;
  b_edges : list (Executor * Condition * Executor)
}.

(** Modelled from the spec: [WorkflowBuilder(name=..., description=...)]. *)
Definition WorkflowBuilder (name description : string) : Builder :=
  {| b_name := name; b_description := description; b_start := None; b_edges := [] |}.

(** Modelled from the spec: [.set_start_executor(ex)]. *)
Definition set_start_executor (ex : Executor) (b : Builder) : Builder :=
  {| b_name := b_name b; b_description := b_description b;
     b_start := Some ex; b_edges := b_edges b |}.

(** Modelled from the spec: [.add_edge(src, tgt)], an "always" edge, kept in
    declaration order. *)
Definition add_edge (src tgt : Executor) (b : Builder) : Builder :=
  {| b_name := b_name b; b_description := b_description b;
     b_start := b_start b; b_edges := b_edges b ++ [(src, Always, tgt)] |}.

(** Modelled from the spec: registering an executor once, by name. *)
Definition register (ex : Executor) (exs : list Executor) : list Executor :=
  if existsb (fun ex' => String.eqb (id ex') (id ex)) exs then exs else exs ++ [ex].

(** Modelled from the spec: the handler of [ex] declared for the type of [m]
    (section 4.1). *)
Definition select_handler (ex : Executor) (m : Msg) : option Handler :=
  List.find (fun h => bool_decide (h_input h = tag_of m)) (handlers ex).

(** Modelled from the spec: the response handler of [ex] declared for the
    request payload and the response (section 4.3). *)
Definition select_response_handler (ex : Executor) (m : Msg) (resp : Resp)
  : option ResponseHandler :=
  List.find (fun h => bool_decide (rh_request h = tag_of m)
                      && bool_decide (rh_response h = tag_of resp))
            (response_handlers ex).

(** Modelled from the spec: the message types an executor declares to send,
    from its handlers and its response handlers. *)
Definition declared_outputs (ex : Executor) : list MsgTy :=
  omap h_output (handlers ex) ++ omap rh_output (response_handlers ex).

(** Modelled from the spec: the message types an executor accepts. *)
Definition declared_inputs (ex : Executor) : list MsgTy :=
  map h_input (handlers ex).

(** Modelled from the spec: the build-time contract of an edge, every message
    type the source declares to send is accepted by the target (section 3). *)
Definition edge_compatible (e : Executor * Condition * Executor) : bool :=
  let '(src, _, tgt) := e in
  forallb (fun ty => existsb (fun ty' => bool_decide (ty = ty')) (declared_inputs tgt))
          (declared_outputs src).

(** Modelled from the spec: [.build()]. The graph has one start executor, its
    executors are those the edges name (no dangling edge), and every edge
    passes the type check. *)
Definition build (b : Builder) : option Workflow :=
  match b_start b with
  | None => None
  | Some start =>
      if forallb edge_compatible (b_edges b) then
        Some {| wf_name := b_name b;
                wf_description := b_description b;
                wf_start := id start;
                wf_executors :=
                  fold_left (fun exs e => let '(src, _, tgt) := e in
                                          register tgt (register src exs))
                            (b_edges b) [start];
                wf_edges :=
                  map (fun e => let '(src, c, tgt) := e in
                                {| e_source := id src; e_condition := c; e_target := id tgt |})
                      (b_edges b) |}
      else None
  end.

(** Modelled from the spec: an entry of the PendingRequestTable (section 3). *)
Record PendingRequest : Type := {
  origin : string;
  request : Msg;
  expected : RespTy
}.

(** Modelled from the spec: a run (section 3, Run): its open requests, its
    yielded outputs and its failure, if any; and, for the statements about
    it, what the runner did: the deliveries made, executor and message, in
    order ([trace]), the correlation ids for which a response handler ran,
    once per invocation ([resumed]), the number of handler invocations
    ([steps]) and the next fresh correlation id. *)
Record Run : Type := {
  pending : gmap nat PendingRequest;
  outputs : list Out;
  failure : option Error;
  trace : list (string * Msg);
  resumed : list nat;
  steps : nat;
  next_id : nat
}.

(** Modelled from the spec: the run before its initial message is dispatched. *)
Definition new_run : Run :=
  {| pending := ∅; outputs := []; failure := None; trace := []; resumed := [];
     steps := 0; next_id := 0 |}.

(** Modelled from the spec: the externally observable result of a run
    (section 4.4). *)
Inductive RunResult : Type :=
| Suspended (pending_requests : list (nat * Msg))
| Completed (outputs : list Out)
| Failed (error : Error).

(** Modelled from the spec: a run with an open request is not complete; one
    with none and no message in flight is (section 4.3). *)
Definition status (r : Run) : RunResult :=
  match failure r with
  | Some err => Failed err
  | None =>
      match map_to_list (pending r) with
      | [] => Completed (outputs r)
      | reqs => Suspended (map (fun p => (p.1, request p.2)) reqs)
      end
  end.

(** Modelled from the spec: marking a run Failed. *)
Definition fail (err : Error) (r : Run) : Run :=
  {| pending := pending r; outputs := outputs r; failure := Some err;
     trace := trace r; resumed := resumed r; steps := steps r; next_id := next_id r |}.

(** Modelled from the spec: routing of one outgoing message (section 4.2): the
    outgoing edges of the source in declaration order, the first case whose
    predicate holds, else the default edge, else [NoMatchingRoute]; a source
    with no declared successor is a dead end (section 4.4). *)
Definition route (g : Workflow) (src : string) (m : Msg) : Error + list (string * Msg) :=
  let outgoing := List.filter (fun e => String.eqb (e_source e) src) (wf_edges g) in
  let holds e := match e_condition e with Case p => p m | Always => false end in
  let default e := match e_condition e with Always => true | Case _ => false end in
  match outgoing with
  | [] => inr []
  | _ =>
      match List.find holds outgoing with
      | Some e => inr [(e_target e, m)]
      | None =>
          match List.find default outgoing with
          | Some e => inr [(e_target e, m)]
          | None => inl NoMatchingRoute
          end
      end
  end.

(** Modelled from the spec: routing of the messages of one [Emit], in order. *)
Fixpoint route_all (g : Workflow) (src : string) (ms : list Msg)
  : Error + list (string * Msg) :=
  match ms with
  | [] => inr []
  | m :: ms' =>
      match route g src m with
      | inl err => inl err
      | inr ds =>
          match route_all g src ms' with
          | inl err => inl err
          | inr ds' => inr (ds ++ ds')
          end
      end
  end.

(** Modelled from the spec: the engine's side of what a handler of [src] did
    (sections 4.2 to 4.4): route the messages, or record a PendingRequest
    under a fresh correlation id, or append the output. The deliveries to
    make next come with the run. *)
Definition apply_effect (g : Workflow) (src : string) (eff : Effect) (r : Run)
  : Run * list (string * Msg) :=
  match eff with
  | Emit ms =>
      match route_all g src ms with
      | inl err => (fail err r, [])
      | inr ds => (r, ds)
      end
  | RequestInfo payload ty =>
      ({| pending := <[next_id r := {| origin := src; request := payload; expected := ty |}]>
                       (pending r);
          outputs := outputs r; failure := failure r; trace := trace r;
          resumed := resumed r; steps := steps r; next_id := S (next_id r) |}, [])
  | YieldOutput o =>
      ({| pending := pending r; outputs := outputs r ++ [o]; failure := failure r;
          trace := trace r; resumed := resumed r; steps := steps r;
          next_id := next_id r |}, [])
  end.

(** Modelled from the spec: the run after the delivery of [m] to [tgt], one
    more handler invocation. *)
Definition invoked (tgt : string) (m : Msg) (r : Run) : Run :=
  {| pending := pending r; outputs := outputs r; failure := failure r;
     trace := trace r ++ [(tgt, m)];
     resumed := resumed r; steps := S (steps r); next_id := next_id r |}.

(** Modelled from the spec: delivery of one message to an executor (section
    4.1): select the handler declared for its type ([UnroutableMessage] when
    there is none), run it to completion, and apply what it did. *)
Definition deliver (g : Workflow) (tgt : string) (m : Msg) (r : Run)
  : Run * list (string * Msg) :=
  match List.find (fun ex => String.eqb (id ex) tgt) (wf_executors g) with
  | None => (fail UnroutableMessage r, [])
  | Some ex =>
      match select_handler ex m with
      | None => (fail UnroutableMessage r, [])
      | Some h =>
          match h_run h (steps r) m with
          | Raise e => (fail (HandlerFailed e) (invoked tgt m r), [])
          | Ok eff => apply_effect g tgt eff (invoked tgt m r)
          end
      end
  end.

(** Modelled from the spec: the dispatch loop of the Runner (section 2): one
    message is dispatched, its handler completes, and only then the next; a
    Failed run dispatches nothing more. [None] when the fuel runs out with
    messages still in flight. *)
Fixpoint drain (fuel : nat) (g : Workflow) (queue : list (string * Msg)) (r : Run)
  : option Run :=
  match queue with
  | [] => Some r
  | (tgt, m) :: queue' =>
      match failure r with
      | Some _ => Some r
      | None =>
          match fuel with
          | O => None
          | S fuel' =>
              let '(r', ds) := deliver g tgt m r in
              drain fuel' g (queue' ++ ds) r'
          end
      end
  end.

(** Modelled from the spec: submitting a run, the initial message goes to the
    start executor (section 6). *)
Definition submit (fuel : nat) (g : Workflow) (m : Msg) : option Run :=
  drain fuel g [(wf_start g, m)] new_run.

(** Modelled from the spec: the run after the entry [cid] left the
    PendingRequestTable (section 4.3). *)
Definition consume (cid : nat) (r : Run) : Run :=
  {| pending := delete cid (pending r); outputs := outputs r; failure := failure r;
     trace := trace r; resumed := resumed r; steps := steps r; next_id := next_id r |}.

(** Modelled from the spec: the run after a response handler ran for [cid],
    one more handler invocation. *)
Definition responded (cid : nat) (r : Run) : Run :=
  {| pending := pending r; outputs := outputs r; failure := failure r;
     trace := trace r; resumed := resumed r ++ [cid]; steps := S (steps r);
     next_id := next_id r |}.

(** Modelled from the spec: the response handler of the origin executor of an
    open request, for a response (section 4.3). *)
Definition response_handler_for (g : Workflow) (req : PendingRequest) (resp : Resp)
  : option ResponseHandler :=
  ex ← List.find (fun ex => String.eqb (id ex) (origin req)) (wf_executors g);
  select_response_handler ex (request req) resp.

(** Modelled from the spec: the resume call (section 4.3). The correlation id
    must be open ([UnknownOrExpiredRequest]) and the response of the recorded
    type ([ResponseTypeMismatch], the entry staying in the table); then the
    entry is removed, the origin executor's response handler is invoked on
    the original payload and the response, and its output is routed as any
    handler's. An origin executor with no such handler is a misconfigured
    graph: the run is Failed. *)
Definition resume (fuel : nat) (g : Workflow) (r : Run) (cid : nat) (resp : Resp)
  : ResumeError + option Run :=
  match pending r !! cid with
  | None => inl UnknownOrExpiredRequest
  | Some req =>
      if bool_decide (expected req = tag_of resp) then
        match response_handler_for g req resp with
        | None => inr (Some (fail UnroutableMessage (consume cid r)))
        | Some h =>
            let r1 := responded cid (consume cid r) in
            match rh_run h (steps r) (request req) resp with
            | Raise e => inr (Some (fail (HandlerFailed e) r1))
            | Ok eff =>
                let '(r2, ds) := apply_effect g (origin req) eff r1 in
                inr (drain fuel g ds r2)
            end
        end
      else inl ResponseTypeMismatch
  end.

End Model.

Global Arguments Effect : clear implicits.
Global Arguments Handler : clear implicits.
Global Arguments ResponseHandler : clear implicits.
Global Arguments Executor : clear implicits.
Global Arguments Condition : clear implicits.
Global Arguments Edge : clear implicits.
Global Arguments Workflow : clear implicits.
Global Arguments Builder : clear implicits.
Global Arguments PendingRequest : clear implicits.
Global Arguments Run : clear implicits.
Global Arguments RunResult : clear implicits.

End Engine.

(** ** Data model *)

(** [Literal["critical", "high", "medium", "low"]] *)
Inductive Severity : Type := critical | high | medium | low.

Definition severity_value (s : Severity) : string :=
  match s with
  | critical => "critical"
  | high => "high"
  | medium => "medium"
  | low => "low"
  end.

(** [Literal["approve", "override to sev1", "override to sev2", "override to sev3"]] *)
Inductive Approved : Type :=
| approve
| override_to_sev1
| override_to_sev2
| override_to_sev3.

Definition approved_value (a : Approved) : string :=
  match a with
  | approve => "approve"
  | override_to_sev1 => "override to sev1"
  | override_to_sev2 => "override to sev2"
  | override_to_sev3 => "override to sev3"
  end.

Definition dquote : string := String (ascii_of_nat 34) EmptyString.
Definition newline : string := String (ascii_of_nat 10) EmptyString.

(** Input model for incoming alerts. A value of the type is an alert that
    passed pydantic's validation: every field has its declared type. *)
Module AlertInput.
Record t : Type := {
  alert_id : string;
  title : string;
  severity : Severity;
  description : string;
  source : string;
  resource : string;
  metrics : string
}.

(** The alert of the field defaults. *)
Definition default : t :=
  {| alert_id := "ALT-2026-0131-001";
     title := "Database Server CPU Critical";
     severity := critical;
     description := "vm-db-01 CPU utilization exceeded 90% for more than 5 minutes";
     source := "Azure Monitor";
     resource := "vm-db-01";
     metrics := "{" +:+ dquote +:+ "cpu_percent" +:+ dquote +:+ ": 94.7, "
                +:+ dquote +:+ "memory_percent" +:+ dquote +:+ ": 88.5}" |}.
End AlertInput.

(** Validated and enriched alert data. [metrics] is annotated [dict] and holds
    whatever the alert processor stored. *)
Module ProcessedAlert.
Record t : Type := {
  alert_id : string;
  title : string;
  severity : string;
  description : string;
  source : string;
  resource : string;
  metrics : json;
  received_at : string;
  is_valid : bool;
  validation_errors : list string
}.
End ProcessedAlert.

(** Result of incident triage analysis. *)
Module TriageResult.
Record t : Type := {
  alert : ProcessedAlert.t;
  incident_severity : string;
  incident_title : string;
  summary : string;
  affected_services : list string;
  recommended_actions : list string;
  assigned_team : string;
  runbook_url : string;
  priority : string
}.

(** The three attribute assignments of [handle_approval]. *)
Definition set_incident_severity (v : string) (x : t) : t :=
  {| alert := alert x; incident_severity := v; incident_title := incident_title x;
     summary := summary x; affected_services := affected_services x;
     recommended_actions := recommended_actions x; assigned_team := assigned_team x;
     runbook_url := runbook_url x; priority := priority x |}.

Definition set_incident_title (v : string) (x : t) : t :=
  {| alert := alert x; incident_severity := incident_severity x; incident_title := v;
     summary := summary x; affected_services := affected_services x;
     recommended_actions := recommended_actions x; assigned_team := assigned_team x;
     runbook_url := runbook_url x; priority := priority x |}.

Definition set_priority (v : string) (x : t) : t :=
  {| alert := alert x; incident_severity := incident_severity x;
     incident_title := incident_title x;
     summary := summary x; affected_services := affected_services x;
     recommended_actions := recommended_actions x; assigned_team := assigned_team x;
     runbook_url := runbook_url x; priority := v |}.
End TriageResult.

(** Human approval for triage classification. *)
Module TriageApproval.
Record t : Type := {
  approved : Approved;
  notes : string
}.
End TriageApproval.

(** Created GitHub issue details. *)
Module GitHubIssue.
Record t : Type := {
  triage : TriageResult.t;
  issue_number : Z;
  issue_url : string;
  labels : list string;
  created_at : string
}.
End GitHubIssue.

(** Teams notification result. *)
Module TeamsNotification.
Record t : Type := {
  github_issue : GitHubIssue.t;
  channel : string;
  message_id : string;
  posted_at : string;
  success : bool
}.
End TeamsNotification.

(** The messages of the workflow, tagged by their Python type. *)
Inductive Message : Type :=
| MAlertInput (alert : AlertInput.t)
| MProcessedAlert (alert : ProcessedAlert.t)
| MTriageResult (triage : TriageResult.t)
| MGitHubIssue (issue : GitHubIssue.t)
| MTeamsNotification (notification : TeamsNotification.t).

Inductive MessageType : Type :=
| TAlertInput
| TProcessedAlert
| TTriageResult
| TGitHubIssue
| TTeamsNotification.

(** What a caller can hand to a resume call: a [TriageApproval], or some other
    value, which is not one. *)
Inductive Response : Type :=
| RTriageApproval (approval : TriageApproval.t)
| RJson (value : json).

Inductive ResponseType : Type :=
| TTriageApproval
| TJson.

#[global] Instance MessageType_eq_dec : EqDecision MessageType.
Proof. solve_decision. Defined.

#[global] Instance ResponseType_eq_dec : EqDecision ResponseType.
Proof. solve_decision. Defined.

#[global] Instance Message_tagged : Engine.Tagged Message MessageType := fun m =>
  match m with
  | MAlertInput _ => TAlertInput
  | MProcessedAlert _ => TProcessedAlert
  | MTriageResult _ => TTriageResult
  | MGitHubIssue _ => TGitHubIssue
  | MTeamsNotification _ => TTeamsNotification
  end.

#[global] Instance Response_tagged : Engine.Tagged Response ResponseType := fun r =>
  match r with
  | RTriageApproval _ => TTriageApproval
  | RJson _ => TJson
  end.

(** What a handler of the workflow does through its [WorkflowContext]; the
    terminal output is a [str]. *)
Abbreviation Effect := (Engine.Effect Message string ResponseType).

(** The executors, workflows and runs of these messages. *)
Abbreviation Executor := (Engine.Executor Message Response string MessageType ResponseType).
Abbreviation Workflow := (Engine.Workflow Message Response string MessageType ResponseType).
Abbreviation Run := (Engine.Run Message string ResponseType).

(** [await ctx.send_message(m)] *)
Definition send_message (m : Message) : result Effect := Ok (Engine.Emit [m]).

(** [await ctx.request_info(request_data=m, response_type=ty)] *)
Definition request_info (m : Message) (ty : ResponseType) : result Effect :=
  Ok (Engine.RequestInfo m ty).

(** [await ctx.yield_output(o)] *)
Definition yield_output (o : string) : result Effect := Ok (Engine.YieldOutput o).

(** What differs from one execution of the program to the next: [hash] of a
    [str] (salted per process) and the readings of [datetime.now().isoformat()],
    indexed by the number of handler invocations before the reading. *)
Record World : Type := {
  hash : string -> Z;
  now : nat -> string
}.

(** ** Executors *)

Section Executors.

(** [json.loads] on a [str]. *)
Variable json_loads : string -> loaded.

Variable world : World.

(** Step 1: receives and validates incoming alerts. [received_at] is the
    reading of the clock during the call. Of the exceptions of [json.loads]
    the handler catches [json.JSONDecodeError] alone. *)
Definition process_alert (received_at : string) (alert : AlertInput.t) : result Effect :=
  (* Parse metrics JSON; the field is a str, so the isinstance test holds *)
  let* metrics :=
    match json_loads (AlertInput.metrics alert) with
    | Returned v => Ok v
    | JSONDecodeError => Ok (JDict [])
    | Raised e => Raise e
    end in
  let validation_errors : list string := [] in
  (* Validate required fields *)
  let validation_errors :=
    if negb (truthy (AlertInput.alert_id alert))
    then validation_errors ++ ["Missing alert_id"] else validation_errors in
  let validation_errors :=
    if negb (truthy (AlertInput.title alert))
    then validation_errors ++ ["Missing title"] else validation_errors in
  let validation_errors :=
    if negb (existsb (String.eqb (severity_value (AlertInput.severity alert)))
                     ["critical"; "high"; "medium"; "low"])
    then validation_errors
         ++ ["Invalid severity: " +:+ severity_value (AlertInput.severity alert)]
    else validation_errors in
  let processed :=
    {| ProcessedAlert.alert_id := AlertInput.alert_id alert;
       ProcessedAlert.title := AlertInput.title alert;
       ProcessedAlert.severity := severity_value (AlertInput.severity alert);
       ProcessedAlert.description := AlertInput.description alert;
       ProcessedAlert.source := AlertInput.source alert;
       ProcessedAlert.resource := AlertInput.resource alert;
       ProcessedAlert.metrics := metrics;
       ProcessedAlert.received_at := received_at;
       ProcessedAlert.is_valid := (length validation_errors =? 0)%nat;
       ProcessedAlert.validation_errors := validation_errors |} in
  send_message (MProcessedAlert processed).

(** Service to team mapping *)
Definition SERVICE_TEAMS : list (string * string) :=
  [ ("vm-db", "platform-sre-team");
    ("vm-prod", "backend-team");
    ("vm-api", "api-team");
    ("vm-cache", "platform-team") ].

(** Runbook URLs *)
Definition RUNBOOKS : list (string * string) :=
  [ ("cpu", "https://wiki.contoso.com/runbooks/high-cpu");
    ("memory", "https://wiki.contoso.com/runbooks/high-memory");
    ("disk", "https://wiki.contoso.com/runbooks/disk-space");
    ("network", "https://wiki.contoso.com/runbooks/network-issues");
    ("default", "https://wiki.contoso.com/runbooks/general-triage") ].

(** [isinstance(v, (int, float)) and v > 80] *)
Definition elevated (v : json) : bool :=
  is_number v && match json_gt_int v 80 with Ok b => b | Raise _ => false end.

(** Step 2: analyzes the alert and determines incident severity. *)
Definition triage_alert (alert : ProcessedAlert.t) : result Effect :=
  (* Map alert severity to incident severity *)
  let severity_map :=
    [("critical", "sev1"); ("high", "sev2"); ("medium", "sev3"); ("low", "sev4")] in
  let incident_severity := get severity_map (ProcessedAlert.severity alert) "sev3" in
  (* Determine priority *)
  let priority_map := [("sev1", "P1"); ("sev2", "P2"); ("sev3", "P3"); ("sev4", "P4")] in
  (* Find assigned team based on resource name *)
  let assigned_team :=
    match List.find (fun '(prefix, _) => startswith (ProcessedAlert.resource alert) prefix)
                    SERVICE_TEAMS with
    | Some (_, team) => team
    | None => "platform-sre-team"
    end in
  (* Determine affected services based on resource *)
  let affected_services :=
    if str_in "db" (ProcessedAlert.resource alert)
    then ["database-primary"; "order-service"; "inventory-service"]
    else if str_in "api" (ProcessedAlert.resource alert)
    then ["api-gateway"; "payment-service"]
    else if str_in "cache" (ProcessedAlert.resource alert)
    then ["redis-cache"; "session-service"]
    else [ProcessedAlert.resource alert] in
  (* Get appropriate runbook *)
  let* default_runbook := getitem RUNBOOKS "default" in
  let runbook_url :=
    match List.find (fun '(keyword, _) =>
                       str_in keyword (lower (ProcessedAlert.title alert))
                       || str_in keyword (lower (ProcessedAlert.description alert)))
                    RUNBOOKS with
    | Some (_, url) => url
    | None => default_runbook
    end in
  (* Generate recommended actions *)
  let recommended_actions : list string := [] in
  let metrics := ProcessedAlert.metrics alert in
  let* cpu := json_get metrics "cpu_percent" (JInt 0) in
  let* cpu_high := json_gt_int cpu 90 in
  let recommended_actions :=
    if cpu_high
    then recommended_actions ++ ["Check for runaway processes"]
                             ++ ["Consider scaling up or out"]
    else recommended_actions in
  let* memory := json_get metrics "memory_percent" (JInt 0) in
  let* memory_high := json_gt_int memory 85 in
  let recommended_actions :=
    if memory_high
    then recommended_actions ++ ["Identify memory-intensive queries"]
                             ++ ["Check for memory leaks"]
    else recommended_actions in
  let recommended_actions :=
    match recommended_actions with
    | [] => recommended_actions ++ ["Review recent deployments"]
                                ++ ["Check system logs for errors"]
    | _ => recommended_actions
    end in
  let* items := json_items metrics in
  let* priority := getitem priority_map incident_severity in
  let triage :=
    {| TriageResult.alert := alert;
       TriageResult.incident_severity := incident_severity;
       TriageResult.incident_title :=
         "[" +:+ upper incident_severity +:+ "] " +:+ ProcessedAlert.title alert;
       TriageResult.summary :=
         ProcessedAlert.description alert +:+ ". Resource: "
         +:+ ProcessedAlert.resource alert +:+ ". Current metrics show elevated "
         +:+ join ", " (map fst (List.filter (fun '(_, v) => elevated v) items)) +:+ ".";
       TriageResult.affected_services := affected_services;
       TriageResult.recommended_actions := recommended_actions;
       TriageResult.assigned_team := assigned_team;
       TriageResult.runbook_url := runbook_url;
       TriageResult.priority := priority |} in
  (* Request human approval for sev1/sev2 incidents *)
  if existsb (String.eqb incident_severity) ["sev1"; "sev2"]
  then request_info (MTriageResult triage) TTriageApproval
  else send_message (MTriageResult triage).

(** Processes the human approval and updates the triage if needed. The source
    updates [original_triage] in place; the updated record is what is sent. *)
Definition handle_approval (original_triage : TriageResult.t) (response : TriageApproval.t)
  : result Effect :=
  let triage := original_triage in
  let approved := approved_value (TriageApproval.approved response) in
  (* Handle severity overrides *)
  if startswith approved "override" then
    let* new_severity := last_item (split approved) in
    let triage := TriageResult.set_incident_severity new_severity triage in
    let triage :=
      TriageResult.set_incident_title
        ("[" +:+ upper new_severity +:+ "] "
         +:+ ProcessedAlert.title (TriageResult.alert triage)) triage in
    let* priority := getitem [("sev1", "P1"); ("sev2", "P2"); ("sev3", "P3")] new_severity in
    let triage := TriageResult.set_priority priority triage in
    send_message (MTriageResult triage)
  else send_message (MTriageResult triage).

(** Step 3: creates a GitHub issue for incident tracking (simulated). *)
Definition create_issue (created_at : string) (triage : TriageResult.t) : result Effect :=
  (* Simulate issue creation; Python's % takes the sign of the divisor *)
  let issue_number :=
    hash world (ProcessedAlert.alert_id (TriageResult.alert triage)) mod 10000 + 1000 in
  let labels :=
    [ "severity:" +:+ TriageResult.incident_severity triage;
      "priority:" +:+ TriageResult.priority triage;
      "incident";
      TriageResult.assigned_team triage ] in
  let issue :=
    {| GitHubIssue.triage := triage;
       GitHubIssue.issue_number := issue_number;
       GitHubIssue.issue_url :=
         "https://github.com/contoso/incidents/issues/" +:+ str_int issue_number;
       GitHubIssue.labels := labels;
       GitHubIssue.created_at := created_at |} in
  send_message (MGitHubIssue issue).

(** Step 4: posts a notification to the Teams channel (simulated). *)
Definition notify_teams (posted_at : string) (issue : GitHubIssue.t) : result Effect :=
  (* Determine channel based on severity *)
  let channel_map :=
    [ ("sev1", "#incident-critical");
      ("sev2", "#incident-high");
      ("sev3", "#ops-alerts");
      ("sev4", "#ops-info") ] in
  let channel :=
    get channel_map (TriageResult.incident_severity (GitHubIssue.triage issue))
        "#ops-alerts" in
  let notification :=
    {| TeamsNotification.github_issue := issue;
       TeamsNotification.channel := channel;
       TeamsNotification.message_id :=
         "msg-" +:+ str_int (hash world (GitHubIssue.issue_url issue) mod 100000);
       TeamsNotification.posted_at := posted_at;
       TeamsNotification.success := true |} in
  send_message (MTeamsNotification notification).

(** Step 5: generates the final incident report. *)
Definition generate_report (notification : TeamsNotification.t) : result Effect :=
  let issue := TeamsNotification.github_issue notification in
  let triage := GitHubIssue.triage issue in
  (* Build report *)
  let severity_emoji :=
    [("sev1", "🔴"); ("sev2", "🟠"); ("sev3", "🟡"); ("sev4", "🔵")] in
  let emoji := get severity_emoji (TriageResult.incident_severity triage) "⚪" in
  let actions := TriageResult.recommended_actions triage in
  let report :=
    strip (join newline
      [ "";
        emoji +:+ " INCIDENT RESPONSE COMPLETE " +:+ emoji;
        "════════════════════════════════════════";
        "";
        "📋 Incident: " +:+ TriageResult.incident_title triage;
        "🎫 Ticket: #" +:+ str_int (GitHubIssue.issue_number issue);
        "🔗 GitHub: " +:+ GitHubIssue.issue_url issue;
        "";
        "📊 Classification:";
        "   • Severity: " +:+ upper (TriageResult.incident_severity triage);
        "   • Priority: " +:+ TriageResult.priority triage;
        "   • Assigned: " +:+ TriageResult.assigned_team triage;
        "";
        "⚠️ Affected Services:";
        "   • " +:+ (newline +:+ join "   • " (TriageResult.affected_services triage));
        "";
        "📝 Summary:";
        "   " +:+ TriageResult.summary triage;
        "";
        "✅ Recommended Actions:";
        "   1. " +:+ (if (1 <? length actions)%nat
                      then newline +:+ join "   2. " (take 2 actions)
                      else match actions with
                           | first :: _ => first
                           | [] => "Review logs"
                           end);
        "";
        "📚 Runbook: " +:+ TriageResult.runbook_url triage;
        "";
        "💬 Teams Notification:";
        "   • Channel: " +:+ TeamsNotification.channel notification;
        "   • Status: " +:+ (if TeamsNotification.success notification
                             then "✓ Posted" else "✗ Failed");
        "";
        "════════════════════════════════════════";
        "        " ]) in
  yield_output report.

(** The executor classes: each decorated method is a handler declared for the
    type of its message parameter, sending the type of its [WorkflowContext].
    A handler reads the clock when it runs. *)
Definition AlertProcessor (id : string) : Executor :=
  {| Engine.id := id;
     Engine.handlers :=
       [ {| Engine.h_input := TAlertInput;
            Engine.h_output := Some TProcessedAlert;
            Engine.h_run := fun step m =>
              match m with
              | MAlertInput alert => process_alert (now world step) alert
              | _ => Raise (TypeError "process_alert")
              end |} ];
     Engine.response_handlers := [] |}.

Definition IncidentTriageExecutor (id : string) : Executor :=
  {| Engine.id := id;
     Engine.handlers :=
       [ {| Engine.h_input := TProcessedAlert;
            Engine.h_output := Some TTriageResult;
            Engine.h_run := fun _ m =>
              match m with
              | MProcessedAlert alert => triage_alert alert
              | _ => Raise (TypeError "triage_alert")
              end |} ];
     Engine.response_handlers :=
       [ {| Engine.rh_request := TTriageResult;
            Engine.rh_response := TTriageApproval;
            Engine.rh_output := Some TTriageResult;
            Engine.rh_run := fun _ m resp =>
              match m, resp with
              | MTriageResult original_triage, RTriageApproval response =>
                  handle_approval original_triage response
              | _, _ => Raise (TypeError "handle_approval")
              end |} ] |}.

Definition GitHubIssueCreator (id : string) : Executor :=
  {| Engine.id := id;
     Engine.handlers :=
       [ {| Engine.h_input := TTriageResult;
            Engine.h_output := Some TGitHubIssue;
            Engine.h_run := fun step m =>
              match m with
              | MTriageResult triage => create_issue (now world step) triage
              | _ => Raise (TypeError "create_issue")
              end |} ];
     Engine.response_handlers := [] |}.

Definition TeamsNotifier (id : string) : Executor :=
  {| Engine.id := id;
     Engine.handlers :=
       [ {| Engine.h_input := TGitHubIssue;
            Engine.h_output := Some TTeamsNotification;
            Engine.h_run := fun step m =>
              match m with
              | MGitHubIssue issue => notify_teams (now world step) issue
              | _ => Raise (TypeError "notify_teams")
              end |} ];
     Engine.response_handlers := [] |}.

(** [WorkflowContext[Never, str]]: the reporter sends no message and yields a
    [str]. *)
Definition IncidentReporter (id : string) : Executor :=
  {| Engine.id := id;
     Engine.handlers :=
       [ {| Engine.h_input := TTeamsNotification;
            Engine.h_output := None;
            Engine.h_run := fun _ m =>
              match m with
              | MTeamsNotification notification => generate_report notification
              | _ => Raise (TypeError "generate_report")
              end |} ];
     Engine.response_handlers := [] |}.

(** ** Workflow definition *)

(** Create executors *)
Definition alert_processor : Executor := AlertProcessor "alert_processor".
Definition incident_triage : Executor := IncidentTriageExecutor "incident_triage".
Definition github_creator : Executor := GitHubIssueCreator "github_creator".
Definition teams_notifier : Executor := TeamsNotifier "teams_notifier".
Definition incident_reporter : Executor := IncidentReporter "incident_reporter".

(** The builder after the calls of the source, before [.build()]. *)
Definition workflow_builder : Engine.Builder Message Response string MessageType ResponseType :=
  Engine.add_edge teams_notifier incident_reporter
    (Engine.add_edge github_creator teams_notifier
      (Engine.add_edge incident_triage github_creator
        (Engine.add_edge alert_processor incident_triage
          (Engine.set_start_executor alert_processor
            (Engine.WorkflowBuilder
               "SRE Incident Response"
               "Automated incident triage with GitHub issue creation and Teams notifications"))))).

(** Build the workflow. [.build()] raises when the graph is refused, which
    [workflow_is_built] below shows is not the case; the graph with no edge
    stands for that case. *)
Definition workflow : Workflow :=
  default {| Engine.wf_name := ""; Engine.wf_description := "";
             Engine.wf_start := Engine.id alert_processor;
             Engine.wf_executors := [alert_processor]; Engine.wf_edges := [] |}
          (Engine.build workflow_builder).

End Executors.

(** ** A sample environment

    A hash in Python's range for [str] (a signed 64-bit integer) and a clock
    that advances by one second per reading: one of the worlds a run can
    execute in, used for the closed examples. Its [json.loads] can enter 900
    calls, one inside the other: the default recursion limit of CPython,
    1000, with a hundred calls in progress. *)

Definition sample_loads : string -> loaded := JsonDecoder.loads 900.

Definition sample_hash (s : string) : Z :=
  let h := fold_left (fun h c => (h * 1000003 + Z.of_nat (nat_of_ascii c)) mod 2 ^ 64)
                     (list_ascii_of_string s) 14695981039346656037 in
  if h <? 2 ^ 63 then h else h - 2 ^ 64.

Definition sample_world : World :=
  {| hash := sample_hash;
     now := fun n => "2026-01-31T09:00:0" +:+ str_int (Z.of_nat n) +:+ ".000000" |}.

(** The alert of the round-trip property: severity critical, resource
    vm-db-01, metrics with cpu_percent 94.7, the other fields at their
    defaults. *)
Definition round_trip_alert : AlertInput.t :=
  {| AlertInput.alert_id := AlertInput.alert_id AlertInput.default;
     AlertInput.title := AlertInput.title AlertInput.default;
     AlertInput.severity := critical;
     AlertInput.description := AlertInput.description AlertInput.default;
     AlertInput.source := AlertInput.source AlertInput.default;
     AlertInput.resource := "vm-db-01";
     AlertInput.metrics := "{" +:+ dquote +:+ "cpu_percent" +:+ dquote +:+ ": 94.7}" |}.

(** The double that the literal 94.7 denotes, [0x1.7accccccccccdp+6]. *)
Definition float_94_7 : float := FFinite 6663920073624781 (-46).

(** The double that the literal 88.5 denotes, [0x1.62p+6]. *)
Definition float_88_5 : float := FFinite 6227633859723264 (-46).

(** A text of 2000 opening brackets. *)
Definition deep_brackets : string := String.concat "" (repeat "[" 2000).

(** ** Vocabulary of the properties *)

(** The value the alert processor stores as the metrics of an alert, or the
    exception of [json.loads] that it does not catch. *)
Definition decoded (json_loads : string -> loaded) (alert : AlertInput.t) : result json :=
  match json_loads (AlertInput.metrics alert) with
  | Returned v => Ok v
  | JSONDecodeError => Ok (JDict [])
  | Raised e => Raise e
  end.

(** The triage handler can read the metrics: they are a [dict] whose
    [cpu_percent] and [memory_percent], when present, are numbers. *)
Definition triage_reads (metrics : json) : bool :=
  match metrics with
  | JDict items =>
      is_number (get items "cpu_percent" (JInt 0))
      && is_number (get items "memory_percent" (JInt 0))
  | _ => false
  end.

(** The executors that handled a message in a run, in dispatch order. *)
Definition dispatch_order (r : Run) : list string := map fst (Engine.trace r).

(** The executors of a workflow in the order its edges declare them, from the
    start executor. *)
Definition declared_order (g : Workflow) : list string :=
  Engine.wf_start g :: map Engine.e_target (Engine.wf_edges g).

(** [sub] occurs in [s]: what [sub in s] decides. *)
Definition occurs (sub s : string) : Prop := exists a b, s = a +:+ sub +:+ b.

(** What the issue creator sends for a triage result. *)
Definition issue_for (w : World) (created_at : string) (t : TriageResult.t) : GitHubIssue.t :=
  let issue_number :=
    hash w (ProcessedAlert.alert_id (TriageResult.alert t)) mod 10000 + 1000 in
  {| GitHubIssue.triage := t;
     GitHubIssue.issue_number := issue_number;
     GitHubIssue.issue_url :=
       "https://github.com/contoso/incidents/issues/" +:+ str_int issue_number;
     GitHubIssue.labels :=
       [ "severity:" +:+ TriageResult.incident_severity t;
         "priority:" +:+ TriageResult.priority t;
         "incident";
         TriageResult.assigned_team t ];
     GitHubIssue.created_at := created_at |}.

(** What the notifier sends for an issue. *)
Definition notification_for (w : World) (posted_at : string) (i : GitHubIssue.t)
  : TeamsNotification.t :=
  {| TeamsNotification.github_issue := i;
     TeamsNotification.channel :=
       get [ ("sev1", "#incident-critical"); ("sev2", "#incident-high");
             ("sev3", "#ops-alerts"); ("sev4", "#ops-info") ]
           (TriageResult.incident_severity (GitHubIssue.triage i)) "#ops-alerts";
     TeamsNotification.message_id :=
       "msg-" +:+ str_int (hash w (GitHubIssue.issue_url i) mod 100000);
     TeamsNotification.posted_at := posted_at;
     TeamsNotification.success := true |}.

(** What the reporter yields for a notification. *)
Definition report_for (n : TeamsNotification.t) : string :=
  match generate_report n with
  | Ok (Engine.YieldOutput report) => report
  | _ => ""
  end.

(** The run after the three stages downstream of the triage handled [t]. *)
Definition downstream (w : World) (t : TriageResult.t) (r : Run) : Run :=
  let i := issue_for w (now w (Engine.steps r)) t in
  let n := notification_for w (now w (S (Engine.steps r))) i in
  {| Engine.pending := Engine.pending r;
     Engine.outputs := Engine.outputs r ++ [report_for n];
     Engine.failure := Engine.failure r;
     Engine.trace :=
       Engine.trace r ++ [ ("github_creator", MTriageResult t);
                           ("teams_notifier", MGitHubIssue i);
                           ("incident_reporter", MTeamsNotification n) ];
     Engine.resumed := Engine.resumed r;
     Engine.steps := S (S (S (Engine.steps r)));
     Engine.next_id := Engine.next_id r |}.

(** The validation problems of an alert: its empty required fields. *)
Definition validation_errors_of (a : AlertInput.t) : list string :=
  (if truthy (AlertInput.alert_id a) then [] else ["Missing alert_id"])
  ++ (if truthy (AlertInput.title a) then [] else ["Missing title"]).

(** What the alert processor sends for an alert received at [received_at]
    when it stores [metrics]. *)
Definition processed_alert (received_at : string) (a : AlertInput.t) (metrics : json)
  : ProcessedAlert.t :=
  {| ProcessedAlert.alert_id := AlertInput.alert_id a;
     ProcessedAlert.title := AlertInput.title a;
     ProcessedAlert.severity := severity_value (AlertInput.severity a);
     ProcessedAlert.description := AlertInput.description a;
     ProcessedAlert.source := AlertInput.source a;
     ProcessedAlert.resource := AlertInput.resource a;
     ProcessedAlert.metrics := metrics;
     ProcessedAlert.received_at := received_at;
     ProcessedAlert.is_valid := truthy (AlertInput.alert_id a) && truthy (AlertInput.title a);
     ProcessedAlert.validation_errors := validation_errors_of a |}.

(** The incident severity and the priority the triage gives an alert
    severity, and whether it asks for approval. *)
Definition incident_severity_of (s : Severity) : string :=
  match s with
  | critical => "sev1"
  | high => "sev2"
  | medium => "sev3"
  | low => "sev4"
  end.

Definition priority_of (s : Severity) : string :=
  match s with
  | critical => "P1"
  | high => "P2"
  | medium => "P3"
  | low => "P4"
  end.

Definition needs_approval (s : Severity) : bool :=
  match s with
  | critical | high => true
  | medium | low => false
  end.

(** The triage after the approval: unchanged by "approve", with the severity,
    the title and the priority of the override otherwise. *)
Definition override (sev prio : string) (t : TriageResult.t) : TriageResult.t :=
  TriageResult.set_priority prio
    (TriageResult.set_incident_title
       ("[" +:+ upper sev +:+ "] " +:+ ProcessedAlert.title (TriageResult.alert t))
       (TriageResult.set_incident_severity sev t)).

Definition approved_triage (t : TriageResult.t) (response : TriageApproval.t)
  : TriageResult.t :=
  match TriageApproval.approved response with
  | approve => t
  | override_to_sev1 => override "sev1" "P1" t
  | override_to_sev2 => override "sev2" "P2" t
  | override_to_sev3 => override "sev3" "P3" t
  end.

(** The alert processor stores metrics that the triage handler can read:
    [json.loads] returns an object whose [cpu_percent] and [memory_percent],
    when present, are numbers, or it raises [json.JSONDecodeError]. *)
Definition readable (json_loads : string -> loaded) (alert : AlertInput.t) : bool :=
  match decoded json_loads alert with
  | Ok metrics => triage_reads metrics
  | Raise _ => false
  end.

(** The run in which the alert processor handled the alert. *)
Definition processed (a : AlertInput.t) : Run :=
  Engine.invoked "alert_processor" (MAlertInput a) Engine.new_run.

(** The run in which the alert processor and the triage handled the alert. *)
Definition triaged (w : World) (a : AlertInput.t) (metrics : json) : Run :=
  Engine.invoked "incident_triage"
    (MProcessedAlert (processed_alert (now w 0) a metrics))
    (processed a).

(** The run [r] after the triage opened its request for the approval of [t]. *)
Definition awaiting_approval (t : TriageResult.t) (r : Run) : Run :=
  {| Engine.pending :=
       <[Engine.next_id r :=
           {| Engine.origin := "incident_triage";
              Engine.request := MTriageResult t;
              Engine.expected := TTriageApproval |}]> (Engine.pending r);
     Engine.outputs := Engine.outputs r;
     Engine.failure := Engine.failure r;
     Engine.trace := Engine.trace r;
     Engine.resumed := Engine.resumed r;
     Engine.steps := Engine.steps r;
     Engine.next_id := S (Engine.next_id r) |}.

Section RunVocabulary.

Context {Msg Out RespTy : Type}.

Implicit Types r : Engine.Run Msg Out RespTy.

(** Correlation ids are allocated in increasing order: an open request and a
    consumed one both have an id below the next fresh one, and an open request
    has not been consumed. *)
Definition well_formed r : Prop :=
  (forall cid, is_Some (Engine.pending r !! cid) ->
     (cid < Engine.next_id r)%nat /\ cid ∉ Engine.resumed r)
  /\ (forall cid, cid ∈ Engine.resumed r -> (cid < Engine.next_id r)%nat).

(** How often the response handler ran for a correlation id. *)
Definition invocations (cid : nat) r : nat :=
  length (List.filter (Nat.eqb cid) (Engine.resumed r)).

(** [r'] continues [r] without any resume: the same requests were consumed,
    and the requests opened since then have fresh ids. *)
Definition continues r r' : Prop :=
  Engine.resumed r' = Engine.resumed r
  /\ (Engine.next_id r <= Engine.next_id r')%nat
  /\ (forall cid, (cid < Engine.next_id r)%nat ->
        Engine.pending r' !! cid = Engine.pending r !! cid)
  /\ (forall cid, is_Some (Engine.pending r' !! cid) -> (cid < Engine.next_id r')%nat).

(** The run in which the request [cid] of [r] has just been consumed and
    handed to its response handler. *)
Definition answered (cid : nat) r : Engine.Run Msg Out RespTy :=
  Engine.responded cid (Engine.consume cid r).

End RunVocabulary.

(** The same alert with another metrics text. *)
Definition with_metrics (metrics : string) (a : AlertInput.t) : AlertInput.t :=
  {| AlertInput.alert_id := AlertInput.alert_id a;
     AlertInput.title := AlertInput.title a;
     AlertInput.severity := AlertInput.severity a;
     AlertInput.description := AlertInput.description a;
     AlertInput.source := AlertInput.source a;
     AlertInput.resource := AlertInput.resource a;
     AlertInput.metrics := metrics |}.

(** The messages a handler sent downstream. *)
Definition sent (outcome : result Effect) : list Message :=
  match outcome with
  | Ok (Engine.Emit ms) => ms
  | _ => []
  end.

(** An alert with no title and metrics that are not JSON. *)
Definition untitled_alert : AlertInput.t :=
  {| AlertInput.alert_id := "ALT-2026-0131-002";
     AlertInput.title := "";
     AlertInput.severity := medium;
     AlertInput.description := "disk usage above 80% on vm-api-03";
     AlertInput.source := "Azure Monitor";
     AlertInput.resource := "vm-api-03";
     AlertInput.metrics := "disk=81%" |}.

(** The request a handler opened. *)
Definition requested (outcome : result Effect) : list (Message * ResponseType) :=
  match outcome with
  | Ok (Engine.RequestInfo m ty) => [(m, ty)]
  | _ => []
  end.

(** The outputs a handler yielded. *)
Definition yielded (outcome : result Effect) : list string :=
  match outcome with
  | Ok (Engine.YieldOutput o) => [o]
  | _ => []
  end.

(** Every message [src] sends, from a handler or a response handler run on a
    message of its declared type, has the type [tgt]'s handler is declared
    for, which is the type the sender declared to send. *)
Definition stage_types_match (src tgt : Executor) : Prop :=
  exists h_tgt,
    Engine.handlers tgt = [h_tgt]
    /\ (forall h step m m',
          h ∈ Engine.handlers src -> Engine.tag_of m = Engine.h_input h ->
          m' ∈ sent (Engine.h_run h step m) ->
          Engine.tag_of m' = Engine.h_input h_tgt
          /\ Engine.h_output h = Some (Engine.tag_of m')
          /\ Engine.select_handler tgt m' = Some h_tgt)
    /\ (forall h step m resp m',
          h ∈ Engine.response_handlers src ->
          Engine.tag_of m = Engine.rh_request h ->
          Engine.tag_of resp = Engine.rh_response h ->
          m' ∈ sent (Engine.rh_run h step m resp) ->
          Engine.tag_of m' = Engine.h_input h_tgt
          /\ Engine.rh_output h = Some (Engine.tag_of m')
          /\ Engine.select_handler tgt m' = Some h_tgt).

(** Submitting an alert and resuming the request 0 with an approval. *)
Definition round_trip (json_loads : string -> loaded) (w : World) (fuel : nat)
    (a : AlertInput.t) (response : TriageApproval.t) : option Run :=
  r ← Engine.submit fuel (workflow json_loads w) (MAlertInput a);
  match Engine.resume fuel (workflow json_loads w) r 0 (RTriageApproval response) with
  | inr (Some r') => Some r'
  | _ => None
  end.

(** The notification of the report of a run that ended downstream of [t]. *)
Definition notification_of (w : World) (t : TriageResult.t) (r : Run) : TeamsNotification.t :=
  notification_for w (now w (S (Engine.steps r))) (issue_for w (now w (Engine.steps r)) t).

Definition approve_as_is : TriageApproval.t :=
  {| TriageApproval.approved := approve; TriageApproval.notes := "" |}.

Definition override_sev2 : TriageApproval.t :=
  {| TriageApproval.approved := override_to_sev2; TriageApproval.notes := "" |}.

(** How a run stands. *)
Inductive Outcome : Type := Completes | Suspends | Fails.

Definition outcome (r : Run) : Outcome :=
  match Engine.status r with
  | Engine.Completed _ => Completes
  | Engine.Suspended _ => Suspends
  | Engine.Failed _ => Fails
  end.

(** A low-severity alert whose metrics text is a JSON array. *)
Definition low_alert_with_list_metrics : AlertInput.t :=
  {| AlertInput.alert_id := "ALT-2026-0131-003";
     AlertInput.title := "Nightly backup finished late";
     AlertInput.severity := low;
     AlertInput.description := "backup window exceeded by 12 minutes";
     AlertInput.source := "Azure Monitor";
     AlertInput.resource := "vm-batch-02";
     AlertInput.metrics := "[]" |}.

(** ** Vocabulary of the further properties *)

(** The triage result a handler produced, sent downstream or held for the
    approval. *)
Definition triage_result (outcome : result Effect) : option TriageResult.t :=
  match outcome with
  | Ok (Engine.Emit [MTriageResult t]) => Some t
  | Ok (Engine.RequestInfo (MTriageResult t) _) => Some t
  | _ => None
  end.

(** The horizontal rule of the report: forty box-drawing characters. *)
Definition rule : string := "════════════════════════════════════════".

(** A text made of blanks only. *)
Fixpoint blank (s : string) : bool :=
  match s with
  | EmptyString => true
  | String c s' => is_space c && blank s'
  end.

(** A processed alert on the database host of the API tier, with both gauges
    above their thresholds. *)
Definition api_db_alert : ProcessedAlert.t :=
  {| ProcessedAlert.alert_id := "ALT-2026-0131-004";
     ProcessedAlert.title := "High CPU on the orders API database";
     ProcessedAlert.severity := "high";
     ProcessedAlert.description := "CPU and memory above threshold for 10 minutes";
     ProcessedAlert.source := "Azure Monitor";
     ProcessedAlert.resource := "vm-api-db-01";
     ProcessedAlert.metrics :=
       JDict [("cpu_percent", JFloat float_94_7); ("memory_percent", JInt 91)];
     ProcessedAlert.received_at := "2026-01-31T09:00:00.000000";
     ProcessedAlert.is_valid := true;
     ProcessedAlert.validation_errors := [] |}.

(** ** The tools of the agents

    The function tools of the travel assistant ([get_weather] and
    [search_restaurants], the same text in both AG-UI servers) and of the SRE
    assistant ([get_system_metrics]). A [dict] a tool returns is a [JDict],
    the list of its items in source order. *)

(** The [float] a decimal literal denotes: [decimal 785 (-1)] is [78.5]. *)
Definition decimal (d k : Z) : float := JsonDecoder.round_to_double d k.

(** The values of the weather table: an [int] or a [str]. *)
Inductive scalar : Type :=
| SInt (n : Z)
| SStr (s : string).

(** What an f-string puts for a value of the table: [str(v)]. *)
Definition format (v : scalar) : string :=
  match v with
  | SInt n => str_int n
  | SStr s => s
  end.

Definition weather_data : list (string * list (string * scalar)) :=
  [ ("Seattle", [("temp", SInt 18); ("condition", SStr "Cloudy"); ("humidity", SInt 75)]);
    ("San Francisco", [("temp", SInt 22); ("condition", SStr "Sunny"); ("humidity", SInt 60)]);
    ("New York", [("temp", SInt 25); ("condition", SStr "Partly cloudy"); ("humidity", SInt 65)]);
    ("London", [("temp", SInt 15); ("condition", SStr "Rainy"); ("humidity", SInt 85)]) ].

(** Get the current weather for a location. *)
Definition get_weather (location : string) : result string :=
  let data :=
    get weather_data location
        [("temp", SInt 20); ("condition", SStr "Unknown"); ("humidity", SInt 50)] in
  let* condition := getitem data "condition" in
  let* temp := getitem data "temp" in
  let* humidity := getitem data "humidity" in
  Ok ("Weather in " +:+ location +:+ ": " +:+ format condition +:+ ", " +:+ format temp
      +:+ "°C, " +:+ format humidity +:+ "% humidity").

(** Search for restaurants in a location. [cuisine] defaults to "any". *)
Definition search_restaurants (location cuisine : string) : json :=
  JDict
    [ ("location", JStr location);
      ("cuisine", JStr cuisine);
      ("results",
       JList
         [ JDict [ ("name", JStr "The Golden Fork");
                   ("cuisine", JStr (if negb (String.eqb cuisine "any") then cuisine else "Italian"));
                   ("rating", JFloat (decimal 45 (-1)));
                   ("price", JStr "$$") ];
           JDict [ ("name", JStr "Spice Haven");
                   ("cuisine", JStr "Indian");
                   ("rating", JFloat (decimal 47 (-1)));
                   ("price", JStr "$$") ];
           JDict [ ("name", JStr "Green Leaf");
                   ("cuisine", JStr "Vegetarian");
                   ("rating", JFloat (decimal 43 (-1)));
                   ("price", JStr "$") ] ]) ].

(** Simulated metrics data *)
Definition metrics_data : list (string * list (string * float)) :=
  [ ("vm-prod-01", [("cpu", decimal 785 (-1)); ("memory", decimal 623 (-1));
                    ("disk", decimal 450 (-1)); ("network_in", decimal 1256 (-1))]);
    ("vm-prod-02", [("cpu", decimal 231 (-1)); ("memory", decimal 412 (-1));
                    ("disk", decimal 728 (-1)); ("network_in", decimal 893 (-1))]);
    ("vm-db-01", [("cpu", decimal 912 (-1)); ("memory", decimal 885 (-1));
                  ("disk", decimal 550 (-1)); ("network_in", decimal 2341 (-1))]) ].

(** A [dict] of gauges as the value a tool returns. *)
Definition gauges (server : list (string * float)) : json :=
  JDict (map (fun '(k, v) => (k, JFloat v)) server).

(** [bool(d)] for a [dict]: the empty one is falsy. *)
Definition nonempty {A} (d : list A) : bool :=
  match d with
  | [] => false
  | _ :: _ => true
  end.

(** Retrieves current system metrics (CPU, memory, disk, network) for a
    specified server. No gauge of the table is [None], so [value is None]
    holds exactly when the server has no such gauge. *)
Definition get_system_metrics (server_name metric_type : string) : json :=
  let server := get metrics_data server_name [] in
  if negb (nonempty server) then
    JDict [("error", JStr ("Server " +:+ server_name +:+ " not found"))]
  else if String.eqb metric_type "all" then
    JDict [("server", JStr server_name); ("metrics", gauges server)]
  else
    match lookup_item metric_type server with
    | None =>
        JDict [("error",
                JStr ("Metric " +:+ metric_type +:+ " not found for " +:+ server_name))]
    | Some value =>
        JDict [ ("server", JStr server_name);
                ("metric", JStr metric_type);
                ("value", JFloat value);
                ("unit", JStr (if negb (String.eqb metric_type "network_in")
                               then "%" else "Mbps")) ]
    end.

(** [d.get(k)] on the value a tool returned. *)
Definition field (k : string) (v : json) : option json :=
  match v with
  | JDict items => lookup_item k items
  | _ => None
  end.

(** The cities of the weather table, the servers of the metrics table and the
    gauges of a server. *)
Definition cities : list string := map fst weather_data.
Definition servers : list string := map fst metrics_data.
Definition gauge_names : list string := ["cpu"; "memory"; "disk"; "network_in"].

(** The restaurants of an answer. *)
Definition results (answer : json) : list json :=
  match field "results" answer with
  | Some (JList l) => l
  | _ => []
  end.

(** ** The agents and their servers

    The module-level code of the three server scripts, as a function of the
    process environment. The objects of agent_framework, azure.identity and
    fastapi are records of the arguments they are built from. Building them
    is taken to succeed, but for [AzureOpenAIChatClient], whose constructor
    validates the endpoint and the deployment name and raises on those it
    refuses: which these are is a parameter of [agui_server]. *)

(** [os.environ] after [load_dotenv()]: [os.environ.get(k)]. *)
Definition Environ : Type := string -> option string.

(** [bool(v)] for a [str] or [None]. *)
Definition is_set (v : option string) : bool :=
  match v with
  | Some s => truthy s
  | None => false
  end.

Inductive Credential : Type := AzureCliCredential | DefaultAzureCredential.

Inductive ChatClient : Type :=
| AzureOpenAIChatClient (credential : Credential) (endpoint deployment_name : string)
| AzureAIAgentClient (project_endpoint : string) (credential : Credential)
    (model_deployment_name : string).

(** The function tools, by the function they wrap. *)
Inductive Tool : Type :=
| tool_get_weather
| tool_search_restaurants
| tool_get_system_metrics.

Module ChatAgent.
Record t : Type := {
  name : string;
  description : option string;
  instructions : string;
  chat_client : ChatClient;
  tools : list Tool
}.
End ChatAgent.

Record CORSMiddleware : Type := {
  allow_origins : list string;
  allow_credentials : bool;
  allow_methods : list string;
  allow_headers : list string
}.

(** A FastAPI application: its title, its middleware and the agents
    registered on it, by path. *)
Module FastAPI.
Record t : Type := {
  title : string;
  middleware : list CORSMiddleware;
  endpoints : list (string * ChatAgent.t)
}.

Definition new (title : string) : t :=
  {| title := title; middleware := []; endpoints := [] |}.

(** [app.add_middleware(CORSMiddleware, ...)] *)
Definition add_middleware (m : CORSMiddleware) (app : t) : t :=
  {| title := title app; middleware := middleware app ++ [m]; endpoints := endpoints app |}.
End FastAPI.

(** [add_agent_framework_fastapi_endpoint(app, agent, path)] *)
Definition add_agent_framework_fastapi_endpoint (app : FastAPI.t) (agent : ChatAgent.t)
    (path : string) : FastAPI.t :=
  {| FastAPI.title := FastAPI.title app;
     FastAPI.middleware := FastAPI.middleware app;
     FastAPI.endpoints := FastAPI.endpoints app ++ [(path, agent)] |}.

(** How running a script ends: with an exception that is not caught, with
    [exit(code)], or in a server that serves until it is stopped. *)
Inductive ScriptOutcome : Type :=
| Uncaught (e : exn)
| Exit (printed : list string) (code : Z)
| Uvicorn (printed : list string) (app : option FastAPI.t) (host : string) (port : Z)
| DevUI (logged : list string) (entities : list ChatAgent.t) (port : Z) (auto_open : bool).

Definition travel_instructions : string :=
  join newline
    [ "You are a helpful travel assistant. Use the available tools to help users:";
      "        - Check weather conditions at destinations";
      "        - Find restaurants by location and cuisine type";
      "";
      "        Be friendly and provide helpful recommendations based on the data you gather." ].

Definition open_cors : CORSMiddleware :=
  {| allow_origins := ["*"]; allow_credentials := true;
     allow_methods := ["*"]; allow_headers := ["*"] |}.

(** [src/entities/ag_ui/agui_server.py] *)
Module agui_server.

Record globals : Type := {
  endpoint : option string;
  deployment_name : string;
  chat_client : option ChatClient;
  agent : option ChatAgent.t;
  app : FastAPI.t
}.

Section Load.

(** The exception [AzureOpenAIChatClient(credential=AzureCliCredential(),
    endpoint=..., deployment_name=...)] raises in an environment, whose other
    variables it reads its settings from, for an endpoint and a deployment
    name, if it raises one: a [ServiceInitializationError] when the library
    does not take the endpoint for a URL. *)
Variable refuses : Environ -> string -> string -> option exn.

(** The globals once the module is loaded, or the exception that stops the
    loading. *)
Definition load (environ : Environ) : result globals :=
  (* Read configuration (deferred validation for DevUI discovery) *)
  let endpoint := environ "PROJECT_ENDPOINT" in
  let deployment_name := default "gpt-4o" (environ "MODEL_DEPLOYMENT_NAME") in
  let* configured :=
    match endpoint with
    | Some e =>
        if truthy e then
          match refuses environ e deployment_name with
          | Some error => Raise error
          | None =>
              let chat_client := AzureOpenAIChatClient AzureCliCredential e deployment_name in
              (* Create agent with tools *)
              let agent :=
                {| ChatAgent.name := "TravelAssistant";
                   ChatAgent.description := None;
                   ChatAgent.instructions := travel_instructions;
                   ChatAgent.chat_client := chat_client;
                   ChatAgent.tools := [tool_get_weather; tool_search_restaurants] |} in
              Ok (Some chat_client, Some agent)
          end
        else Ok (None, None)
    | None => Ok (None, None)
    end in
  let '(chat_client, agent) := configured in
  (* Create FastAPI app with CORS for web clients *)
  let app := FastAPI.new "AG-UI Travel Assistant" in
  let app := FastAPI.add_middleware open_cors app in
  (* Register the AG-UI endpoint (only if agent is configured) *)
  let app :=
    match agent with
    | Some a => add_agent_framework_fastapi_endpoint app a "/"
    | None => app
    end in
  Ok {| endpoint := endpoint; deployment_name := deployment_name;
        chat_client := chat_client; agent := agent; app := app |}.

(** The script run as [__main__]. *)
Definition run (environ : Environ) : ScriptOutcome :=
  match load environ with
  | Raise error => Uncaught error
  | Ok g =>
      if negb (is_set (endpoint g))
      then Uncaught (ValueError "PROJECT_ENDPOINT environment variable is required")
      else Uvicorn ["Starting AG-UI server at http://127.0.0.1:8888"]
                   (Some (app g)) "127.0.0.1" 8888
  end.

End Load.

End agui_server.

(** [e.startswith("https://<")]: the endpoint is the placeholder of
    .env.sample. *)
Definition placeholder (e : string) : bool := startswith e "https://<".

(** [src/_agui_server.py] *)
Module _agui_server.

Record globals : Type := {
  PROJECT_ENDPOINT : option string;
  MODEL_DEPLOYMENT : string;
  credential : option Credential;
  agent : option ChatAgent.t;
  app : option FastAPI.t
}.

Definition load (environ : Environ) : globals :=
  (* Read configuration - standardized on PROJECT_ENDPOINT from .env.sample *)
  let PROJECT_ENDPOINT := environ "PROJECT_ENDPOINT" in
  let MODEL_DEPLOYMENT := default "gpt-4o" (environ "MODEL_DEPLOYMENT_NAME") in
  let configured :=
    match PROJECT_ENDPOINT with
    | Some e => if truthy e && negb (placeholder e) then Some e else None
    | None => None
    end in
  match configured with
  | Some e =>
      let credential := DefaultAzureCredential in
      let chat_client := AzureAIAgentClient e credential MODEL_DEPLOYMENT in
      (* Create agent with tools *)
      let agent :=
        {| ChatAgent.name := "TravelAssistant";
           ChatAgent.description := None;
           ChatAgent.instructions := travel_instructions;
           ChatAgent.chat_client := chat_client;
           ChatAgent.tools := [tool_get_weather; tool_search_restaurants] |} in
      (* Create FastAPI app with CORS for web clients *)
      let app := FastAPI.new "AG-UI Travel Assistant" in
      let app := FastAPI.add_middleware open_cors app in
      (* Register the AG-UI endpoint *)
      let app := add_agent_framework_fastapi_endpoint app agent "/" in
      {| PROJECT_ENDPOINT := PROJECT_ENDPOINT; MODEL_DEPLOYMENT := MODEL_DEPLOYMENT;
         credential := Some credential; agent := Some agent; app := Some app |}
  | None =>
      {| PROJECT_ENDPOINT := PROJECT_ENDPOINT; MODEL_DEPLOYMENT := MODEL_DEPLOYMENT;
         credential := None; agent := None; app := None |}
  end.

(** The script run as [__main__]. *)
Definition run (environ : Environ) : ScriptOutcome :=
  let g := load environ in
  if negb (is_set (PROJECT_ENDPOINT g))
     || match PROJECT_ENDPOINT g with Some e => placeholder e | None => false end
  then Exit [ "ERROR: PROJECT_ENDPOINT environment variable is required";
              "Copy .env.sample to .env and set your PROJECT_ENDPOINT value." ] 1
  else Uvicorn ["Starting AG-UI server at http://127.0.0.1:8888"] (app g) "127.0.0.1" 8888.

End _agui_server.

(** [src/entities/ag_ui/_main.py]: the SRE assistant. *)
Module _main.

Definition sre_instructions : string :=
  join newline
    [ "";
      "You are an expert Site Reliability Engineer assistant. Your role is to help diagnose ";
      "and troubleshoot infrastructure issues.";
      "";
      "When analyzing server issues:";
      "1. First gather relevant metrics using the get_system_metrics tool";
      "2. Analyze the data for anomalies (CPU > 80%, Memory > 85%, Disk > 90% are concerning)";
      "3. Provide clear, actionable recommendations";
      "";
      "Be concise but thorough. Format output with clear sections.";
      "" ].

Record globals : Type := {
  PROJECT_ENDPOINT : string;
  credential : Credential;
  chat_client : ChatClient;
  agent : ChatAgent.t
}.

(** The globals once the module is loaded, or the message of the [ValueError]
    its configuration check raises. *)
Definition load (environ : Environ) : string + globals :=
  (* Configuration - loaded from .env file *)
  let PROJECT_ENDPOINT := environ "PROJECT_ENDPOINT" in
  match PROJECT_ENDPOINT with
  | Some e =>
      if negb (truthy e) || placeholder e
      then inl "Please set PROJECT_ENDPOINT in your .env file (copy from .env.sample)"
      else
        (* Initialize credential for Azure RBAC authentication *)
        let credential := DefaultAzureCredential in
        (* Create the Azure AI Agent Client *)
        let chat_client := AzureAIAgentClient e credential "gpt-5.1" in
        (* Create the SRE Agent *)
        let agent :=
          {| ChatAgent.chat_client := chat_client;
             ChatAgent.name := "SRE-Assistant";
             ChatAgent.description :=
               Some "An expert Site Reliability Engineer assistant for diagnosing infrastructure issues";
             ChatAgent.instructions := sre_instructions;
             ChatAgent.tools := [tool_get_system_metrics] |} in
        inr {| PROJECT_ENDPOINT := e; credential := credential;
               chat_client := chat_client; agent := agent |}
  | None => inl "Please set PROJECT_ENDPOINT in your .env file (copy from .env.sample)"
  end.

(** Launch the SRE Agent in DevUI server mode. *)
Definition main (g : globals) : ScriptOutcome :=
  DevUI [ "Starting SRE Assistant Agent";
          "Available at: http://localhost:8080";
          "Entity ID: agent_SRE-Assistant" ]
        [agent g] 8080 false.

(** The script run as [__main__]. *)
Definition run (environ : Environ) : ScriptOutcome :=
  match load environ with
  | inl message => Uncaught (ValueError message)
  | inr g => main g
  end.

End _main.

(** The travel assistant as both AG-UI servers build it, around a client. *)
Definition travel_assistant (agent : ChatAgent.t) (client : ChatClient) : Prop :=
  ChatAgent.name agent = "TravelAssistant"
  /\ ChatAgent.instructions agent = travel_instructions
  /\ ChatAgent.chat_client agent = client
  /\ ChatAgent.tools agent = [tool_get_weather; tool_search_restaurants].

(** Whether a script ended up serving. *)
Definition serves (o : ScriptOutcome) : bool :=
  match o with
  | Uvicorn _ _ _ _ | DevUI _ _ _ _ => true
  | Uncaught _ | Exit _ _ => false
  end.

(** An environment that sets PROJECT_ENDPOINT alone, to an endpoint that
    starts as the placeholder does, and a constructor that refuses the
    endpoints that start so, and no other. *)
Definition placeholder_environ : Environ :=
  fun name =>
    if String.eqb name "PROJECT_ENDPOINT"
    then Some "https://<your-project>.services.ai.azure.com/api/projects/<project-id>"
    else None.

Definition refuses_placeholders : Environ -> string -> string -> option exn :=
  fun _ e _ => if placeholder e then Some ServiceInitializationError else None.

(** * Properties *)

(** ** Strings *)

Section Strings.

Implicit Types s sub a b : string.

Local Arguments append : simpl nomatch.

Lemma append_nil_r s : s +:+ "" = s.
Proof. induction s as [|c s IH]; simpl; [reflexivity | now rewrite IH]. Qed.

Lemma append_assoc a b s : (a +:+ b) +:+ s = a +:+ (b +:+ s).
Proof. induction a as [|c a IH]; simpl; [reflexivity | now rewrite IH]. Qed.

(** An ASCII character is lower-cased on its own. *)
Lemma lower_cons c s :
  (nat_of_ascii c < 128)%nat -> lower (String c s) = String (lower_ascii c) (lower s).
Proof.
  intros Hc.
  assert (H196 : (nat_of_ascii c =? 196)%nat = false) by (apply Nat.eqb_neq; lia).
  assert (H226 : (nat_of_ascii c =? 226)%nat = false) by (apply Nat.eqb_neq; lia).
  destruct s as [|c2 [|c3 s3]].
  - reflexivity.
  - change (lower (String c (String c2 "")))
      with (if ((nat_of_ascii c =? 196) && (nat_of_ascii c2 =? 176))%nat
            then String "i" (String (ascii_of_nat 204) (String (ascii_of_nat 135) (lower "")))
            else String (lower_ascii c) (lower (String c2 ""))).
    now rewrite H196.
  - change (lower (String c (String c2 (String c3 s3))))
      with (if ((nat_of_ascii c =? 196) && (nat_of_ascii c2 =? 176))%nat
            then String "i" (String (ascii_of_nat 204)
                               (String (ascii_of_nat 135) (lower (String c3 s3))))
            else if ((nat_of_ascii c =? 226) && (nat_of_ascii c2 =? 132)
                     && (nat_of_ascii c3 =? 170))%nat
                 then String "k" (lower s3)
                 else String (lower_ascii c) (lower (String c2 (String c3 s3)))).
    now rewrite H196, H226.
Qed.

(** On an ASCII text, [lower] maps each capital letter to its small letter and
    leaves the rest. *)
Lemma lower_isascii s : isascii s = true -> lower s = map_string lower_ascii s.
Proof.
  induction s as [|c s IH]; [reflexivity |].
  intros H. cbn [isascii] in H. apply andb_true_iff in H as [Hc Hs].
  apply Nat.ltb_lt in Hc.
  rewrite lower_cons by exact Hc. cbn [map_string]. now rewrite IH.
Qed.

Lemma prefix_nil s : String.prefix "" s = true.
Proof. destruct s; reflexivity. Qed.

Lemma prefix_append sub b : String.prefix sub (sub +:+ b) = true.
Proof.
  induction sub as [|c sub IH]; simpl; [apply prefix_nil |].
  destruct (ascii_dec c c) as [_ | Hne]; [exact IH | now destruct Hne].
Qed.

Lemma prefix_occurs sub s : String.prefix sub s = true -> exists b, s = sub +:+ b.
Proof.
  revert s. induction sub as [|c sub IH]; intros s H.
  - now exists s.
  - destruct s as [|c' s]; simpl in H; [discriminate |].
    destruct (ascii_dec c c') as [-> | _]; [| discriminate].
    destruct (IH _ H) as [b ->]. now exists b.
Qed.

Lemma str_in_nil sub : str_in sub "" = String.prefix sub "".
Proof. apply orb_false_r. Qed.

Lemma str_in_cons sub c s :
  str_in sub (String c s) = String.prefix sub (String c s) || str_in sub s.
Proof. reflexivity. Qed.

(** [sub in s] decides whether [sub] occurs in [s]. *)
Lemma str_in_occurs sub s : str_in sub s = true <-> occurs sub s.
Proof.
  split.
  - induction s as [|c s IH]; intros H.
    + rewrite str_in_nil in H. destruct (prefix_occurs _ _ H) as [b Hb].
      now exists "", b.
    + rewrite str_in_cons in H. apply orb_true_iff in H as [H | H].
      * destruct (prefix_occurs _ _ H) as [b Hb]. now exists "", b.
      * destruct (IH H) as (a & b & ->). now exists (String c a), b.
  - intros (a & b & ->). induction a as [|c a IH].
    + change ("" +:+ sub +:+ b) with (sub +:+ b).
      destruct (sub +:+ b) eqn:E.
      * rewrite str_in_nil, <- E. apply prefix_append.
      * rewrite str_in_cons, <- E, prefix_append. reflexivity.
    + change (String c a +:+ sub +:+ b) with (String c (a +:+ sub +:+ b)).
      rewrite str_in_cons, IH. apply orb_true_r.
Qed.

Lemma occurs_append_l sub a b : occurs sub a -> occurs sub (a +:+ b).
Proof.
  intros (x & y & ->). exists x, (y +:+ b). now rewrite !append_assoc.
Qed.

Lemma occurs_append_r sub a b : occurs sub b -> occurs sub (a +:+ b).
Proof.
  intros (x & y & ->). exists (a +:+ x), y. now rewrite !append_assoc.
Qed.

Lemma occurs_refl sub : occurs sub sub.
Proof. exists "", "". now rewrite append_nil_r. Qed.

(** An occurrence of [sub] in an item of a list occurs in the joined list. *)
Lemma occurs_join sep sub (l : list string) x :
  x ∈ l -> occurs sub x -> occurs sub (join sep l).
Proof.
  intros Hin Hx. induction Hin as [x l | x y l Hin IH].
  - destruct l as [|y l]; simpl; [exact Hx | now apply occurs_append_l].
  - destruct l as [|z l]; [inversion Hin |].
    change (join sep (y :: z :: l)) with (y +:+ sep +:+ join sep (z :: l)).
    now apply occurs_append_r, occurs_append_r, IH.
Qed.

Lemma list_ascii_append a b :
  list_ascii_of_string (a +:+ b) = list_ascii_of_string a ++ list_ascii_of_string b.
Proof. induction a as [|c a IH]; simpl; [reflexivity | now rewrite IH]. Qed.

Lemma string_of_list_append (l1 l2 : list ascii) :
  string_of_list_ascii (l1 ++ l2) = string_of_list_ascii l1 +:+ string_of_list_ascii l2.
Proof. induction l1 as [|c l1 IH]; simpl; [reflexivity | now rewrite IH]. Qed.

Lemma reverse_append a b : reverse (a +:+ b) = reverse b +:+ reverse a.
Proof.
  unfold reverse. now rewrite list_ascii_append, rev_app_distr, string_of_list_append.
Qed.

Lemma reverse_involutive s : reverse (reverse s) = s.
Proof.
  unfold reverse.
  now rewrite list_ascii_of_string_of_list_ascii, rev_involutive,
    string_of_list_ascii_of_string.
Qed.

Lemma occurs_reverse sub s : occurs sub s -> occurs (reverse sub) (reverse s).
Proof.
  intros (a & b & ->). exists (reverse b), (reverse a).
  now rewrite !reverse_append, append_assoc.
Qed.

(** Removing leading blanks keeps every occurrence of a text that starts with
    a character that is no blank. *)
Lemma occurs_lstrip c sub s :
  is_space c = false -> occurs (String c sub) s -> occurs (String c sub) (lstrip s).
Proof.
  intros Hc. induction s as [|c' s IH]; intros Hocc; simpl; [exact Hocc |].
  destruct (is_space c') eqn:Hc'; [| exact Hocc].
  apply IH. destruct Hocc as (a & b & Heq). destruct a as [|c'' a]; simpl in Heq.
  - injection Heq as -> _. congruence.
  - injection Heq as _ ->. now exists a, b.
Qed.

(** [strip] keeps every occurrence of a text whose first and last characters
    are no blanks. *)
Lemma occurs_strip sub s c c' sub' sub'' :
  sub = String c sub' -> reverse sub = String c' sub'' ->
  is_space c = false -> is_space c' = false ->
  occurs sub s -> occurs sub (strip s).
Proof.
  intros -> Hrev Hc Hc' Hocc. unfold strip.
  rewrite <- (reverse_involutive (String c sub')), Hrev.
  apply occurs_reverse, occurs_lstrip; [exact Hc' |].
  rewrite <- Hrev. now apply occurs_reverse, occurs_lstrip.
Qed.

Lemma endswith_unfold s suf :
  endswith s suf =
  String.eqb s suf || match s with "" => false | String _ s' => endswith s' suf end.
Proof. destruct s; reflexivity. Qed.

Lemma endswith_append a b : endswith (a +:+ b) b = true.
Proof.
  induction a as [|c a IH].
  - change ("" +:+ b) with b. now rewrite endswith_unfold, String.eqb_refl.
  - change (String c a +:+ b) with (String c (a +:+ b)).
    rewrite endswith_unfold, IH. apply orb_true_r.
Qed.

End Strings.

(** ** The engine: open requests and resumption *)

Section EngineFacts.

Context {Msg Resp Out MsgTy RespTy : Type}.
Context {MsgTy_eq_dec : EqDecision MsgTy} {RespTy_eq_dec : EqDecision RespTy}.
Context {Msg_tagged : Engine.Tagged Msg MsgTy} {Resp_tagged : Engine.Tagged Resp RespTy}.

Implicit Types g : Engine.Workflow Msg Resp Out MsgTy RespTy.
Implicit Types r : Engine.Run Msg Out RespTy.
Implicit Types q : list (string * Msg).

Lemma continues_refl r :
  (forall cid, is_Some (Engine.pending r !! cid) -> (cid < Engine.next_id r)%nat) ->
  continues r r.
Proof. intros H. repeat split; auto. Qed.

Lemma continues_trans r1 r2 r3 : continues r1 r2 -> continues r2 r3 -> continues r1 r3.
Proof.
  intros (Hr & Hn & Hp & Hb) (Hr' & Hn' & Hp' & Hb'). repeat split.
  - congruence.
  - lia.
  - intros cid Hlt. rewrite Hp' by lia. now apply Hp.
  - exact Hb'.
Qed.

Lemma continues_fail err r r' : continues r r' -> continues r (Engine.fail err r').
Proof. intros H. exact H. Qed.

Lemma continues_apply_effect g src eff r r' q :
  (forall cid, is_Some (Engine.pending r !! cid) -> (cid < Engine.next_id r)%nat) ->
  Engine.apply_effect g src eff r = (r', q) -> continues r r'.
Proof.
  intros Hb Heq. destruct eff as [ms | payload ty | o]; simpl in Heq.
  - destruct (Engine.route_all g src ms); injection Heq as <- _;
      [apply continues_fail |]; now apply continues_refl.
  - injection Heq as <- _. repeat split; simpl.
    + lia.
    + intros cid Hlt. apply lookup_insert_ne. lia.
    + intros cid [x Hx]. destruct (decide (cid = Engine.next_id r)) as [-> | Hne]; [lia |].
      rewrite lookup_insert_ne in Hx by congruence.
      assert (cid < Engine.next_id r)%nat by (apply Hb; eauto). lia.
  - injection Heq as <- _. repeat split; auto.
Qed.

Lemma continues_invoked tgt m r :
  (forall cid, is_Some (Engine.pending r !! cid) -> (cid < Engine.next_id r)%nat) ->
  continues r (Engine.invoked tgt m r).
Proof. intros H. repeat split; auto. Qed.

Lemma continues_deliver g tgt m r r' q :
  (forall cid, is_Some (Engine.pending r !! cid) -> (cid < Engine.next_id r)%nat) ->
  Engine.deliver g tgt m r = (r', q) -> continues r r'.
Proof.
  intros Hb. unfold Engine.deliver.
  destruct (List.find _ (Engine.wf_executors g)) as [ex |];
    [| intros [= <- _]; now apply continues_fail, continues_refl].
  destruct (Engine.select_handler ex m) as [h |];
    [| intros [= <- _]; now apply continues_fail, continues_refl].
  destruct (Engine.h_run h (Engine.steps r) m) as [eff | e].
  - intros Heq. apply continues_apply_effect in Heq; [| exact Hb].
    eapply continues_trans; [now apply continues_invoked | exact Heq].
  - intros [= <- _]. now apply continues_fail, continues_invoked.
Qed.

Lemma continues_drain fuel g q r r' :
  (forall cid, is_Some (Engine.pending r !! cid) -> (cid < Engine.next_id r)%nat) ->
  Engine.drain fuel g q r = Some r' -> continues r r'.
Proof.
  revert q r. induction fuel as [|fuel IH]; intros q r Hb Heq.
  - destruct q as [|[tgt m] q]; simpl in Heq.
    + injection Heq as <-. now apply continues_refl.
    + destruct (Engine.failure r); [| discriminate].
      injection Heq as <-. now apply continues_refl.
  - destruct q as [|[tgt m] q]; simpl in Heq.
    + injection Heq as <-. now apply continues_refl.
    + destruct (Engine.failure r).
      * injection Heq as <-. now apply continues_refl.
      * destruct (Engine.deliver g tgt m r) as [r1 ds] eqn:Hd.
        pose proof (continues_deliver _ _ _ _ _ _ Hb Hd) as Hc.
        eapply continues_trans; [exact Hc |].
        eapply IH; [| exact Heq]. apply Hc.
Qed.

Lemma well_formed_continues r r' : well_formed r -> continues r r' -> well_formed r'.
Proof.
  intros [Hp Hr] (Hres & Hn & Hsame & Hb). split.
  - intros cid Hsome. split; [now apply Hb |].
    rewrite Hres. intros Hin. specialize (Hr _ Hin).
    rewrite Hsame in Hsome by exact Hr. now apply Hp in Hsome.
  - intros cid Hin. rewrite Hres in Hin. specialize (Hr _ Hin). lia.
Qed.

Lemma well_formed_new_run : well_formed (Engine.new_run (Msg := Msg) (Out := Out) (RespTy := RespTy)).
Proof.
  split; unfold Engine.new_run; cbn [Engine.pending Engine.resumed].
  - intros cid [x Hx]. now rewrite lookup_empty in Hx.
  - intros cid Hin. inversion Hin.
Qed.

(** Every run the engine returns for a submission is well formed. *)
Lemma well_formed_submit fuel g m r :
  Engine.submit fuel g m = Some r -> well_formed r.
Proof.
  intros H. eapply well_formed_continues; [apply well_formed_new_run |].
  eapply continues_drain; [| exact H].
  apply well_formed_new_run.
Qed.

Lemma well_formed_consume cid r :
  well_formed r -> well_formed (Engine.consume cid r).
Proof.
  intros [Hp Hr]. split; cbn [Engine.consume Engine.pending Engine.resumed Engine.next_id].
  - intros i [x Hx]. destruct (decide (i = cid)) as [-> | Hne].
    + now rewrite lookup_delete_eq in Hx.
    + rewrite lookup_delete_ne in Hx by congruence. apply Hp. eauto.
  - exact Hr.
Qed.

Lemma well_formed_answered cid r :
  well_formed r -> is_Some (Engine.pending r !! cid) -> well_formed (answered cid r).
Proof.
  intros [Hp Hr] Hsome. split; simpl.
  - intros i [x Hx]. destruct (decide (i = cid)) as [-> | Hne].
    + now rewrite lookup_delete_eq in Hx.
    + rewrite lookup_delete_ne in Hx by congruence.
      destruct (Hp i) as [Hlt Hnin]; [eauto |]. split; [exact Hlt |].
      rewrite elem_of_app, list_elem_of_singleton. tauto.
  - intros i. rewrite elem_of_app, list_elem_of_singleton. intros [Hin | ->].
    + now apply Hr.
    + now apply Hp.
Qed.

(** A successful resume continues the run in which the request is consumed,
    and handed to the response handler when there is one. *)
Lemma resume_continues fuel g r cid resp r' :
  well_formed r ->
  Engine.resume fuel g r cid resp = inr (Some r') ->
  exists req,
    Engine.pending r !! cid = Some req
    /\ match Engine.response_handler_for g req resp with
       | Some _ => continues (answered cid r) r'
       | None => continues (Engine.consume cid r) r'
       end.
Proof.
  intros Hwf. unfold Engine.resume.
  destruct (Engine.pending r !! cid) as [req |] eqn:Hreq; [| discriminate].
  assert (Hsome : is_Some (Engine.pending r !! cid)) by eauto.
  pose proof (well_formed_answered _ _ Hwf Hsome) as [Hb _].
  pose proof (well_formed_consume cid _ Hwf) as [Hc _].
  assert (Hb' : forall i, is_Some (Engine.pending (answered cid r) !! i) ->
                          (i < Engine.next_id (answered cid r))%nat)
    by (intros i Hi; now apply Hb).
  assert (Hc' : forall i, is_Some (Engine.pending (Engine.consume cid r) !! i) ->
                          (i < Engine.next_id (Engine.consume cid r))%nat)
    by (intros i Hi; now apply Hc).
  destruct (bool_decide _); [| discriminate].
  destruct (Engine.response_handler_for g req resp) as [h |] eqn:Hh.
  - fold (answered cid r).
    destruct (Engine.rh_run h (Engine.steps r) (Engine.request req) resp) as [eff | e].
    + destruct (Engine.apply_effect g (Engine.origin req) eff (answered cid r))
        as [r2 ds] eqn:Heff.
      intros [= Hdrain]. exists req. split; [reflexivity |]. rewrite Hh.
      pose proof (continues_apply_effect _ _ _ _ _ _ Hb' Heff) as Hcont.
      eapply continues_trans; [exact Hcont |].
      eapply continues_drain; [| exact Hdrain]. apply Hcont.
    + intros [= <-]. exists req. split; [reflexivity |]. rewrite Hh.
      now apply continues_fail, continues_refl.
  - intros [= <-]. exists req. split; [reflexivity |]. rewrite Hh.
    now apply continues_fail, continues_refl.
Qed.

Lemma well_formed_resume fuel g r cid resp r' :
  well_formed r -> Engine.resume fuel g r cid resp = inr (Some r') -> well_formed r'.
Proof.
  intros Hwf H. destruct (resume_continues _ _ _ _ _ _ Hwf H) as (req & Hreq & Hc).
  destruct (Engine.response_handler_for g req resp).
  - eapply well_formed_continues; [| exact Hc]. apply well_formed_answered; eauto.
  - eapply well_formed_continues; [| exact Hc]. now apply well_formed_consume.
Qed.

Lemma filter_absent (cid : nat) (l : list nat) :
  cid ∉ l -> List.filter (Nat.eqb cid) l = [].
Proof.
  induction l as [|x l IH]; intros Hnin; simpl; [reflexivity |].
  rewrite not_elem_of_cons in Hnin. destruct Hnin as [Hne Hnin].
  destruct (Nat.eqb_spec cid x); [congruence | now apply IH].
Qed.

(** C4. Resuming a correlation id twice: once a resume for the id has been
    consumed, the entry is out of the table and any further resume with that
    id fails with [UnknownOrExpiredRequest], whatever the response and the
    fuel; the response handler of the origin executor, which had not run for
    the id before, has run for it exactly once (and not at all if the
    executor declares none for the request, which fails the run). *)
Theorem second_resume_is_rejected fuel g r cid resp r' :
  well_formed r ->
  Engine.resume fuel g r cid resp = inr (Some r') ->
  (forall fuel' resp',
     Engine.resume fuel' g r' cid resp' = inl Engine.UnknownOrExpiredRequest)
  /\ Engine.pending r' !! cid = None
  /\ invocations cid r = 0%nat
  /\ exists req,
       Engine.pending r !! cid = Some req
       /\ invocations cid r'
          = match Engine.response_handler_for g req resp with
            | Some _ => 1%nat
            | None => 0%nat
            end.
Proof.
  intros Hwf H. destruct (resume_continues _ _ _ _ _ _ Hwf H) as (req & Hreq & Hc).
  destruct Hwf as [Hp Hr]. destruct (Hp cid) as [Hlt Hnin]; [eauto |].
  assert (Hgone : Engine.pending r' !! cid = None).
  { destruct (Engine.response_handler_for g req resp);
      destruct Hc as (_ & _ & Hsame & _); rewrite Hsame by exact Hlt;
      apply lookup_delete_eq. }
  split; [| split; [exact Hgone | split]].
  - intros fuel' resp'. unfold Engine.resume. now rewrite Hgone.
  - unfold invocations. now rewrite filter_absent.
  - exists req. split; [exact Hreq |]. unfold invocations.
    destruct (Engine.response_handler_for g req resp);
      destruct Hc as (-> & _).
    + cbn [answered Engine.responded Engine.consume Engine.resumed].
      rewrite List.filter_app, filter_absent by exact Hnin. simpl.
      now rewrite Nat.eqb_refl.
    + cbn [Engine.consume Engine.resumed]. now rewrite filter_absent.
Qed.

End EngineFacts.

(** ** The handlers *)

Section Handlers.

Variable json_loads : string -> loaded.
Variable w : World.

(** The alert processor sends one processed alert, with the metrics it
    stored, or fails with the exception of [json.loads] it does not catch. *)
Lemma process_alert_decoded t a :
  process_alert json_loads t a
  = let* metrics := decoded json_loads a in
    send_message (MProcessedAlert (processed_alert t a metrics)).
Proof.
  unfold process_alert, processed_alert, validation_errors_of, decoded.
  destruct a as [aid ttl sev d src res met]; cbn [AlertInput.alert_id AlertInput.title
    AlertInput.severity AlertInput.description AlertInput.source AlertInput.resource
    AlertInput.metrics].
  destruct (json_loads met) as [v | | e]; cbn [bind]; [| | reflexivity];
    destruct sev, (truthy aid), (truthy ttl); reflexivity.
Qed.

Lemma process_alert_sends t a metrics :
  decoded json_loads a = Ok metrics ->
  process_alert json_loads t a = send_message (MProcessedAlert (processed_alert t a metrics)).
Proof. intros H. now rewrite process_alert_decoded, H. Qed.

Lemma process_alert_raises t a e :
  decoded json_loads a = Raise e -> process_alert json_loads t a = Raise e.
Proof. intros H. now rewrite process_alert_decoded, H. Qed.

Lemma handle_approval_sends t response :
  handle_approval t response = send_message (MTriageResult (approved_triage t response)).
Proof. destruct response as [[] notes]; reflexivity. Qed.

Lemma create_issue_sends t triage :
  create_issue w t triage = send_message (MGitHubIssue (issue_for w t triage)).
Proof. reflexivity. Qed.

Lemma notify_teams_sends t issue :
  notify_teams w t issue = send_message (MTeamsNotification (notification_for w t issue)).
Proof. reflexivity. Qed.

Lemma generate_report_yields n : generate_report n = yield_output (report_for n).
Proof. reflexivity. Qed.

Lemma json_gt_int_number v n : is_number v = true -> exists b, json_gt_int v n = Ok b.
Proof. destruct v; try discriminate; intros _; eexists; reflexivity. Qed.

Lemma triage_alert_unreadable p :
  triage_reads (ProcessedAlert.metrics p) = false -> exists e, triage_alert p = Raise e.
Proof.
  intros H. unfold triage_alert.
  change (getitem RUNBOOKS "default") with (Ok (A := string) "https://wiki.contoso.com/runbooks/general-triage").
  cbn [bind].
  destruct (ProcessedAlert.metrics p) as [| | | | | |items]; try (eexists; reflexivity).
  cbn [json_get bind]. cbn [triage_reads] in H.
  apply andb_false_iff in H as [H | H].
  - destruct (get items "cpu_percent" (JInt 0)); try discriminate; eexists; reflexivity.
  - destruct (json_gt_int (get items "cpu_percent" (JInt 0)) 90); [| eexists; reflexivity].
    cbn [bind].
    destruct (get items "memory_percent" (JInt 0)); try discriminate; eexists; reflexivity.
Qed.

Lemma triage_alert_readable p s :
  ProcessedAlert.severity p = severity_value s ->
  triage_reads (ProcessedAlert.metrics p) = true ->
  exists t,
    triage_alert p =
      (if needs_approval s then request_info (MTriageResult t) TTriageApproval
       else send_message (MTriageResult t))
    /\ TriageResult.alert t = p
    /\ TriageResult.incident_severity t = incident_severity_of s
    /\ TriageResult.priority t = priority_of s
    /\ TriageResult.incident_title t =
         "[" +:+ upper (incident_severity_of s) +:+ "] " +:+ ProcessedAlert.title p.
Proof.
  intros Hsev H. unfold triage_alert. rewrite Hsev.
  change (getitem RUNBOOKS "default") with (Ok (A := string) "https://wiki.contoso.com/runbooks/general-triage").
  cbn [bind].
  destruct (ProcessedAlert.metrics p) as [| | | | | |items]; try discriminate.
  cbn [triage_reads] in H. apply andb_true_iff in H as [Hc Hm].
  cbn [json_get json_items bind].
  destruct (json_gt_int_number _ 90 Hc) as [bc ->].
  destruct (json_gt_int_number _ 85 Hm) as [bm ->].
  cbn [bind].
  destruct s; (eexists; split; [reflexivity | repeat split]).
Qed.

End Handlers.

(** ** Runs of the workflow *)

Section Runs.

Variable json_loads : string -> loaded.
Variable w : World.

Abbreviation g := (workflow json_loads w).

Lemma workflow_is_built : Engine.build (workflow_builder json_loads w) = Some g.
Proof. reflexivity. Qed.

Lemma declared_order_workflow :
  declared_order g =
  ["alert_processor"; "incident_triage"; "github_creator"; "teams_notifier";
   "incident_reporter"].
Proof. reflexivity. Qed.

Lemma drain_nil fuel (r : Run) : Engine.drain fuel g [] r = Some r.
Proof. destruct fuel; reflexivity. Qed.

Lemma drain_cons fuel tgt m q (r : Run) :
  Engine.failure r = None ->
  Engine.drain (S fuel) g ((tgt, m) :: q) r =
  let '(r', ds) := Engine.deliver g tgt m r in Engine.drain fuel g (q ++ ds) r'.
Proof. intros H. simpl. rewrite H. reflexivity. Qed.

Lemma drain_failed fuel q (r : Run) err :
  Engine.failure r = Some err -> Engine.drain fuel g q r = Some r.
Proof. intros H. destruct fuel, q as [|[tgt m] q]; simpl; rewrite ?H; reflexivity. Qed.

Lemma deliver_alert_processor a (r : Run) :
  Engine.deliver g "alert_processor" (MAlertInput a) r =
  match decoded json_loads a with
  | Ok metrics =>
      (Engine.invoked "alert_processor" (MAlertInput a) r,
       [("incident_triage",
         MProcessedAlert (processed_alert (now w (Engine.steps r)) a metrics))])
  | Raise e =>
      (Engine.fail (Engine.HandlerFailed e)
         (Engine.invoked "alert_processor" (MAlertInput a) r), [])
  end.
Proof.
  change (Engine.deliver g "alert_processor" (MAlertInput a) r)
    with (match process_alert json_loads (now w (Engine.steps r)) a with
          | Raise e =>
              (Engine.fail (Engine.HandlerFailed e)
                 (Engine.invoked "alert_processor" (MAlertInput a) r), [])
          | Ok eff =>
              Engine.apply_effect g "alert_processor" eff
                (Engine.invoked "alert_processor" (MAlertInput a) r)
          end).
  rewrite process_alert_decoded. destruct (decoded json_loads a); reflexivity.
Qed.

Lemma deliver_incident_triage p (r : Run) :
  Engine.deliver g "incident_triage" (MProcessedAlert p) r =
  match triage_alert p with
  | Raise e =>
      (Engine.fail (Engine.HandlerFailed e)
         (Engine.invoked "incident_triage" (MProcessedAlert p) r), [])
  | Ok eff =>
      Engine.apply_effect g "incident_triage" eff
        (Engine.invoked "incident_triage" (MProcessedAlert p) r)
  end.
Proof. reflexivity. Qed.

Lemma deliver_github_creator t (r : Run) :
  Engine.deliver g "github_creator" (MTriageResult t) r =
  (Engine.invoked "github_creator" (MTriageResult t) r,
   [("teams_notifier", MGitHubIssue (issue_for w (now w (Engine.steps r)) t))]).
Proof. reflexivity. Qed.

Lemma deliver_teams_notifier i (r : Run) :
  Engine.deliver g "teams_notifier" (MGitHubIssue i) r =
  (Engine.invoked "teams_notifier" (MGitHubIssue i) r,
   [("incident_reporter",
     MTeamsNotification (notification_for w (now w (Engine.steps r)) i))]).
Proof. reflexivity. Qed.

Lemma deliver_incident_reporter n (r : Run) :
  Engine.deliver g "incident_reporter" (MTeamsNotification n) r =
  Engine.apply_effect g "incident_reporter" (Engine.YieldOutput (report_for n))
    (Engine.invoked "incident_reporter" (MTeamsNotification n) r).
Proof. reflexivity. Qed.

Lemma drain_downstream fuel t (r : Run) :
  Engine.failure r = None ->
  Engine.drain (3 + fuel) g [("github_creator", MTriageResult t)] r
  = Some (downstream w t r).
Proof.
  intros Hf.
  change (3 + fuel)%nat with (S (S (S fuel))).
  rewrite drain_cons, deliver_github_creator by exact Hf. cbn [app].
  rewrite drain_cons, deliver_teams_notifier by exact Hf. cbn [app].
  rewrite drain_cons, deliver_incident_reporter by exact Hf.
  cbn [Engine.apply_effect app]. rewrite drain_nil. f_equal.
  unfold downstream. destruct r; cbn. rewrite <- !app_assoc. reflexivity.
Qed.


(** An exception of [json.loads] that the alert processor does not catch
    fails the run in the alert processor. *)
Lemma submit_escapes fuel a e :
  decoded json_loads a = Raise e ->
  Engine.submit (1 + fuel) g (MAlertInput a)
  = Some (Engine.fail (Engine.HandlerFailed e) (processed a)).
Proof.
  intros H. unfold Engine.submit.
  change (1 + fuel)%nat with (S fuel).
  change (Engine.wf_start g) with "alert_processor".
  rewrite drain_cons, deliver_alert_processor, H by reflexivity.
  apply drain_failed with (err := Engine.HandlerFailed e). reflexivity.
Qed.

Lemma submit_unreadable fuel a metrics :
  decoded json_loads a = Ok metrics ->
  triage_reads metrics = false ->
  exists e,
    triage_alert (processed_alert (now w 0) a metrics) = Raise e
    /\ Engine.submit (2 + fuel) g (MAlertInput a)
       = Some (Engine.fail (Engine.HandlerFailed e) (triaged w a metrics)).
Proof.
  intros Hd H.
  destruct (triage_alert_unreadable (processed_alert (now w 0) a metrics) H) as [e He].
  exists e. split; [exact He |]. unfold Engine.submit.
  change (2 + fuel)%nat with (S (S fuel)).
  change (Engine.wf_start g) with "alert_processor".
  rewrite drain_cons, deliver_alert_processor, Hd by reflexivity. cbn [app].
  rewrite drain_cons, deliver_incident_triage by reflexivity.
  change (Engine.steps Engine.new_run) with 0%nat. rewrite He.
  apply drain_nil.
Qed.

Lemma submit_suspends fuel a metrics :
  decoded json_loads a = Ok metrics ->
  triage_reads metrics = true ->
  needs_approval (AlertInput.severity a) = true ->
  exists t,
    Engine.submit (2 + fuel) g (MAlertInput a)
    = Some (awaiting_approval t (triaged w a metrics))
    /\ TriageResult.alert t = processed_alert (now w 0) a metrics
    /\ TriageResult.incident_severity t = incident_severity_of (AlertInput.severity a)
    /\ TriageResult.priority t = priority_of (AlertInput.severity a)
    /\ TriageResult.incident_title t
       = "[" +:+ upper (incident_severity_of (AlertInput.severity a)) +:+ "] "
         +:+ AlertInput.title a.
Proof.
  intros Hd H Hn.
  destruct (triage_alert_readable (processed_alert (now w 0) a metrics)
              (AlertInput.severity a) eq_refl H) as (t & Ht & Ha & Hs & Hp & Htitle).
  rewrite Hn in Ht. exists t. split; [| auto].
  unfold Engine.submit.
  change (2 + fuel)%nat with (S (S fuel)).
  change (Engine.wf_start g) with "alert_processor".
  rewrite drain_cons, deliver_alert_processor, Hd by reflexivity. cbn [app].
  rewrite drain_cons, deliver_incident_triage by reflexivity.
  change (Engine.steps Engine.new_run) with 0%nat. rewrite Ht.
  apply drain_nil.
Qed.

Lemma submit_completes fuel a metrics :
  decoded json_loads a = Ok metrics ->
  triage_reads metrics = true ->
  needs_approval (AlertInput.severity a) = false ->
  exists t,
    Engine.submit (5 + fuel) g (MAlertInput a)
    = Some (downstream w t (triaged w a metrics))
    /\ TriageResult.alert t = processed_alert (now w 0) a metrics
    /\ TriageResult.incident_severity t = incident_severity_of (AlertInput.severity a)
    /\ TriageResult.priority t = priority_of (AlertInput.severity a).
Proof.
  intros Hd H Hn.
  destruct (triage_alert_readable (processed_alert (now w 0) a metrics)
              (AlertInput.severity a) eq_refl H) as (t & Ht & Ha & Hs & Hp & _).
  rewrite Hn in Ht. exists t. split; [| auto].
  unfold Engine.submit.
  change (5 + fuel)%nat with (S (S (3 + fuel))).
  change (Engine.wf_start g) with "alert_processor".
  rewrite drain_cons, deliver_alert_processor, Hd by reflexivity. cbn [app].
  rewrite drain_cons, deliver_incident_triage by reflexivity.
  change (Engine.steps Engine.new_run) with 0%nat. rewrite Ht.
  apply drain_downstream. reflexivity.
Qed.

(** A readable alert stores metrics that the triage reads. *)
Lemma readable_decoded a :
  readable json_loads a = true ->
  exists metrics, decoded json_loads a = Ok metrics /\ triage_reads metrics = true.
Proof.
  unfold readable. destruct (decoded json_loads a) as [metrics | e]; [| discriminate].
  intros H. now exists metrics.
Qed.

Lemma resume_approval fuel (r : Run) cid t response :
  Engine.pending r !! cid
  = Some {| Engine.origin := "incident_triage"; Engine.request := MTriageResult t;
            Engine.expected := TTriageApproval |} ->
  Engine.failure r = None ->
  Engine.resume (3 + fuel) g r cid (RTriageApproval response)
  = inr (Some (downstream w (approved_triage t response) (answered cid r))).
Proof.
  intros Hp Hf. unfold Engine.resume. rewrite Hp.
  cbn [Engine.expected Engine.origin Engine.request].
  change (bool_decide (TTriageApproval = Engine.tag_of (RTriageApproval response)))
    with true.
  cbv iota.
  change (Engine.response_handler_for _ _ _)
    with (Some (A := Engine.ResponseHandler Message Response string MessageType ResponseType)
            {| Engine.rh_request := TTriageResult;
               Engine.rh_response := TTriageApproval;
               Engine.rh_output := Some TTriageResult;
               Engine.rh_run := fun _ m resp =>
                 match m, resp with
                 | MTriageResult original_triage, RTriageApproval response =>
                     handle_approval original_triage response
                 | _, _ => Raise (TypeError "handle_approval")
                 end |}).
  cbv zeta. cbn [Engine.rh_run]. fold (answered cid r).
  rewrite handle_approval_sends. unfold send_message.
  change (Engine.apply_effect g "incident_triage"
            (Engine.Emit [MTriageResult (approved_triage t response)]) (answered cid r))
    with (answered cid r, [("github_creator", MTriageResult (approved_triage t response))]).
  cbv iota beta. f_equal. apply drain_downstream. exact Hf.
Qed.

Lemma status_awaiting_approval t a metrics :
  Engine.status (awaiting_approval t (triaged w a metrics))
  = Engine.Suspended [(0%nat, MTriageResult t)].
Proof. reflexivity. Qed.

Lemma status_downstream t (r : Run) :
  Engine.failure r = None -> Engine.pending r = ∅ ->
  Engine.status (downstream w t r) = Engine.Completed (Engine.outputs (downstream w t r)).
Proof.
  intros Hf Hp. unfold Engine.status. cbn [downstream Engine.failure Engine.pending].
  rewrite Hf, Hp. reflexivity.
Qed.

End Runs.

(** ** The report *)

Section Report.

Variable n : TeamsNotification.t.

Abbreviation triage_of n := (GitHubIssue.triage (TeamsNotification.github_issue n)).

(** The report shows the severity of the triage in upper case. *)
Lemma report_shows_severity c' s'' :
  reverse ("Severity: " +:+ upper (TriageResult.incident_severity (triage_of n)))
  = String c' s'' ->
  is_space c' = false ->
  occurs ("Severity: " +:+ upper (TriageResult.incident_severity (triage_of n)))
         (report_for n).
Proof.
  intros Hrev Hc'.
  unfold report_for, generate_report, yield_output. cbv beta iota zeta.
  eapply occurs_strip; [reflexivity | exact Hrev | reflexivity | exact Hc' |].
  eapply occurs_join
    with (x := "   • " +:+ ("Severity: " +:+ upper (TriageResult.incident_severity (triage_of n)))).
  - apply list_elem_of_lookup. exists 9%nat. reflexivity.
  - apply occurs_append_r, occurs_refl.
Qed.

(** The report shows the priority of the triage. *)
Lemma report_shows_priority c' s'' :
  reverse ("Priority: " +:+ TriageResult.priority (triage_of n)) = String c' s'' ->
  is_space c' = false ->
  occurs ("Priority: " +:+ TriageResult.priority (triage_of n)) (report_for n).
Proof.
  intros Hrev Hc'.
  unfold report_for, generate_report, yield_output. cbv beta iota zeta.
  eapply occurs_strip; [reflexivity | exact Hrev | reflexivity | exact Hc' |].
  eapply occurs_join
    with (x := "   • " +:+ ("Priority: " +:+ TriageResult.priority (triage_of n))).
  - apply list_elem_of_lookup. exists 10%nat. reflexivity.
  - apply occurs_append_r, occurs_refl.
Qed.

(** The report shows the start of the incident title. *)
Lemma report_shows_incident tag rest c' s'' :
  TriageResult.incident_title (triage_of n) = tag +:+ rest ->
  reverse ("Incident: " +:+ tag) = String c' s'' ->
  is_space c' = false ->
  occurs ("Incident: " +:+ tag) (report_for n).
Proof.
  intros Htitle Hrev Hc'.
  unfold report_for, generate_report, yield_output. cbv beta iota zeta.
  eapply occurs_strip; [reflexivity | exact Hrev | reflexivity | exact Hc' |].
  eapply occurs_join
    with (x := "📋 Incident: " +:+ TriageResult.incident_title (triage_of n)).
  - apply list_elem_of_lookup. exists 4%nat. reflexivity.
  - rewrite Htitle. exists "📋 ", rest. now rewrite !append_assoc.
Qed.

End Report.

(** ** The stages *)

Section Stages.

Variable json_loads : string -> loaded.
Variable w : World.

Lemma truthy_false s : truthy s = false <-> s = "".
Proof.
  unfold truthy. rewrite negb_false_iff. apply String.eqb_eq.
Qed.

(** C10. For every triage result, the issue the creator sends has a number
    between 1000 and 10999, the hash modulo 10000, which is never negative,
    plus 1000; its URL ends with that number; its labels are four, "incident"
    among them. *)
Theorem create_issue_number_url_labels created_at triage :
  exists issue,
    create_issue w created_at triage = Ok (Engine.Emit [MGitHubIssue issue])
    /\ GitHubIssue.issue_number issue
       = hash w (ProcessedAlert.alert_id (TriageResult.alert triage)) mod 10000 + 1000
    /\ 0 <= hash w (ProcessedAlert.alert_id (TriageResult.alert triage)) mod 10000
    /\ 1000 <= GitHubIssue.issue_number issue <= 10999
    /\ endswith (GitHubIssue.issue_url issue) (str_int (GitHubIssue.issue_number issue)) = true
    /\ length (GitHubIssue.labels issue) = 4%nat
    /\ "incident" ∈ GitHubIssue.labels issue.
Proof.
  exists (issue_for w created_at triage).
  pose proof (Z.mod_pos_bound
                (hash w (ProcessedAlert.alert_id (TriageResult.alert triage))) 10000
                ltac:(lia)) as Hmod.
  repeat split; cbn [issue_for GitHubIssue.issue_number GitHubIssue.issue_url
                     GitHubIssue.labels]; try lia.
  - apply endswith_append.
  - apply list_elem_of_lookup. exists 2%nat. reflexivity.
Qed.

(** C9. The alert processor either produces no processed alert, because
    [json.loads] raised an exception it does not catch, or produces one that
    is invalid exactly when the alert id or the title is empty, and none of
    whose validation errors is an "Invalid severity" one: the severity of an
    [AlertInput] is one of the four literals. *)
Theorem is_valid_iff_required_fields received_at a :
  ((exists e,
      json_loads (AlertInput.metrics a) = Raised e
      /\ process_alert json_loads received_at a = Raise e)
   \/ exists p,
        process_alert json_loads received_at a = Ok (Engine.Emit [MProcessedAlert p])
        /\ (ProcessedAlert.is_valid p = false
            <-> AlertInput.alert_id a = "" \/ AlertInput.title a = "")
        /\ Forall (fun e => startswith e "Invalid severity" = false)
                  (ProcessedAlert.validation_errors p))
  /\ existsb (String.eqb (severity_value (AlertInput.severity a)))
             ["critical"; "high"; "medium"; "low"] = true.
Proof.
  split; [| destruct (AlertInput.severity a); reflexivity].
  destruct (decoded json_loads a) as [metrics | e] eqn:Hd.
  - right. exists (processed_alert received_at a metrics).
    split; [now apply process_alert_sends |].
    cbn [processed_alert ProcessedAlert.is_valid ProcessedAlert.validation_errors].
    split.
    + rewrite andb_false_iff, !truthy_false. reflexivity.
    + unfold validation_errors_of.
      destruct (truthy (AlertInput.alert_id a)), (truthy (AlertInput.title a));
        repeat constructor.
  - left. exists e. split; [| now apply process_alert_raises].
    unfold decoded in Hd. destruct (json_loads (AlertInput.metrics a)); congruence.
Qed.

(** C8, as the code has it. When [json.loads] raises [json.JSONDecodeError]
    on the metrics text, the alert processor does not fail and records no
    validation error for it: the processed alert has the empty dict as
    metrics, and its validation errors and validity are those of the
    processed alert of the same alert with any other metrics text. *)
Theorem undecodable_metrics_are_empty received_at a :
  json_loads (AlertInput.metrics a) = JSONDecodeError ->
  exists p,
    process_alert json_loads received_at a = Ok (Engine.Emit [MProcessedAlert p])
    /\ ProcessedAlert.metrics p = JDict []
    /\ ProcessedAlert.validation_errors p = validation_errors_of a
    /\ ProcessedAlert.is_valid p
       = truthy (AlertInput.alert_id a) && truthy (AlertInput.title a)
    /\ forall metrics' p',
         process_alert json_loads received_at (with_metrics metrics' a)
         = Ok (Engine.Emit [MProcessedAlert p']) ->
         ProcessedAlert.validation_errors p' = ProcessedAlert.validation_errors p
         /\ ProcessedAlert.is_valid p' = ProcessedAlert.is_valid p.
Proof.
  intros Hnone.
  assert (Hd : decoded json_loads a = Ok (JDict [])) by (unfold decoded; now rewrite Hnone).
  exists (processed_alert received_at a (JDict [])).
  split; [now apply process_alert_sends |].
  cbn [processed_alert ProcessedAlert.metrics ProcessedAlert.validation_errors
       ProcessedAlert.is_valid].
  repeat split.
  - rewrite process_alert_decoded in H.
    destruct (decoded json_loads (with_metrics metrics' a)); [| discriminate H].
    cbn [bind send_message] in H. injection H as <-. reflexivity.
  - rewrite process_alert_decoded in H.
    destruct (decoded json_loads (with_metrics metrics' a)); [| discriminate H].
    cbn [bind send_message] in H. injection H as <-. reflexivity.
Qed.

(** The approval handler never raises and sends one triage result: the
    original one for "approve"; for "override to sevN" the original one with
    incident severity sevN, priority PN and title tag [SEVN], every other
    field unchanged. *)
Theorem handle_approval_overrides t notes :
  let response v := {| TriageApproval.approved := v; TriageApproval.notes := notes |} in
  handle_approval t (response approve) = Ok (Engine.Emit [MTriageResult t])
  /\ handle_approval t (response override_to_sev1)
     = Ok (Engine.Emit [MTriageResult (override "sev1" "P1" t)])
  /\ handle_approval t (response override_to_sev2)
     = Ok (Engine.Emit [MTriageResult (override "sev2" "P2" t)])
  /\ handle_approval t (response override_to_sev3)
     = Ok (Engine.Emit [MTriageResult (override "sev3" "P3" t)])
  /\ forall sev prio,
       TriageResult.incident_severity (override sev prio t) = sev
       /\ TriageResult.priority (override sev prio t) = prio
       /\ TriageResult.incident_title (override sev prio t)
          = "[" +:+ upper sev +:+ "] " +:+ ProcessedAlert.title (TriageResult.alert t)
       /\ TriageResult.alert (override sev prio t) = TriageResult.alert t
       /\ TriageResult.summary (override sev prio t) = TriageResult.summary t
       /\ TriageResult.affected_services (override sev prio t)
          = TriageResult.affected_services t
       /\ TriageResult.recommended_actions (override sev prio t)
          = TriageResult.recommended_actions t
       /\ TriageResult.assigned_team (override sev prio t) = TriageResult.assigned_team t
       /\ TriageResult.runbook_url (override sev prio t) = TriageResult.runbook_url t.
Proof. cbv zeta. repeat split. Qed.

(** The triage handler raises exactly when it cannot read the metrics (they
    are no dict, or their cpu_percent or memory_percent is no number); else it
    classifies critical, high, medium, low as sev1, sev2, sev3, sev4 with
    priority P1 to P4, asks for approval for sev1 and sev2, and sends the
    triage downstream for sev3 and sev4. *)
Theorem triage_alert_outcomes p s :
  (triage_reads (ProcessedAlert.metrics p) = false -> exists e, triage_alert p = Raise e)
  /\ (triage_reads (ProcessedAlert.metrics p) = true ->
      ProcessedAlert.severity p = severity_value s ->
      exists t,
        triage_alert p
        = (if needs_approval s then Ok (Engine.RequestInfo (MTriageResult t) TTriageApproval)
           else Ok (Engine.Emit [MTriageResult t]))
        /\ TriageResult.alert t = p
        /\ TriageResult.incident_severity t = incident_severity_of s
        /\ TriageResult.priority t = priority_of s
        /\ TriageResult.incident_title t
           = "[" +:+ upper (incident_severity_of s) +:+ "] " +:+ ProcessedAlert.title p).
Proof.
  split.
  - apply triage_alert_unreadable.
  - intros Hreads Hsev. now apply triage_alert_readable.
Qed.

(** The notifier sends one notification, always marked as posted, for the
    channel of the incident severity: #incident-critical for sev1,
    #incident-high for sev2, #ops-info for sev4, #ops-alerts for sev3 and for
    any other text; its message id is "msg-" and the hash of the issue URL
    modulo 100000, which is never negative. *)
Theorem notify_teams_channel posted_at issue :
  exists n,
    notify_teams w posted_at issue = Ok (Engine.Emit [MTeamsNotification n])
    /\ TeamsNotification.github_issue n = issue
    /\ TeamsNotification.success n = true
    /\ TeamsNotification.channel n
       = (let sev := TriageResult.incident_severity (GitHubIssue.triage issue) in
          if String.eqb sev "sev1" then "#incident-critical"
          else if String.eqb sev "sev2" then "#incident-high"
          else if String.eqb sev "sev3" then "#ops-alerts"
          else if String.eqb sev "sev4" then "#ops-info"
          else "#ops-alerts")
    /\ TeamsNotification.message_id n
       = "msg-" +:+ str_int (hash w (GitHubIssue.issue_url issue) mod 100000)
    /\ 0 <= hash w (GitHubIssue.issue_url issue) mod 100000 < 100000.
Proof.
  exists (notification_for w posted_at issue).
  split; [reflexivity |]. split; [reflexivity |]. split; [reflexivity |].
  split; [| split; [reflexivity | apply Z.mod_pos_bound; lia]].
  cbn [notification_for TeamsNotification.channel]. cbv zeta.
  unfold get. cbn [lookup_item].
  repeat (destruct (String.eqb _ _); [reflexivity |]). reflexivity.
Qed.

End Stages.

Lemma undecodable_metrics_are_empty_witness :
  sample_loads (AlertInput.metrics untitled_alert) = JSONDecodeError
  /\ exists p,
       process_alert sample_loads "2026-01-31T09:00:00" untitled_alert
       = Ok (Engine.Emit [MProcessedAlert p])
       /\ ProcessedAlert.metrics p = JDict []
       /\ ProcessedAlert.validation_errors p = ["Missing title"]
       /\ ProcessedAlert.is_valid p = false.
Proof.
  split; [reflexivity |].
  destruct (undecodable_metrics_are_empty sample_loads "2026-01-31T09:00:00"
              untitled_alert eq_refl) as (p & Hp & Hm & He & Hv & _).
  exists p. repeat split; assumption.
Defined.


(** ** Types along the edges *)

Section Types.

Variable json_loads : string -> loaded.
Variable w : World.

Lemma triage_alert_sends p m' :
  m' ∈ sent (triage_alert p) -> exists t, m' = MTriageResult t.
Proof.
  unfold triage_alert.
  change (getitem RUNBOOKS "default")
    with (Ok (A := string) "https://wiki.contoso.com/runbooks/general-triage").
  cbn [bind].
  destruct (ProcessedAlert.metrics p) as [| | | | | |items];
    try solve [intros H; inversion H].
  cbn [json_get json_items bind].
  destruct (json_gt_int _ 90); [| intros H; inversion H]. cbn [bind].
  destruct (json_gt_int _ 85); [| intros H; inversion H]. cbn [bind].
  destruct (getitem _ _); [| intros H; inversion H]. cbn [bind].
  destruct (existsb _ _); cbn [request_info send_message sent]; intros H.
  - inversion H.
  - apply list_elem_of_singleton in H. eauto.
Qed.

Lemma triage_alert_requests p m ty :
  (m, ty) ∈ requested (triage_alert p) -> ty = TTriageApproval /\ exists t, m = MTriageResult t.
Proof.
  unfold triage_alert.
  change (getitem RUNBOOKS "default")
    with (Ok (A := string) "https://wiki.contoso.com/runbooks/general-triage").
  cbn [bind].
  destruct (ProcessedAlert.metrics p) as [| | | | | |items];
    try solve [intros H; inversion H].
  cbn [json_get json_items bind].
  destruct (json_gt_int _ 90); [| intros H; inversion H]. cbn [bind].
  destruct (json_gt_int _ 85); [| intros H; inversion H]. cbn [bind].
  destruct (getitem _ _); [| intros H; inversion H]. cbn [bind].
  destruct (existsb _ _); cbn [request_info send_message requested]; intros H.
  - apply list_elem_of_singleton in H. injection H as -> ->. eauto.
  - inversion H.
Qed.

Ltac one_handler H :=
  apply list_elem_of_singleton in H; subst.

(** C7. Along every edge of the workflow, the messages the source sends have
    exactly the type the target's handler is declared for: ProcessedAlert
    into the triage, TriageResult into the issue creator (from the triage
    handler and from the approval handler alike), GitHubIssue into the
    notifier, TeamsNotification into the reporter; the request the triage
    opens carries a TriageResult and expects a TriageApproval; the reporter
    sends nothing and yields a string. The workflow passes the type check of
    the build. *)
Theorem stage_types_are_compatible :
  Engine.b_edges (workflow_builder json_loads w)
  = [ (alert_processor json_loads w, Engine.Always, incident_triage);
      (incident_triage, Engine.Always, github_creator w);
      (github_creator w, Engine.Always, teams_notifier w);
      (teams_notifier w, Engine.Always, incident_reporter) ]
  /\ Forall (fun e => stage_types_match e.1.1 e.2)
            (Engine.b_edges (workflow_builder json_loads w))
  /\ (forall p m ty,
        (m, ty) ∈ requested (triage_alert p) ->
        ty = TTriageApproval /\ Engine.tag_of m = TTriageResult)
  /\ (forall n, sent (generate_report n) = []
                /\ exists report, yielded (generate_report n) = [report])
  /\ Engine.build (workflow_builder json_loads w) = Some (workflow json_loads w).
Proof.
  split; [reflexivity |]. split; [| split; [| split]].
  - repeat first [apply List.Forall_nil | apply List.Forall_cons]; cbn [fst snd].
    + eexists. split; [reflexivity |]. split.
      * intros h step m m' Hh Hm Hin. one_handler Hh.
        destruct m; try discriminate. cbn [Engine.h_run] in Hin.
        rewrite process_alert_decoded in Hin.
        destruct (decoded json_loads alert); [| inversion Hin].
        cbn [bind] in Hin. one_handler Hin. repeat split.
      * intros h step m resp m' Hh. inversion Hh.
    + eexists. split; [reflexivity |]. split.
      * intros h step m m' Hh Hm Hin. one_handler Hh.
        destruct m; try discriminate. cbn [Engine.h_run] in Hin.
        apply triage_alert_sends in Hin as [t ->]. repeat split.
      * intros h step m resp m' Hh Hm Hr Hin. one_handler Hh.
        destruct m; try discriminate. destruct resp; try discriminate.
        cbn [Engine.rh_run] in Hin.
        rewrite handle_approval_sends in Hin. one_handler Hin. repeat split.
    + eexists. split; [reflexivity |]. split.
      * intros h step m m' Hh Hm Hin. one_handler Hh.
        destruct m; try discriminate. cbn [Engine.h_run] in Hin.
        rewrite create_issue_sends in Hin. one_handler Hin. repeat split.
      * intros h step m resp m' Hh. inversion Hh.
    + eexists. split; [reflexivity |]. split.
      * intros h step m m' Hh Hm Hin. one_handler Hh.
        destruct m; try discriminate. cbn [Engine.h_run] in Hin.
        rewrite notify_teams_sends in Hin. one_handler Hin. repeat split.
      * intros h step m resp m' Hh. inversion Hh.
  - intros p m ty H. apply triage_alert_requests in H as [-> [t ->]]. split; reflexivity.
  - intros n. rewrite generate_report_yields. split; [reflexivity | eexists; reflexivity].
  - reflexivity.
Qed.

End Types.

(** ** Dispatch order *)

Section Order.

Variable json_loads : string -> loaded.

Abbreviation five_stages :=
  ["alert_processor"; "incident_triage"; "github_creator"; "teams_notifier";
   "incident_reporter"].

Lemma dispatch_order_downstream w t (r : Run) :
  dispatch_order (downstream w t r)
  = dispatch_order r ++ ["github_creator"; "teams_notifier"; "incident_reporter"].
Proof. unfold dispatch_order, downstream. cbn [Engine.trace]. now rewrite map_app. Qed.

Lemma resume_unknown fuel w (r : Run) cid resp :
  Engine.pending r !! cid = None ->
  Engine.resume fuel (workflow json_loads w) r cid resp = inl Engine.UnknownOrExpiredRequest.
Proof. intros H. unfold Engine.resume. now rewrite H. Qed.

Lemma pending_awaiting_approval t (r : Run) cid :
  Engine.pending r = ∅ -> Engine.next_id r = 0%nat ->
  Engine.pending (awaiting_approval t r) !! cid
  = match cid with
    | O => Some {| Engine.origin := "incident_triage"; Engine.request := MTriageResult t;
                   Engine.expected := TTriageApproval |}
    | S _ => None
    end.
Proof.
  intros Hp Hn. unfold awaiting_approval. cbn [Engine.pending]. rewrite Hp, Hn.
  destruct cid; [apply lookup_insert_eq |].
  rewrite lookup_insert_ne by discriminate. apply lookup_empty.
Qed.

(** Resuming the run that awaits the approval of [t]: only the id 0 and a
    [TriageApproval] are accepted, and then the three stages downstream of
    the triage run. *)
Lemma resume_awaiting_approval fuel w t a metrics cid resp r' :
  Engine.resume (3 + fuel) (workflow json_loads w)
    (awaiting_approval t (triaged w a metrics)) cid resp = inr (Some r') ->
  exists response,
    cid = 0%nat /\ resp = RTriageApproval response
    /\ r' = downstream w (approved_triage t response)
              (answered 0 (awaiting_approval t (triaged w a metrics))).
Proof.
  intros H.
  pose proof (pending_awaiting_approval t (triaged w a metrics) cid eq_refl eq_refl) as Hp.
  destruct cid as [|cid]; [| now rewrite resume_unknown in H].
  destruct resp as [response | v].
  - rewrite (resume_approval _ _ _ _ _ _ _ Hp eq_refl) in H.
    injection H as <-. now exists response.
  - unfold Engine.resume in H. rewrite Hp in H. discriminate.
Qed.

(** C6. For every initial alert the executors handle messages in the order the
    edges declare, alert_processor, incident_triage, github_creator,
    teams_notifier, incident_reporter: the order of a run is the same in any
    two worlds, it is a prefix of the declared order wherever the run stands,
    and it is the whole declared order once the run has completed, directly
    or after a resume. *)
Theorem dispatch_order_is_declared_order w1 w2 k a :
  exists r1 r2,
    Engine.submit (5 + k) (workflow json_loads w1) (MAlertInput a) = Some r1
    /\ Engine.submit (5 + k) (workflow json_loads w2) (MAlertInput a) = Some r2
    /\ dispatch_order r1 = dispatch_order r2
    /\ dispatch_order r1 `prefix_of` declared_order (workflow json_loads w1)
    /\ (forall outs, Engine.status r1 = Engine.Completed outs ->
          dispatch_order r1 = declared_order (workflow json_loads w1))
    /\ (forall k' cid resp r1',
          Engine.resume (3 + k') (workflow json_loads w1) r1 cid resp = inr (Some r1') ->
          dispatch_order r1' = declared_order (workflow json_loads w1)
          /\ exists r2',
               Engine.resume (3 + k') (workflow json_loads w2) r2 cid resp = inr (Some r2')
               /\ dispatch_order r2' = dispatch_order r1')
    /\ declared_order (workflow json_loads w1) = five_stages.
Proof.
  destruct (decoded json_loads a) as [metrics | e] eqn:Hd;
    [destruct (triage_reads metrics) eqn:Hreads;
     [destruct (needs_approval (AlertInput.severity a)) eqn:Hneeds |] |].
  - destruct (submit_suspends json_loads w1 (3 + k) a metrics Hd Hreads Hneeds)
      as (t1 & H1 & _).
    destruct (submit_suspends json_loads w2 (3 + k) a metrics Hd Hreads Hneeds)
      as (t2 & H2 & _).
    eexists _, _. split; [exact H1 |]. split; [exact H2 |].
    split; [reflexivity |]. split; [now exists ["github_creator"; "teams_notifier"; "incident_reporter"] |].
    split; [discriminate |]. split; [| reflexivity].
    intros k' cid resp r1' Hres.
    apply resume_awaiting_approval in Hres as (response & -> & -> & ->).
    split; [reflexivity |].
    eexists. split.
    + apply resume_approval; [| reflexivity].
      now rewrite pending_awaiting_approval.
    + reflexivity.
  - destruct (submit_completes json_loads w1 k a metrics Hd Hreads Hneeds) as (t1 & H1 & _).
    destruct (submit_completes json_loads w2 k a metrics Hd Hreads Hneeds) as (t2 & H2 & _).
    eexists _, _. split; [exact H1 |]. split; [exact H2 |].
    split; [reflexivity |]. split; [now exists [] |].
    split; [reflexivity |]. split; [| reflexivity].
    intros k' cid resp r1' Hres. now rewrite resume_unknown in Hres.
  - destruct (submit_unreadable json_loads w1 (3 + k) a metrics Hd Hreads) as (e1 & _ & H1).
    destruct (submit_unreadable json_loads w2 (3 + k) a metrics Hd Hreads) as (e2 & _ & H2).
    eexists _, _. split; [exact H1 |]. split; [exact H2 |].
    split; [reflexivity |]. split; [now exists ["github_creator"; "teams_notifier"; "incident_reporter"] |].
    split; [discriminate |]. split; [| reflexivity].
    intros k' cid resp r1' Hres. now rewrite resume_unknown in Hres.
  - pose proof (submit_escapes json_loads w1 (4 + k) a e Hd) as H1.
    pose proof (submit_escapes json_loads w2 (4 + k) a e Hd) as H2.
    eexists _, _. split; [exact H1 |]. split; [exact H2 |].
    split; [reflexivity |].
    split; [now exists ["incident_triage"; "github_creator"; "teams_notifier";
                        "incident_reporter"] |].
    split; [discriminate |]. split; [| reflexivity].
    intros k' cid resp r1' Hres. now rewrite resume_unknown in Hres.
Qed.

End Order.

(** ** The approval round trip *)

Section RoundTrip.

Variable json_loads : string -> loaded.
Variable w : World.

Lemma occurs_trans a b s : occurs a b -> occurs b s -> occurs a s.
Proof.
  intros (x & y & ->) (x' & y' & ->). exists (x' +:+ x), (y +:+ y').
  now rewrite !append_assoc.
Qed.

(** A run that needs approval: it is suspended on the single request 0, which
    carries the triage, and a resume with a [TriageApproval] completes it
    with the report of the approved triage. *)
Lemma approval_round_trip k k' a metrics response :
  decoded json_loads a = Ok metrics ->
  triage_reads metrics = true ->
  needs_approval (AlertInput.severity a) = true ->
  exists t,
    let r := awaiting_approval t (triaged w a metrics) in
    let t' := approved_triage t response in
    let r' := downstream w t' (answered 0 r) in
    Engine.submit (2 + k) (workflow json_loads w) (MAlertInput a) = Some r
    /\ Engine.status r = Engine.Suspended [(0%nat, MTriageResult t)]
    /\ TriageResult.alert t = processed_alert (now w 0) a metrics
    /\ TriageResult.incident_severity t = incident_severity_of (AlertInput.severity a)
    /\ TriageResult.priority t = priority_of (AlertInput.severity a)
    /\ Engine.resume (3 + k') (workflow json_loads w) r 0 (RTriageApproval response)
       = inr (Some r')
    /\ Engine.status r' = Engine.Completed [report_for (notification_of w t' (answered 0 r))]
    /\ TriageResult.incident_title t
       = "[" +:+ upper (incident_severity_of (AlertInput.severity a)) +:+ "] "
         +:+ AlertInput.title a.
Proof.
  intros Hd Hreads Hneeds.
  destruct (submit_suspends json_loads w k a metrics Hd Hreads Hneeds)
    as (t & Hsub & Ha & Hs & Hp & Htitle).
  exists t. cbv zeta. repeat split; try assumption.
  apply resume_approval; [| reflexivity]. now rewrite pending_awaiting_approval.
Qed.

(** Metrics that hold a number as cpu_percent and, when they hold a
    memory_percent, a number as well, are metrics the triage reads. *)
Lemma reads_cpu_and_memory a items cpu :
  json_loads (AlertInput.metrics a) = Returned (JDict items) ->
  lookup_item "cpu_percent" items = Some cpu ->
  is_number cpu = true ->
  is_number (get items "memory_percent" (JInt 0)) = true ->
  decoded json_loads a = Ok (JDict items) /\ triage_reads (JDict items) = true.
Proof.
  intros H Hcpu Hnum Hmem. unfold decoded. rewrite H. split; [reflexivity |].
  cbn [triage_reads]. unfold get at 1. now rewrite Hcpu, Hnum, Hmem.
Qed.

(** The report of a triage with severity [sev] and priority [prio], both
    without blanks at their end, shows the severity in upper case and the
    priority. *)
Lemma report_shows_classification n sev prio c s c' s' :
  TriageResult.incident_severity (GitHubIssue.triage (TeamsNotification.github_issue n)) = sev ->
  TriageResult.priority (GitHubIssue.triage (TeamsNotification.github_issue n)) = prio ->
  reverse ("Severity: " +:+ upper sev) = String c s -> is_space c = false ->
  reverse ("Priority: " +:+ prio) = String c' s' -> is_space c' = false ->
  str_in ("Severity: " +:+ upper sev) (report_for n) = true
  /\ str_in ("Priority: " +:+ prio) (report_for n) = true.
Proof.
  intros <- <- Hs Hc Hp Hc'. rewrite !str_in_occurs. split.
  - eapply report_shows_severity; eassumption.
  - eapply report_shows_priority; eassumption.
Qed.

Lemma str_in_trans a b s : str_in a b = true -> str_in b s = true -> str_in a s = true.
Proof. rewrite !str_in_occurs. apply occurs_trans. Qed.

(** C1, as the code has it. For the alert with severity critical, resource
    vm-db-01 and a metrics text that [json.loads] decodes to an object with
    cpu_percent 94.7 whose memory_percent, when present, is a number,
    whatever its other fields: submitting it gives a Suspended run with
    exactly one pending request, whose payload is a triage result with
    incident severity sev1; resuming that request with "approve" gives a
    Completed run with a single output, which embeds the severity in upper
    case, SEV1, in the title tag [SEV1] of its Incident line and in its line
    "Severity: SEV1", and P1 in its line "Priority: P1". *)
Theorem critical_alert_round_trip k k' aid ttl desc src met items notes :
  let a := {| AlertInput.alert_id := aid; AlertInput.title := ttl;
              AlertInput.severity := critical; AlertInput.description := desc;
              AlertInput.source := src; AlertInput.resource := "vm-db-01";
              AlertInput.metrics := met |} in
  json_loads met = Returned (JDict items) ->
  lookup_item "cpu_percent" items = Some (JFloat float_94_7) ->
  is_number (get items "memory_percent" (JInt 0)) = true ->
  exists r t r' report,
    Engine.submit (2 + k) (workflow json_loads w) (MAlertInput a) = Some r
    /\ Engine.status r = Engine.Suspended [(0%nat, MTriageResult t)]
    /\ TriageResult.incident_severity t = "sev1"
    /\ Engine.resume (3 + k') (workflow json_loads w) r 0
         (RTriageApproval {| TriageApproval.approved := approve;
                             TriageApproval.notes := notes |})
       = inr (Some r')
    /\ Engine.status r' = Engine.Completed [report]
    /\ str_in "SEV1" report = true
    /\ str_in "P1" report = true
    /\ str_in "Severity: SEV1" report = true
    /\ str_in "Priority: P1" report = true
    /\ str_in "Incident: [SEV1]" report = true.
Proof.
  intros a Hmet Hcpu Hmem.
  destruct (reads_cpu_and_memory a items _ Hmet Hcpu eq_refl Hmem) as [Hd Hreads].
  destruct (approval_round_trip k k' a (JDict items)
              {| TriageApproval.approved := approve; TriageApproval.notes := notes |}
              Hd Hreads eq_refl)
    as (t & Hsub & Hst & _ & Hs & Hp & Hres & Hst' & Htitle).
  cbv zeta in *. cbn [AlertInput.severity a incident_severity_of priority_of] in Hs, Hp.
  cbn [AlertInput.severity AlertInput.title a incident_severity_of] in Htitle.
  eexists _, t, _, _. split; [exact Hsub |]. split; [exact Hst |]. split; [exact Hs |].
  split; [exact Hres |]. split; [exact Hst' |].
  destruct (report_shows_classification
              (notification_of w t (answered 0 (awaiting_approval t (triaged w a (JDict items)))))
              "sev1" "P1" _ _ _ _ Hs Hp eq_refl eq_refl eq_refl eq_refl) as [Hsev Hprio].
  cbn [approved_triage TriageApproval.approved].
  repeat split; try assumption.
  - eapply str_in_trans; [| exact Hsev]. reflexivity.
  - eapply str_in_trans; [| exact Hprio]. reflexivity.
  - apply str_in_occurs.
    eapply (report_shows_incident _ "[SEV1]" (" " +:+ ttl)); [| reflexivity | reflexivity].
    exact Htitle.
Qed.

(** C2, as the code has it. For the same alert, resuming the pending request
    with "override to sev2" gives a Completed run whose single output embeds
    SEV2 and P2, and the override reaches every stage downstream: the issue
    creator handles a triage with severity sev2 and priority P2, the issue
    the notifier handles has the labels severity:sev2 and priority:P2, and
    the notification the reporter handles is for the channel of sev2,
    #incident-high. *)
Theorem critical_alert_override_to_sev2 k k' aid ttl desc src met items notes :
  let a := {| AlertInput.alert_id := aid; AlertInput.title := ttl;
              AlertInput.severity := critical; AlertInput.description := desc;
              AlertInput.source := src; AlertInput.resource := "vm-db-01";
              AlertInput.metrics := met |} in
  json_loads met = Returned (JDict items) ->
  lookup_item "cpu_percent" items = Some (JFloat float_94_7) ->
  is_number (get items "memory_percent" (JInt 0)) = true ->
  exists r t r' report t' issue notification,
    Engine.submit (2 + k) (workflow json_loads w) (MAlertInput a) = Some r
    /\ Engine.status r = Engine.Suspended [(0%nat, MTriageResult t)]
    /\ TriageResult.incident_severity t = "sev1"
    /\ Engine.resume (3 + k') (workflow json_loads w) r 0
         (RTriageApproval {| TriageApproval.approved := override_to_sev2;
                             TriageApproval.notes := notes |})
       = inr (Some r')
    /\ Engine.status r' = Engine.Completed [report]
    /\ Engine.trace r'
       = Engine.trace r ++ [ ("github_creator", MTriageResult t');
                             ("teams_notifier", MGitHubIssue issue);
                             ("incident_reporter", MTeamsNotification notification) ]
    /\ TriageResult.incident_severity t' = "sev2"
    /\ TriageResult.priority t' = "P2"
    /\ "severity:sev2" ∈ GitHubIssue.labels issue
    /\ "priority:P2" ∈ GitHubIssue.labels issue
    /\ TeamsNotification.channel notification = "#incident-high"
    /\ generate_report notification = Ok (Engine.YieldOutput report)
    /\ str_in "SEV2" report = true
    /\ str_in "P2" report = true
    /\ str_in "Severity: SEV2" report = true
    /\ str_in "Priority: P2" report = true.
Proof.
  intros a Hmet Hcpu Hmem.
  destruct (reads_cpu_and_memory a items _ Hmet Hcpu eq_refl Hmem) as [Hd Hreads].
  destruct (approval_round_trip k k' a (JDict items)
              {| TriageApproval.approved := override_to_sev2; TriageApproval.notes := notes |}
              Hd Hreads eq_refl)
    as (t & Hsub & Hst & _ & Hs & Hp & Hres & Hst' & _).
  cbv zeta in *. cbn [AlertInput.severity a incident_severity_of priority_of] in Hs, Hp.
  cbn [approved_triage TriageApproval.approved] in Hres, Hst'.
  eexists _, t, _, _, (override "sev2" "P2" t), _, _.
  split; [exact Hsub |]. split; [exact Hst |]. split; [exact Hs |].
  split; [exact Hres |]. split; [exact Hst' |]. split; [reflexivity |].
  split; [reflexivity |]. split; [reflexivity |].
  split; [apply list_elem_of_lookup; exists 0%nat; reflexivity |].
  split; [apply list_elem_of_lookup; exists 1%nat; reflexivity |].
  split; [reflexivity |]. split; [apply generate_report_yields |].
  destruct (report_shows_classification
              (notification_of w (override "sev2" "P2" t)
                 (answered 0 (awaiting_approval t (triaged w a (JDict items)))))
              "sev2" "P2" _ _ _ _ eq_refl eq_refl eq_refl eq_refl eq_refl eq_refl)
    as [Hsev Hprio].
  repeat split; try assumption.
  - eapply str_in_trans; [| exact Hsev]. reflexivity.
  - eapply str_in_trans; [| exact Hprio]. reflexivity.
Qed.

End RoundTrip.

(** ** Completion *)

Section Completion.

Variable json_loads : string -> loaded.
Variable w : World.

(** Low and medium alerts whose metrics the triage can read bypass the
    approval: the run completes with one report and never opened a request.
    The metrics are readable when [json.loads] returns an object whose
    cpu_percent and memory_percent, when present, are numbers, or raises
    [json.JSONDecodeError]. *)
Theorem low_and_medium_bypass_approval k a :
  needs_approval (AlertInput.severity a) = false ->
  readable json_loads a = true ->
  exists r report,
    Engine.submit (5 + k) (workflow json_loads w) (MAlertInput a) = Some r
    /\ Engine.status r = Engine.Completed [report]
    /\ Engine.pending r = ∅
    /\ Engine.next_id r = 0%nat.
Proof.
  intros Hneeds Hreads.
  destruct (readable_decoded json_loads a Hreads) as (metrics & Hd & Hr).
  destruct (submit_completes json_loads w k a metrics Hd Hr Hneeds) as (t & Hsub & _).
  eexists _, _. split; [exact Hsub |]. repeat split.
Qed.



End Completion.

(** The medium alert with no title bypasses the approval. *)
Lemma low_and_medium_bypass_approval_witness :
  needs_approval (AlertInput.severity untitled_alert) = false
  /\ readable sample_loads untitled_alert = true
  /\ exists r report,
       Engine.submit 5 (workflow sample_loads sample_world) (MAlertInput untitled_alert)
       = Some r
       /\ Engine.status r = Engine.Completed [report]
       /\ Engine.pending r = ∅
       /\ Engine.next_id r = 0%nat.
Proof.
  split; [reflexivity |]. split; [reflexivity |].
  exact (low_and_medium_bypass_approval sample_loads sample_world 0 untitled_alert
           eq_refl eq_refl).
Defined.


(** ** Closed examples *)

(** C3, at a failing input. The low-severity alert whose metrics text is the
    JSON array [[]] is a well-typed [AlertInput] and passes the validation of
    the alert processor, which stores the decoded list as the metrics; the
    triage handler then raises [AttributeError] on [metrics.get], and the run
    is Failed, not Completed. *)
Theorem low_alert_with_list_metrics_fails :
  sample_loads (AlertInput.metrics low_alert_with_list_metrics) = Returned (JList [])
  /\ sent (process_alert sample_loads (now sample_world 0) low_alert_with_list_metrics)
     = [MProcessedAlert
          (processed_alert (now sample_world 0) low_alert_with_list_metrics (JList []))]
  /\ ProcessedAlert.is_valid
       (processed_alert (now sample_world 0) low_alert_with_list_metrics (JList []))
     = true
  /\ triage_alert
       (processed_alert (now sample_world 0) low_alert_with_list_metrics (JList []))
     = Raise (AttributeError "get")
  /\ option_map Engine.status
       (Engine.submit 5 (workflow sample_loads sample_world)
          (MAlertInput low_alert_with_list_metrics))
     = Some (Engine.Failed (Engine.HandlerFailed (AttributeError "get"))).
Proof. repeat split; vm_compute; reflexivity. Qed.


(** C8, at a text that is not valid JSON and is not caught. The text of 2000
    opening brackets is no JSON document, which the decoder reports when it
    can enter them all; where it can enter 900, [json.loads] raises
    [RecursionError] instead, the alert processor does not catch it, and the
    run is Failed in the alert processor. *)
Lemma deeply_nested_metrics_are_not_caught :
  String.length deep_brackets = 2000%nat
  /\ JsonDecoder.loads 2000 deep_brackets = JSONDecodeError
  /\ sample_loads deep_brackets = Raised RecursionError
  /\ process_alert sample_loads (now sample_world 0)
       (with_metrics deep_brackets AlertInput.default)
     = Raise RecursionError
  /\ option_map Engine.status
       (Engine.submit 5 (workflow sample_loads sample_world)
          (MAlertInput (with_metrics deep_brackets AlertInput.default)))
     = Some (Engine.Failed (Engine.HandlerFailed RecursionError)).
Proof. repeat split; vm_compute; reflexivity. Qed.

(** The report of the approved round trip shows SEV1 and P1, and nowhere the
    lowercase text sev1. *)
Lemma approved_report_has_no_lowercase_sev1 :
  match round_trip sample_loads sample_world 5 round_trip_alert approve_as_is with
  | Some r =>
      match Engine.status r with
      | Engine.Completed [report] =>
          Some (str_in "sev1" report, str_in "SEV1" report, str_in "P1" report)
      | _ => None
      end
  | None => None
  end = Some (false, true, true).
Proof. vm_compute. reflexivity. Qed.

(** The report of the round trip with the override shows SEV2 and P2, and
    nowhere the lowercase text sev2. *)
Lemma overridden_report_has_no_lowercase_sev2 :
  match round_trip sample_loads sample_world 5 round_trip_alert override_sev2 with
  | Some r =>
      match Engine.status r with
      | Engine.Completed [report] =>
          Some (str_in "sev2" report, str_in "SEV2" report, str_in "P2" report)
      | _ => None
      end
  | None => None
  end = Some (false, true, true).
Proof. vm_compute. reflexivity. Qed.

(** The round trip of the alert of the field defaults, whose metrics hold
    cpu_percent 94.7 and memory_percent 88.5, in the sample world. *)
Lemma critical_alert_round_trip_witness :
  sample_loads (AlertInput.metrics AlertInput.default)
  = Returned (JDict [("cpu_percent", JFloat float_94_7);
                     ("memory_percent", JFloat float_88_5)])
  /\ exists r t r' report,
       Engine.submit 2 (workflow sample_loads sample_world) (MAlertInput AlertInput.default)
       = Some r
       /\ Engine.status r = Engine.Suspended [(0%nat, MTriageResult t)]
       /\ TriageResult.incident_severity t = "sev1"
       /\ Engine.resume 3 (workflow sample_loads sample_world) r 0
            (RTriageApproval approve_as_is)
          = inr (Some r')
       /\ Engine.status r' = Engine.Completed [report]
       /\ str_in "SEV1" report = true
       /\ str_in "P1" report = true
       /\ str_in "Severity: SEV1" report = true
       /\ str_in "Priority: P1" report = true
       /\ str_in "Incident: [SEV1]" report = true.
Proof.
  split; [vm_compute; reflexivity |].
  exact (critical_alert_round_trip sample_loads sample_world 0 0
           (AlertInput.alert_id AlertInput.default) (AlertInput.title AlertInput.default)
           (AlertInput.description AlertInput.default) (AlertInput.source AlertInput.default)
           (AlertInput.metrics AlertInput.default) _ ""
           ltac:(vm_compute; reflexivity) eq_refl eq_refl).
Defined.

(** The round trip with the override, for the same alert. *)
Lemma critical_alert_override_to_sev2_witness :
  sample_loads (AlertInput.metrics AlertInput.default)
  = Returned (JDict [("cpu_percent", JFloat float_94_7);
                     ("memory_percent", JFloat float_88_5)])
  /\ exists r t r' report t' issue notification,
       Engine.submit 2 (workflow sample_loads sample_world) (MAlertInput AlertInput.default)
       = Some r
       /\ Engine.status r = Engine.Suspended [(0%nat, MTriageResult t)]
       /\ TriageResult.incident_severity t = "sev1"
       /\ Engine.resume 3 (workflow sample_loads sample_world) r 0
            (RTriageApproval override_sev2)
          = inr (Some r')
       /\ Engine.status r' = Engine.Completed [report]
       /\ Engine.trace r'
          = Engine.trace r ++ [ ("github_creator", MTriageResult t');
                                ("teams_notifier", MGitHubIssue issue);
                                ("incident_reporter", MTeamsNotification notification) ]
       /\ TriageResult.incident_severity t' = "sev2"
       /\ TriageResult.priority t' = "P2"
       /\ "severity:sev2" ∈ GitHubIssue.labels issue
       /\ "priority:P2" ∈ GitHubIssue.labels issue
       /\ TeamsNotification.channel notification = "#incident-high"
       /\ generate_report notification = Ok (Engine.YieldOutput report)
       /\ str_in "SEV2" report = true
       /\ str_in "P2" report = true
       /\ str_in "Severity: SEV2" report = true
       /\ str_in "Priority: P2" report = true.
Proof.
  split; [vm_compute; reflexivity |].
  exact (critical_alert_override_to_sev2 sample_loads sample_world 0 0
           (AlertInput.alert_id AlertInput.default) (AlertInput.title AlertInput.default)
           (AlertInput.description AlertInput.default) (AlertInput.source AlertInput.default)
           (AlertInput.metrics AlertInput.default) _ ""
           ltac:(vm_compute; reflexivity) eq_refl eq_refl).
Defined.

(** The request of the round trip, resumed twice. *)
Lemma second_resume_is_rejected_witness :
  exists r r',
    Engine.submit 2 (workflow sample_loads sample_world) (MAlertInput round_trip_alert)
    = Some r
    /\ well_formed r
    /\ Engine.resume 3 (workflow sample_loads sample_world) r 0
         (RTriageApproval approve_as_is)
       = inr (Some r')
    /\ Engine.resume 3 (workflow sample_loads sample_world) r' 0
         (RTriageApproval approve_as_is)
       = inl Engine.UnknownOrExpiredRequest
    /\ invocations 0 r = 0%nat
    /\ invocations 0 r' = 1%nat.
Proof.
  destruct (approval_round_trip sample_loads sample_world 0 0 round_trip_alert
              (JDict [("cpu_percent", JFloat float_94_7)])
              approve_as_is ltac:(vm_compute; reflexivity) eq_refl eq_refl)
    as (t & Hsub & _ & _ & _ & _ & Hres & _).
  cbv zeta in Hres.
  pose proof (well_formed_submit _ _ _ _ Hsub) as Hwf.
  destruct (second_resume_is_rejected _ _ _ _ _ _ Hwf Hres)
    as (Hagain & _ & Hzero & req & Hreq & Hone).
  eexists _, _. split; [exact Hsub |]. split; [exact Hwf |]. split; [exact Hres |].
  split; [apply Hagain |]. split; [exact Hzero |].
  rewrite pending_awaiting_approval in Hreq by reflexivity.
  injection Hreq as <-. exact Hone.
Defined.

(** * Further properties *)

(** Membership in a list of literals. *)
Ltac in_list := solve [repeat constructor].

(** Case analysis on whether a text is a given literal. *)
Ltac literal s lit :=
  let E := fresh "E" in
  destruct (String.eqb s lit) eqn:E;
  [apply String.eqb_eq in E; try subst s | apply String.eqb_neq in E].

(** ** The triage in detail *)

Section Triage.

(** What the triage handler puts in each field of its result. *)
Lemma triage_alert_fields p t :
  triage_result (triage_alert p) = Some t ->
  exists items cpu_high memory_high,
    ProcessedAlert.metrics p = JDict items
    /\ json_gt_int (get items "cpu_percent" (JInt 0)) 90 = Ok cpu_high
    /\ json_gt_int (get items "memory_percent" (JInt 0)) 85 = Ok memory_high
    /\ TriageResult.alert t = p
    /\ TriageResult.incident_severity t
       = get [("critical", "sev1"); ("high", "sev2"); ("medium", "sev3"); ("low", "sev4")]
             (ProcessedAlert.severity p) "sev3"
    /\ TriageResult.assigned_team t
       = match List.find (fun '(prefix, _) => startswith (ProcessedAlert.resource p) prefix)
                         SERVICE_TEAMS with
         | Some (_, team) => team
         | None => "platform-sre-team"
         end
    /\ TriageResult.affected_services t
       = (if str_in "db" (ProcessedAlert.resource p)
          then ["database-primary"; "order-service"; "inventory-service"]
          else if str_in "api" (ProcessedAlert.resource p)
          then ["api-gateway"; "payment-service"]
          else if str_in "cache" (ProcessedAlert.resource p)
          then ["redis-cache"; "session-service"]
          else [ProcessedAlert.resource p])
    /\ TriageResult.runbook_url t
       = match List.find (fun '(keyword, _) =>
                            str_in keyword (lower (ProcessedAlert.title p))
                            || str_in keyword (lower (ProcessedAlert.description p)))
                         RUNBOOKS with
         | Some (_, url) => url
         | None => "https://wiki.contoso.com/runbooks/general-triage"
         end
    /\ TriageResult.recommended_actions t
       = (if cpu_high then ["Check for runaway processes"; "Consider scaling up or out"]
          else [])
         ++ (if memory_high then ["Identify memory-intensive queries"; "Check for memory leaks"]
             else [])
         ++ (if cpu_high || memory_high then []
             else ["Review recent deployments"; "Check system logs for errors"])
    /\ TriageResult.summary t
       = ProcessedAlert.description p +:+ ". Resource: " +:+ ProcessedAlert.resource p
         +:+ ". Current metrics show elevated "
         +:+ join ", " (map fst (List.filter (fun '(_, v) => elevated v) items)) +:+ "."
    /\ (TriageResult.incident_severity t, TriageResult.priority t)
       ∈ [("sev1", "P1"); ("sev2", "P2"); ("sev3", "P3"); ("sev4", "P4")]
    /\ TriageResult.incident_title t
       = "[" +:+ upper (TriageResult.incident_severity t) +:+ "] " +:+ ProcessedAlert.title p.
Proof.
  unfold triage_alert.
  change (getitem RUNBOOKS "default")
    with (Ok (A := string) "https://wiki.contoso.com/runbooks/general-triage").
  cbn [bind].
  destruct (ProcessedAlert.metrics p) as [| | | | | |items]; try discriminate.
  cbn [json_get json_items bind].
  destruct (json_gt_int (get items "cpu_percent" (JInt 0)) 90) as [cpu_high|] eqn:Hc;
    [| discriminate].
  cbn [bind].
  destruct (json_gt_int (get items "memory_percent" (JInt 0)) 85) as [memory_high|] eqn:Hm;
    [| discriminate].
  cbn [bind].
  intros H. exists items, cpu_high, memory_high.
  split; [reflexivity |]. split; [exact Hc |]. split; [exact Hm |]. clear Hc Hm.
  set (sev := get _ (ProcessedAlert.severity p) "sev3") in *.
  assert (Hsev : sev ∈ ["sev1"; "sev2"; "sev3"; "sev4"]).
  { unfold sev, get. cbn [lookup_item].
    repeat (destruct (String.eqb (ProcessedAlert.severity p) _); [in_list |]).
    in_list. }
  clearbody sev. revert H.
  repeat (apply elem_of_cons in Hsev as [-> | Hsev]); [| | | | inversion Hsev].
  all: cbn [getitem lookup_item String.eqb Ascii.eqb Bool.eqb bind existsb orb
            request_info send_message triage_result].
  all: intros [= <-]; cbn [TriageResult.alert TriageResult.incident_severity
         TriageResult.assigned_team TriageResult.affected_services TriageResult.runbook_url
         TriageResult.recommended_actions TriageResult.summary TriageResult.priority
         TriageResult.incident_title].
  all: repeat (split; [reflexivity |]).
  all: split; [destruct cpu_high, memory_high; reflexivity |].
  all: split; [reflexivity |].
  all: split; [in_list | reflexivity].
Qed.


(** A resource name starts with at most one of the prefixes of the team
    table. *)
Lemma startswith_exclusive resource :
  let starts prefix := startswith resource prefix in
  (starts "vm-db" = true -> starts "vm-prod" = false /\ starts "vm-api" = false
                            /\ starts "vm-cache" = false)
  /\ (starts "vm-prod" = true -> starts "vm-api" = false /\ starts "vm-cache" = false)
  /\ (starts "vm-api" = true -> starts "vm-cache" = false).
Proof.
  cbv zeta. unfold startswith.
  split; [| split]; intros H; destruct (prefix_occurs _ _ H) as [b ->]; repeat split.
Qed.

(** The team is read off the prefix of the resource name: backend-team for
    vm-prod, api-team for vm-api, platform-team for vm-cache, and
    platform-sre-team in every other case, which is both the team of vm-db
    and the default. *)
Theorem triage_assigns_team p t :
  triage_result (triage_alert p) = Some t ->
  let starts prefix := startswith (ProcessedAlert.resource p) prefix in
  (TriageResult.assigned_team t = "backend-team" <-> starts "vm-prod" = true)
  /\ (TriageResult.assigned_team t = "api-team" <-> starts "vm-api" = true)
  /\ (TriageResult.assigned_team t = "platform-team" <-> starts "vm-cache" = true)
  /\ (TriageResult.assigned_team t = "platform-sre-team"
      <-> starts "vm-prod" = false /\ starts "vm-api" = false /\ starts "vm-cache" = false).
Proof.
  intros H. destruct (triage_alert_fields p t H)
    as (items & ch & mh & _ & _ & _ & _ & _ & -> & _).
  cbv zeta. pose proof (startswith_exclusive (ProcessedAlert.resource p)) as Hx.
  cbv zeta in Hx. destruct Hx as (Hdb & Hprod & Hapi).
  unfold SERVICE_TEAMS. cbn [List.find].
  destruct (startswith (ProcessedAlert.resource p) "vm-db") eqn:E1;
    [destruct (Hdb eq_refl) as (-> & -> & ->); repeat split; congruence |].
  destruct (startswith (ProcessedAlert.resource p) "vm-prod") eqn:E2;
    [destruct (Hprod eq_refl) as (-> & ->); repeat split; try congruence;
     intros (? & ? & ?); congruence |].
  destruct (startswith (ProcessedAlert.resource p) "vm-api") eqn:E3;
    [rewrite (Hapi eq_refl); repeat split; try congruence;
     intros (? & ? & ?); congruence |].
  destruct (startswith (ProcessedAlert.resource p) "vm-cache") eqn:E4;
    repeat split; try congruence; intros (? & ? & ?); congruence.
Qed.

(** The affected services are never empty. A resource whose name contains
    "db" gets the three database services, whatever else the name contains;
    the resource itself is the only affected service exactly when its name
    contains none of "db", "api" and "cache". Team and services are decided
    independently: a resource named vm-api... with "db" in its name goes to
    the api-team with the database services. *)
Theorem triage_affected_services p t :
  triage_result (triage_alert p) = Some t ->
  let resource := ProcessedAlert.resource p in
  TriageResult.affected_services t <> []
  /\ (str_in "db" resource = true ->
      TriageResult.affected_services t
      = ["database-primary"; "order-service"; "inventory-service"])
  /\ (TriageResult.affected_services t = [resource]
      <-> str_in "db" resource = false /\ str_in "api" resource = false
          /\ str_in "cache" resource = false)
  /\ (startswith resource "vm-api" = true -> str_in "db" resource = true ->
      TriageResult.assigned_team t = "api-team"
      /\ TriageResult.affected_services t
         = ["database-primary"; "order-service"; "inventory-service"]).
Proof.
  intros H. destruct (triage_alert_fields p t H)
    as (items & ch & mh & _ & _ & _ & _ & _ & Hteam & -> & _).
  cbv zeta. split; [| split; [| split]].
  - repeat (destruct (str_in _ _); [discriminate |]). discriminate.
  - now intros ->.
  - destruct (str_in "db" _); [split; [discriminate | intros (? & _); discriminate] |].
    destruct (str_in "api" _); [split; [discriminate | intros (_ & ? & _); discriminate] |].
    destruct (str_in "cache" _); [split; [discriminate | intros (_ & _ & ?); discriminate] |].
    split; [intros _; repeat split | reflexivity].
  - intros Hapi ->. split; [| reflexivity].
    rewrite Hteam. unfold SERVICE_TEAMS. cbn [List.find].
    pose proof (startswith_exclusive (ProcessedAlert.resource p)) as Hx.
    cbv zeta in Hx. destruct Hx as (Hdb & Hprod & _).
    destruct (startswith (ProcessedAlert.resource p) "vm-db") eqn:E1;
      [destruct (Hdb eq_refl) as (_ & ? & _); congruence |].
    destruct (startswith (ProcessedAlert.resource p) "vm-prod") eqn:E2;
      [destruct (Hprod eq_refl) as (? & _); congruence |].
    now rewrite Hapi.
Qed.

(** The runbook is always one of the five of the table. For a title and a
    description of ASCII characters, it is the CPU runbook whenever "cpu"
    occurs in the lower-cased title or description, whatever other keyword
    occurs there, and the general one exactly when none of "cpu", "memory",
    "disk" and "network" occurs. *)
Theorem triage_runbook p t :
  triage_result (triage_alert p) = Some t ->
  let mentions keyword :=
    str_in keyword (lower (ProcessedAlert.title p))
    || str_in keyword (lower (ProcessedAlert.description p)) in
  TriageResult.runbook_url t ∈ map snd RUNBOOKS
  /\ (isascii (ProcessedAlert.title p) = true ->
      isascii (ProcessedAlert.description p) = true ->
      lower (ProcessedAlert.title p) = map_string lower_ascii (ProcessedAlert.title p)
      /\ lower (ProcessedAlert.description p)
         = map_string lower_ascii (ProcessedAlert.description p)
      /\ (mentions "cpu" = true ->
          TriageResult.runbook_url t = "https://wiki.contoso.com/runbooks/high-cpu")
      /\ (TriageResult.runbook_url t = "https://wiki.contoso.com/runbooks/general-triage"
          <-> mentions "cpu" = false /\ mentions "memory" = false
              /\ mentions "disk" = false /\ mentions "network" = false)).
Proof.
  intros H. destruct (triage_alert_fields p t H)
    as (items & ch & mh & _ & _ & _ & _ & _ & _ & _ & -> & _).
  cbv zeta. unfold RUNBOOKS. cbn [List.find map snd].
  destruct (str_in "cpu" _ || str_in "cpu" _);
    [split; [in_list | intros Ht Hd; split; [now apply lower_isascii |];
                       split; [now apply lower_isascii |]; split; [reflexivity |]];
     split; [discriminate | intros (? & _); discriminate] |].
  destruct (str_in "memory" _ || str_in "memory" _);
    [split; [in_list | intros Ht Hd; split; [now apply lower_isascii |];
                       split; [now apply lower_isascii |]; split; [discriminate |]];
     split; [discriminate | intros (_ & ? & _); discriminate] |].
  destruct (str_in "disk" _ || str_in "disk" _);
    [split; [in_list | intros Ht Hd; split; [now apply lower_isascii |];
                       split; [now apply lower_isascii |]; split; [discriminate |]];
     split; [discriminate | intros (_ & _ & ? & _); discriminate] |].
  destruct (str_in "network" _ || str_in "network" _);
    [split; [in_list | intros Ht Hd; split; [now apply lower_isascii |];
                       split; [now apply lower_isascii |]; split; [discriminate |]];
     split; [discriminate | intros (_ & _ & _ & ?); discriminate] |].
  destruct (str_in "default" _ || str_in "default" _);
    (split; [in_list | intros Ht Hd; split; [now apply lower_isascii |];
                       split; [now apply lower_isascii |]; split; [discriminate |]];
     split; [intros _; repeat split | reflexivity]).
Qed.

(** The recommended actions are the two CPU actions when cpu_percent is above
    90, then the two memory actions when memory_percent is above 85, and the
    two general actions when neither is: two or four actions, never none. A
    metric that is absent counts as 0. *)
Theorem triage_recommends p t :
  triage_result (triage_alert p) = Some t ->
  exists items cpu_high memory_high,
    ProcessedAlert.metrics p = JDict items
    /\ json_gt_int (get items "cpu_percent" (JInt 0)) 90 = Ok cpu_high
    /\ json_gt_int (get items "memory_percent" (JInt 0)) 85 = Ok memory_high
    /\ TriageResult.recommended_actions t
       = (if cpu_high then ["Check for runaway processes"; "Consider scaling up or out"]
          else [])
         ++ (if memory_high
             then ["Identify memory-intensive queries"; "Check for memory leaks"]
             else [])
         ++ (if cpu_high || memory_high then []
             else ["Review recent deployments"; "Check system logs for errors"])
    /\ (length (TriageResult.recommended_actions t) = 2%nat
        \/ length (TriageResult.recommended_actions t) = 4%nat)
    /\ (lookup_item "cpu_percent" items = None -> cpu_high = false)
    /\ (lookup_item "memory_percent" items = None -> memory_high = false).
Proof.
  intros H. destruct (triage_alert_fields p t H)
    as (items & ch & mh & Hm & Hc & Hmem & _ & _ & _ & _ & _ & Ha & _).
  exists items, ch, mh. repeat (split; [assumption |]).
  split; [rewrite Ha; destruct ch, mh; auto |].
  unfold get in Hc, Hmem.
  split; intros Hnone; rewrite Hnone in *; cbn in *; congruence.
Qed.


(** From the triage through any answer to the approval and down to the
    notification, the classification stays in step: the severity sevN, the
    priority PN and the title tag [SEVN] carry the same N, the issue is
    labelled with that severity and priority and with the team the triage
    assigned, and the channel is the one of sevN. *)
Theorem classification_stays_consistent w p t response created_at posted_at :
  triage_result (triage_alert p) = Some t ->
  exists t',
    handle_approval t response = Ok (Engine.Emit [MTriageResult t'])
    /\ forall x, x ∈ [t; t'] ->
       exists k channel issue notification,
         (k, channel) ∈ [ ("1", "#incident-critical"); ("2", "#incident-high");
                          ("3", "#ops-alerts"); ("4", "#ops-info") ]
         /\ TriageResult.incident_severity x = "sev" +:+ k
         /\ TriageResult.priority x = "P" +:+ k
         /\ TriageResult.incident_title x = "[SEV" +:+ k +:+ "] " +:+ ProcessedAlert.title p
         /\ create_issue w created_at x = Ok (Engine.Emit [MGitHubIssue issue])
         /\ GitHubIssue.labels issue
            = [ "severity:sev" +:+ k; "priority:P" +:+ k; "incident";
                TriageResult.assigned_team t ]
         /\ notify_teams w posted_at issue
            = Ok (Engine.Emit [MTeamsNotification notification])
         /\ TeamsNotification.channel notification = channel.
Proof.
  intros H. destruct (triage_alert_fields p t H) as (items & ch & mh & Hfields).
  destruct Hfields as (_ & _ & _ & Halert & _ & _ & _ & _ & _ & _ & Hcls & Htitle).
  exists (approved_triage t response). split; [apply handle_approval_sends |].
  assert (Hdown : forall x k channel,
    (k, channel) ∈ [ ("1", "#incident-critical"); ("2", "#incident-high");
                     ("3", "#ops-alerts"); ("4", "#ops-info") ] ->
    TriageResult.incident_severity x = "sev" +:+ k ->
    TriageResult.priority x = "P" +:+ k ->
    TriageResult.incident_title x = "[SEV" +:+ k +:+ "] " +:+ ProcessedAlert.title p ->
    TriageResult.assigned_team x = TriageResult.assigned_team t ->
    exists k channel issue notification,
      (k, channel) ∈ [ ("1", "#incident-critical"); ("2", "#incident-high");
                       ("3", "#ops-alerts"); ("4", "#ops-info") ]
      /\ TriageResult.incident_severity x = "sev" +:+ k
      /\ TriageResult.priority x = "P" +:+ k
      /\ TriageResult.incident_title x = "[SEV" +:+ k +:+ "] " +:+ ProcessedAlert.title p
      /\ create_issue w created_at x = Ok (Engine.Emit [MGitHubIssue issue])
      /\ GitHubIssue.labels issue
         = [ "severity:sev" +:+ k; "priority:P" +:+ k; "incident";
             TriageResult.assigned_team t ]
      /\ notify_teams w posted_at issue
         = Ok (Engine.Emit [MTeamsNotification notification])
      /\ TeamsNotification.channel notification = channel).
  { intros x k channel Hk Hs Hp Ht Hteam.
    exists k, channel, (issue_for w created_at x),
      (notification_for w posted_at (issue_for w created_at x)).
    split; [exact Hk |]. split; [exact Hs |]. split; [exact Hp |]. split; [exact Ht |].
    split; [reflexivity |].
    split; [cbn [issue_for GitHubIssue.labels]; now rewrite Hs, Hp, Hteam |].
    split; [reflexivity |].
    cbn [notification_for issue_for TeamsNotification.channel GitHubIssue.triage].
    rewrite Hs.
    repeat (apply elem_of_cons in Hk as [[= -> ->] | Hk]; [reflexivity |]).
    inversion Hk. }
  assert (Ht : exists k channel,
    (k, channel) ∈ [ ("1", "#incident-critical"); ("2", "#incident-high");
                     ("3", "#ops-alerts"); ("4", "#ops-info") ]
    /\ TriageResult.incident_severity t = "sev" +:+ k
    /\ TriageResult.priority t = "P" +:+ k
    /\ TriageResult.incident_title t = "[SEV" +:+ k +:+ "] " +:+ ProcessedAlert.title p).
  { rewrite Htitle.
    apply elem_of_cons in Hcls as [[= -> ->] | Hcls];
      [exists "1", "#incident-critical"; split; [in_list | repeat split] |].
    apply elem_of_cons in Hcls as [[= -> ->] | Hcls];
      [exists "2", "#incident-high"; split; [in_list | repeat split] |].
    apply elem_of_cons in Hcls as [[= -> ->] | Hcls];
      [exists "3", "#ops-alerts"; split; [in_list | repeat split] |].
    apply elem_of_cons in Hcls as [[= -> ->] | Hcls];
      [exists "4", "#ops-info"; split; [in_list | repeat split] |].
    inversion Hcls. }
  destruct Ht as (k & channel & Hk & Hs & Hp & Ht).
  intros x Hx. apply elem_of_cons in Hx as [-> | Hx];
    [now apply (Hdown t k channel) |].
  apply elem_of_cons in Hx as [-> | Hx]; [| inversion Hx].
  destruct response as [[] notes]; cbn [approved_triage TriageApproval.approved].
  - now apply (Hdown t k channel).
  - apply (Hdown _ "1" "#incident-critical"); [in_list | reflexivity | reflexivity | | reflexivity].
    cbn [override TriageResult.set_priority TriageResult.set_incident_title
         TriageResult.set_incident_severity TriageResult.incident_title TriageResult.alert].
    now rewrite Halert.
  - apply (Hdown _ "2" "#incident-high"); [in_list | reflexivity | reflexivity | | reflexivity].
    cbn [override TriageResult.set_priority TriageResult.set_incident_title
         TriageResult.set_incident_severity TriageResult.incident_title TriageResult.alert].
    now rewrite Halert.
  - apply (Hdown _ "3" "#ops-alerts"); [in_list | reflexivity | reflexivity | | reflexivity].
    cbn [override TriageResult.set_priority TriageResult.set_incident_title
         TriageResult.set_incident_severity TriageResult.incident_title TriageResult.alert].
    now rewrite Halert.
Qed.

End Triage.

(** Closed instances on the alert of the API database host. *)

Lemma triage_assigns_team_witness :
  exists t,
    triage_result (triage_alert api_db_alert) = Some t
    /\ TriageResult.assigned_team t = "api-team".
Proof.
  eexists. split; [reflexivity |].
  apply (triage_assigns_team api_db_alert _ eq_refl). reflexivity.
Defined.

Lemma triage_affected_services_witness :
  exists t,
    triage_result (triage_alert api_db_alert) = Some t
    /\ startswith (ProcessedAlert.resource api_db_alert) "vm-api" = true
    /\ str_in "db" (ProcessedAlert.resource api_db_alert) = true
    /\ TriageResult.assigned_team t = "api-team"
    /\ TriageResult.affected_services t
       = ["database-primary"; "order-service"; "inventory-service"].
Proof.
  eexists. split; [reflexivity |]. split; [reflexivity |]. split; [reflexivity |].
  apply (triage_affected_services api_db_alert _ eq_refl); reflexivity.
Defined.

Lemma triage_runbook_witness :
  exists t,
    triage_result (triage_alert api_db_alert) = Some t
    /\ isascii (ProcessedAlert.title api_db_alert) = true
    /\ isascii (ProcessedAlert.description api_db_alert) = true
    /\ TriageResult.runbook_url t = "https://wiki.contoso.com/runbooks/high-cpu".
Proof.
  eexists. split; [reflexivity |]. split; [reflexivity |]. split; [reflexivity |].
  apply (triage_runbook api_db_alert _ eq_refl); reflexivity.
Defined.

Lemma triage_recommends_witness :
  exists t,
    triage_result (triage_alert api_db_alert) = Some t
    /\ length (TriageResult.recommended_actions t) = 4%nat.
Proof.
  eexists. split; [reflexivity |].
  destruct (triage_recommends api_db_alert _ eq_refl)
    as (items & cpu_high & memory_high & _ & _ & _ & _ & [H | H] & _);
    [discriminate H | exact H].
Defined.

Lemma classification_stays_consistent_witness :
  exists t t',
    triage_result (triage_alert api_db_alert) = Some t
    /\ handle_approval t override_sev2 = Ok (Engine.Emit [MTriageResult t'])
    /\ TriageResult.priority t' = "P2".
Proof.
  eexists. 
  destruct (classification_stays_consistent sample_world api_db_alert _ override_sev2
              "2026-01-31T09:00:02.000000" "2026-01-31T09:00:03.000000" eq_refl)
    as (t' & Hsend & _).
  exists t'. split; [reflexivity |]. split; [exact Hsend |].
  injection Hsend as <-. reflexivity.
Defined.

(** ** The layout of the report *)

Section Layout.

Implicit Types s a b sep : string.

Lemma append_cons c a b : String c a +:+ b = String c (a +:+ b).
Proof. reflexivity. Qed.

Lemma join_cons sep a b (l : list string) :
  join sep (a :: b :: l) = a +:+ sep +:+ join sep (b :: l).
Proof. reflexivity. Qed.

Lemma join_app sep (l1 l2 : list string) :
  l1 <> [] -> l2 <> [] -> join sep (l1 ++ l2) = join sep l1 +:+ sep +:+ join sep l2.
Proof.
  intros H1 H2. induction l1 as [|a l1 IH]; [now destruct H1 |].
  destruct l1 as [|b l1].
  - destruct l2 as [|c l2]; [now destruct H2 | reflexivity].
  - change ((a :: b :: l1) ++ l2) with (a :: b :: (l1 ++ l2)).
    rewrite !join_cons.
    change (b :: l1 ++ l2) with ((b :: l1) ++ l2).
    rewrite IH by discriminate. now rewrite !append_assoc.
Qed.

(** The items of a joined list occur in it, joined. *)
Lemma occurs_join_middle sep (pre mid post : list string) :
  occurs (join sep mid) (join sep (pre ++ mid ++ post)).
Proof.
  destruct mid as [|m mid].
  - exists "", (join sep (pre ++ post)). reflexivity.
  - destruct pre as [|p pre], post as [|q post].
    + rewrite app_nil_r. apply occurs_refl.
    + change ([] ++ ?l) with l. rewrite join_app by discriminate.
      apply occurs_append_l, occurs_refl.
    + rewrite app_nil_r, join_app by discriminate.
      apply occurs_append_r, occurs_append_r, occurs_refl.
    + rewrite join_app, join_app by discriminate.
      apply occurs_append_r, occurs_append_r, occurs_append_l, occurs_refl.
Qed.

Lemma lstrip_blank ws s : blank ws = true -> lstrip (ws +:+ s) = lstrip s.
Proof.
  induction ws as [|c ws IH]; intros H; [reflexivity |].
  cbn [blank] in H. apply andb_true_iff in H as [Hc H].
  rewrite append_cons. cbn [lstrip]. rewrite Hc. now apply IH.
Qed.

Lemma lstrip_nonblank c s : is_space c = false -> lstrip (String c s) = String c s.
Proof. intros H. cbn [lstrip]. now rewrite H. Qed.

Lemma blank_reverse ws : blank ws = true -> blank (reverse ws) = true.
Proof.
  assert (Happ : forall a b, blank (a +:+ b) = blank a && blank b).
  { intros a b. induction a as [|c a IH]; [reflexivity |].
    rewrite append_cons. cbn [blank]. now rewrite IH, andb_assoc. }
  induction ws as [|c ws IH]; intros H; [reflexivity |].
  cbn [blank] in H. apply andb_true_iff in H as [Hc H].
  change (String c ws) with (String c "" +:+ ws).
  rewrite reverse_append, Happ, IH by assumption.
  change (reverse (String c "")) with (String c ""). cbn [blank]. now rewrite Hc.
Qed.

(** [strip] removes a frame of blanks around a text that neither starts nor
    ends with a blank, and nothing else. *)
Lemma strip_framed ws1 ws2 core c s c' s' :
  blank ws1 = true -> blank ws2 = true ->
  core = String c s -> is_space c = false ->
  reverse core = String c' s' -> is_space c' = false ->
  strip (ws1 +:+ core +:+ ws2) = core.
Proof.
  intros H1 H2 Hc Hsp Hc' Hsp'. unfold strip.
  rewrite lstrip_blank by assumption.
  rewrite Hc, append_cons, lstrip_nonblank by assumption.
  rewrite <- append_cons, <- Hc, reverse_append.
  rewrite lstrip_blank by now apply blank_reverse.
  rewrite Hc', lstrip_nonblank by assumption.
  now rewrite <- Hc', reverse_involutive.
Qed.


Abbreviation triage_of n := (GitHubIssue.triage (TeamsNotification.github_issue n)).

(** The symbol the report shows for a severity. *)
Lemma severity_emoji_cases sev :
  get [("sev1", "🔴"); ("sev2", "🟠"); ("sev3", "🟡"); ("sev4", "🔵")] sev "⚪"
  ∈ ["🔴"; "🟠"; "🟡"; "🔵"; "⚪"].
Proof.
  unfold get. cbn [lookup_item].
  repeat (destruct (String.eqb sev _); [in_list |]). in_list.
Qed.

(** The report is the lines of the template between its first and its last
    line break: the [strip] removes the frame and nothing of the fields. *)
Lemma report_for_items n :
  let issue := TeamsNotification.github_issue n in
  let triage := GitHubIssue.triage issue in
  let emoji :=
    get [("sev1", "🔴"); ("sev2", "🟠"); ("sev3", "🟡"); ("sev4", "🔵")]
        (TriageResult.incident_severity triage) "⚪" in
  let actions := TriageResult.recommended_actions triage in
  report_for n =
    join newline
      ([ emoji +:+ " INCIDENT RESPONSE COMPLETE " +:+ emoji;
         rule;
         "";
         "📋 Incident: " +:+ TriageResult.incident_title triage;
         "🎫 Ticket: #" +:+ str_int (GitHubIssue.issue_number issue);
         "🔗 GitHub: " +:+ GitHubIssue.issue_url issue;
         "";
         "📊 Classification:";
         "   • Severity: " +:+ upper (TriageResult.incident_severity triage);
         "   • Priority: " +:+ TriageResult.priority triage;
         "   • Assigned: " +:+ TriageResult.assigned_team triage;
         "" ]
       ++ [ "⚠️ Affected Services:";
            "   • " +:+ (newline +:+ join "   • " (TriageResult.affected_services triage));
            "";
            "📝 Summary:" ]
       ++ [ "   " +:+ TriageResult.summary triage;
            "" ]
       ++ [ "✅ Recommended Actions:";
            "   1. " +:+ (if (1 <? length actions)%nat
                          then newline +:+ join "   2. " (take 2 actions)
                          else match actions with
                               | first :: _ => first
                               | [] => "Review logs"
                               end);
            "";
            "📚 Runbook: " +:+ TriageResult.runbook_url triage ]
       ++ [ "";
            "💬 Teams Notification:" ]
       ++ [ "   • Channel: " +:+ TeamsNotification.channel n;
            "   • Status: " +:+ (if TeamsNotification.success n
                                 then "✓ Posted" else "✗ Failed");
            "";
            rule ]).
Proof.
  cbv zeta. unfold report_for, generate_report, yield_output. cbv beta iota zeta.
  match goal with
  | |- strip (join _ (?first :: ?l)) = _ =>
      let l' := eval cbn [removelast] in (removelast l) in
      change (first :: l) with ([first] ++ l' ++ ["        "])
  end.
  fold rule.
  rewrite join_app, join_app by discriminate.
  change (join newline [""] +:+ newline +:+ ?x) with (newline +:+ x).
  match goal with
  | |- strip (newline +:+ ?core +:+ ?ws2) = ?rhs =>
      change rhs with core
  end.
  pose proof (severity_emoji_cases (TriageResult.incident_severity (triage_of n))) as He.
  set (emoji := get _ _ "⚪") in *. clearbody emoji.
  assert (Hrule : exists c' r', reverse rule = String c' r' /\ is_space c' = false)
    by (vm_compute; eauto).
  destruct Hrule as (c' & r' & Hrule & Hc').
  match goal with
  | |- strip (_ +:+ join _ (?a :: ?l) +:+ _) = _ =>
      let l' := eval cbn [removelast] in (removelast l) in
      change (a :: l) with ((a :: l') ++ [rule])
  end.
  repeat (apply elem_of_cons in He as [-> | He]); [| | | | | inversion He].
  all: eapply strip_framed;
    [ reflexivity | reflexivity | reflexivity | reflexivity
    | rewrite join_app by discriminate; change (join newline [rule]) with rule;
      rewrite !reverse_append, Hrule; reflexivity
    | exact Hc' ].
Qed.


Lemma occurs_join_slice sep (l : list string) (i k : nat) :
  occurs (join sep (take k (drop i l))) (join sep l).
Proof.
  rewrite <- (take_drop i l) at 2. rewrite <- (take_drop k (drop i l)) at 2.
  apply occurs_join_middle.
Qed.

(** Whatever the notification holds, the report starts with the line of the
    severity symbol (a white circle for a severity that is none of sev1 to
    sev4) and the rule, and ends with the rule: the [strip] leaves no blank
    around it. *)
Theorem report_first_and_last_line n :
  let sev := TriageResult.incident_severity (triage_of n) in
  let emoji :=
    if String.eqb sev "sev1" then "🔴"
    else if String.eqb sev "sev2" then "🟠"
    else if String.eqb sev "sev3" then "🟡"
    else if String.eqb sev "sev4" then "🔵"
    else "⚪" in
  startswith (report_for n)
    (emoji +:+ " INCIDENT RESPONSE COMPLETE " +:+ emoji +:+ newline +:+ rule +:+ newline) = true
  /\ endswith (report_for n) (newline +:+ rule) = true
  /\ lstrip (report_for n) = report_for n.
Proof.
  cbv zeta. rewrite report_for_items. cbv zeta.
  set (emoji := get _ _ "⚪").
  assert (He : emoji =
    let sev := TriageResult.incident_severity (triage_of n) in
    if String.eqb sev "sev1" then "🔴"
    else if String.eqb sev "sev2" then "🟠"
    else if String.eqb sev "sev3" then "🟡"
    else if String.eqb sev "sev4" then "🔵"
    else "⚪").
  { unfold emoji, get. cbn [lookup_item]. cbv zeta.
    repeat (destruct (String.eqb _ _); [reflexivity |]). reflexivity. }
  cbv zeta in He. rewrite <- He.
  pose proof (severity_emoji_cases (TriageResult.incident_severity (triage_of n))) as Hin.
  fold emoji in Hin. clearbody emoji. clear He.
  match goal with
  | |- context [join newline (?l1 ++ ?l2)] =>
      let l := eval cbn [app] in (l1 ++ l2) in change (l1 ++ l2) with l
  end.
  split; [| split].
  - unfold startswith. rewrite !join_cons.
    replace (emoji +:+ " INCIDENT RESPONSE COMPLETE " +:+ emoji +:+ newline +:+ rule +:+ newline)
      with (((emoji +:+ " INCIDENT RESPONSE COMPLETE " +:+ emoji) +:+ newline +:+ rule +:+ newline))
      by now rewrite !append_assoc.
    match goal with
    | |- String.prefix ?p (?a +:+ newline +:+ rule +:+ newline +:+ ?rest) = true =>
        replace (a +:+ newline +:+ rule +:+ newline +:+ rest)
          with (p +:+ rest) by now rewrite !append_assoc
    end.
    apply prefix_append.
  - match goal with
    | |- endswith (join _ (?a :: ?l)) _ = true =>
        let l' := eval cbn [removelast] in (removelast l) in
        change (a :: l) with ((a :: l') ++ [rule])
    end.
    rewrite join_app by discriminate. change (join newline [rule]) with rule.
    apply endswith_append.
  - rewrite !join_cons.
    repeat (apply elem_of_cons in Hin as [-> | Hin]); [| | | | | inversion Hin];
      reflexivity.
Qed.

(** The report prints the affected services on one line under an empty
    bullet: the first service has no bullet, and each later one follows the
    one before on the same line after three blanks and a bullet. *)
Theorem report_affected_services_on_one_line n :
  occurs ("⚠️ Affected Services:" +:+ newline
          +:+ "   • " +:+ newline
          +:+ join "   • " (TriageResult.affected_services (triage_of n)) +:+ newline
          +:+ newline
          +:+ "📝 Summary:")
         (report_for n).
Proof.
  rewrite report_for_items. cbv zeta.
  match goal with
  | |- occurs ?x (join _ (_ ++ ?mid ++ _)) =>
      replace x with (join newline mid); [apply occurs_join_middle |]
  end.
  rewrite !join_cons. now rewrite !append_assoc.
Qed.

(** The report shows at most two recommended actions. With two or more, the
    first two are printed on one line under an empty item 1, the second after
    three blanks and "2.", and no later action is printed; with one, it is
    item 1; with none, item 1 is "Review logs". *)
Theorem report_shows_two_actions n :
  let actions := TriageResult.recommended_actions (triage_of n) in
  let section item :=
    "✅ Recommended Actions:" +:+ newline +:+ "   1. " +:+ item +:+ newline +:+ newline
    +:+ "📚 Runbook: " +:+ TriageResult.runbook_url (triage_of n) in
  occurs (section match actions with
                  | [] => "Review logs"
                  | [only] => only
                  | first :: second :: _ => newline +:+ first +:+ "   2. " +:+ second
                  end)
         (report_for n).
Proof.
  cbv zeta. rewrite report_for_items. cbv zeta.
  match goal with
  | |- occurs ?x (join _ (?l1 ++ ?l2 ++ ?l3 ++ ?mid ++ ?post)) =>
      replace x with (join newline mid);
        [rewrite (app_assoc l1), (app_assoc (l1 ++ l2)); apply occurs_join_middle |]
  end.
  rewrite !join_cons.
  destruct (TriageResult.recommended_actions (triage_of n)) as [|a1 [|a2 rest]];
    cbn [length Nat.ltb Nat.leb take join String.concat];
    now rewrite !append_assoc.
Qed.


(** The three stages downstream of the triage never fail, whatever the triage
    result: the ticket number is between 1000 and 10999, the report shows it
    in the Ticket line and again at the end of the GitHub link below, and the
    report ends with the channel of the notification and the status Posted. *)
Theorem downstream_report_ticket_and_status w x created_at posted_at :
  exists issue notification report,
    create_issue w created_at x = Ok (Engine.Emit [MGitHubIssue issue])
    /\ notify_teams w posted_at issue = Ok (Engine.Emit [MTeamsNotification notification])
    /\ generate_report notification = Ok (Engine.YieldOutput report)
    /\ 1000 <= GitHubIssue.issue_number issue <= 10999
    /\ occurs ("🎫 Ticket: #" +:+ str_int (GitHubIssue.issue_number issue) +:+ newline
               +:+ "🔗 GitHub: https://github.com/contoso/incidents/issues/"
               +:+ str_int (GitHubIssue.issue_number issue) +:+ newline)
              report
    /\ endswith report
         ("   • Channel: " +:+ TeamsNotification.channel notification +:+ newline
          +:+ "   • Status: ✓ Posted" +:+ newline +:+ newline +:+ rule) = true.
Proof.
  exists (issue_for w created_at x),
    (notification_for w posted_at (issue_for w created_at x)),
    (report_for (notification_for w posted_at (issue_for w created_at x))).
  split; [reflexivity |]. split; [reflexivity |]. split; [reflexivity |].
  split.
  { cbn [issue_for GitHubIssue.issue_number].
    pose proof (Z.mod_pos_bound
                  (hash w (ProcessedAlert.alert_id (TriageResult.alert x))) 10000
                  ltac:(lia)). lia. }
  rewrite report_for_items. cbv zeta.
  set (n := notification_for w posted_at (issue_for w created_at x)).
  change (TeamsNotification.success n) with true. cbv iota.
  change (GitHubIssue.issue_url (TeamsNotification.github_issue n))
    with ("https://github.com/contoso/incidents/issues/"
          +:+ str_int (GitHubIssue.issue_number (issue_for w created_at x))).
  change (TeamsNotification.github_issue n) with (issue_for w created_at x).
  split.
  - eapply occurs_trans; [| apply (occurs_join_slice newline _ 4 3)].
    cbn [app take drop]. rewrite !join_cons.
    change (join newline [""]) with "".
    rewrite !append_assoc. apply occurs_refl.
  - rewrite !app_assoc. rewrite join_app by discriminate.
    match goal with
    | |- endswith (?a +:+ newline +:+ ?b) ?c = true =>
        replace (endswith (a +:+ newline +:+ b) c) with (endswith ((a +:+ newline) +:+ c) c);
          [apply endswith_append |]
    end.
    rewrite !join_cons. change (join newline [rule]) with rule.
    now rewrite !append_assoc.
Qed.

End Layout.

(** ** From the triage to the report *)

Section TriageToReport.

Abbreviation triage_of n := (GitHubIssue.triage (TeamsNotification.github_issue n)).

(** When cpu_percent is above 90 and memory_percent above 85, the triage
    recommends four actions, and the report of any notification that carries
    them prints the two CPU actions only: the runbook follows them, and the
    two memory actions are left out. *)
Theorem report_omits_the_memory_actions p t n items :
  triage_result (triage_alert p) = Some t ->
  ProcessedAlert.metrics p = JDict items ->
  json_gt_int (get items "cpu_percent" (JInt 0)) 90 = Ok true ->
  json_gt_int (get items "memory_percent" (JInt 0)) 85 = Ok true ->
  TriageResult.recommended_actions (triage_of n) = TriageResult.recommended_actions t ->
  TriageResult.recommended_actions t
  = [ "Check for runaway processes"; "Consider scaling up or out";
      "Identify memory-intensive queries"; "Check for memory leaks" ]
  /\ occurs ("✅ Recommended Actions:" +:+ newline
             +:+ "   1. " +:+ newline
             +:+ "Check for runaway processes   2. Consider scaling up or out" +:+ newline
             +:+ newline
             +:+ "📚 Runbook: " +:+ TriageResult.runbook_url (triage_of n))
            (report_for n).
Proof.
  intros H Hitems Hcpu Hmem Hn.
  destruct (triage_alert_fields p t H)
    as (items' & ch & mh & Hm & Hc & Hmh & _ & _ & _ & _ & _ & Ha & _).
  rewrite Hitems in Hm. injection Hm as <-.
  rewrite Hcpu in Hc. injection Hc as <-. rewrite Hmem in Hmh. injection Hmh as <-.
  cbn [app] in Ha. split; [exact Ha |].
  rewrite report_for_items. cbv zeta. rewrite Hn, Ha.
  match goal with
  | |- occurs ?x (join _ (?l1 ++ ?l2 ++ ?l3 ++ ?mid ++ ?post)) =>
      replace x with (join newline mid);
        [rewrite (app_assoc l1), (app_assoc (l1 ++ l2)); apply occurs_join_middle |]
  end.
  reflexivity.
Qed.

End TriageToReport.

Lemma report_omits_the_memory_actions_witness :
  exists t n items,
    triage_result (triage_alert api_db_alert) = Some t
    /\ ProcessedAlert.metrics api_db_alert = JDict items
    /\ n = notification_for sample_world "2026-01-31T09:00:03.000000"
             (issue_for sample_world "2026-01-31T09:00:02.000000" t)
    /\ length (TriageResult.recommended_actions t) = 4%nat
    /\ occurs ("✅ Recommended Actions:" +:+ newline
               +:+ "   1. " +:+ newline
               +:+ "Check for runaway processes   2. Consider scaling up or out" +:+ newline
               +:+ newline
               +:+ "📚 Runbook: https://wiki.contoso.com/runbooks/high-cpu")
              (report_for n).
Proof.
  do 3 eexists. split; [reflexivity |]. split; [reflexivity |]. split; [reflexivity |].
  match goal with
  | |- context [report_for ?n] =>
      destruct (report_omits_the_memory_actions api_db_alert _ n _ eq_refl eq_refl
                  eq_refl eq_refl eq_refl) as [Ha Hocc]
  end.
  split; [now rewrite Ha | exact Hocc].
Defined.

(** ** The tools *)

Section Tools.

Lemma not_elem_of_literals (s : string) (l : list string) :
  Forall (fun x => s <> x) l -> s ∉ l.
Proof.
  intros H Hin. rewrite Forall_forall in H. exact (H s Hin eq_refl).
Qed.

(** The weather tool never raises. It answers "Weather in", the location as
    given, then the condition, the temperature and the humidity of the table;
    the condition is "Unknown" exactly for a location that is none of the four
    cities (the comparison is case-sensitive), with 20 degrees and 50% then. *)
Theorem get_weather_known_or_unknown location :
  exists condition temp humidity,
    get_weather location
    = Ok ("Weather in " +:+ location +:+ ": " +:+ condition +:+ ", " +:+ str_int temp
          +:+ "°C, " +:+ str_int humidity +:+ "% humidity")
    /\ (location ∈ cities <-> condition <> "Unknown")
    /\ (location ∉ cities -> temp = 20 /\ humidity = 50)
    /\ 0 <= humidity <= 100.
Proof.
  unfold get_weather, get, weather_data. cbn [lookup_item].
  literal location "Seattle";
    [| literal location "San Francisco";
       [| literal location "New York"; [| literal location "London"]]].
  1-4: do 3 eexists; split; [reflexivity |]; split; [| split; [| lia]];
       [split; [discriminate | intros _; unfold cities; cbn; in_list]
       | intros H; exfalso; apply H; unfold cities; cbn; in_list].
  do 3 eexists; split; [reflexivity |]; split; [| split; [| lia]].
  - split; [| intros H; now destruct H]. intros H. exfalso. revert H.
    apply not_elem_of_literals. unfold cities; cbn.
    repeat constructor; assumption.
  - intros _. split; reflexivity.
Qed.

(** The restaurant search gives the same three restaurants for every location,
    echoing the location and the cuisine asked for; the first of them has the
    cuisine asked for, whatever it is, and is Italian when the cuisine is
    "any"; the other two do not depend on the request. *)
Theorem search_restaurants_results location cuisine :
  field "location" (search_restaurants location cuisine) = Some (JStr location)
  /\ field "cuisine" (search_restaurants location cuisine) = Some (JStr cuisine)
  /\ (forall location',
        results (search_restaurants location' cuisine)
        = results (search_restaurants location cuisine))
  /\ exists first second third,
       results (search_restaurants location cuisine) = [first; second; third]
       /\ field "cuisine" first
          = Some (JStr (if String.eqb cuisine "any" then "Italian" else cuisine))
       /\ (forall location' cuisine',
             tail (results (search_restaurants location' cuisine')) = [second; third])
       /\ field "cuisine" second = Some (JStr "Indian")
       /\ field "cuisine" third = Some (JStr "Vegetarian").
Proof.
  split; [reflexivity |]. split; [reflexivity |]. split; [reflexivity |].
  do 3 eexists. split; [reflexivity |]. split; [| repeat split].
  cbn [field lookup_item String.eqb Ascii.eqb Bool.eqb]. cbn.
  now destruct (String.eqb cuisine "any").
Qed.

Lemma lookup_item_None {A} k (d : list (string * A)) :
  lookup_item k d = None <-> k ∉ map fst d.
Proof.
  induction d as [|[k' v] d IH]; cbn [lookup_item map fst].
  - split; [intros _; apply not_elem_of_nil | reflexivity].
  - rewrite not_elem_of_cons, <- IH.
    destruct (String.eqb k k') eqn:E.
    + apply String.eqb_eq in E. split; [discriminate | intros [H _]; now destruct H].
    + apply String.eqb_neq in E. tauto.
Qed.

(** Every server of the table has the four gauges; any other name has none. *)
Lemma metrics_data_get server_name :
  (server_name ∈ servers /\ map fst (get metrics_data server_name []) = gauge_names)
  \/ ((server_name ∉ servers) /\ get metrics_data server_name [] = []).
Proof.
  unfold get, metrics_data, servers. cbn [lookup_item map fst].
  literal server_name "vm-prod-01";
    [| literal server_name "vm-prod-02"; [| literal server_name "vm-db-01"]].
  1-3: left; split; [in_list | reflexivity].
  right. split; [| reflexivity].
  apply not_elem_of_literals. repeat constructor; assumption.
Qed.

(** The metrics tool answers with an error exactly when the server is none of
    the three of the table, or when the metric is neither "all" nor one of
    the four gauges; an unknown server is reported before the metric is
    looked at. *)
Theorem get_system_metrics_errors server_name metric_type :
  (is_Some (field "error" (get_system_metrics server_name metric_type))
   <-> server_name ∉ servers \/ (metric_type <> "all" /\ metric_type ∉ gauge_names))
  /\ (server_name ∉ servers ->
      get_system_metrics server_name metric_type
      = JDict [("error", JStr ("Server " +:+ server_name +:+ " not found"))])
  /\ (server_name ∈ servers -> metric_type <> "all" -> metric_type ∉ gauge_names ->
      get_system_metrics server_name metric_type
      = JDict [("error",
                JStr ("Metric " +:+ metric_type +:+ " not found for " +:+ server_name))]).
Proof.
  unfold get_system_metrics.
  destruct (metrics_data_get server_name) as [[Hs Hkeys] | [Hs ->]].
  - destruct (get metrics_data server_name []) as [|item server] eqn:Hget;
      [discriminate Hkeys |].
    cbn [nonempty negb]. rewrite <- Hkeys.
    destruct (String.eqb metric_type "all") eqn:Hall.
    + apply String.eqb_eq in Hall.
      split; [| split; [intros H; now destruct H | intros _ H; now destruct H]].
      split; [intros [v Hv]; discriminate Hv | intros [H | [H _]]; now destruct H].
    + apply String.eqb_neq in Hall.
      destruct (lookup_item metric_type (item :: server)) as [v|] eqn:Hv.
      * assert (Hin : ~ (metric_type ∉ map fst (item :: server)))
          by (rewrite <- lookup_item_None, Hv; discriminate).
        split; [| split; [intros H; now destruct H | intros _ _ H; now destruct Hin]].
        split; [intros [v' Hv']; discriminate Hv' | intros [H | [_ H]]; tauto].
      * apply lookup_item_None in Hv.
        split; [| split; [intros H; now destruct H | reflexivity]].
        split; [intros _; now right | intros _; eexists; reflexivity].
  - cbn [nonempty negb].
    split; [| split; [reflexivity | intros H; now destruct Hs]].
    split; [intros _; now left | intros _; eexists; reflexivity].
Qed.

(** For every server and metric, the tool answers with a value exactly when
    the answer for "all" on the same server holds that value under the
    metric; the unit is then "Mbps" for network_in and "%" for any other
    gauge. *)
Theorem get_system_metrics_agrees_with_all server_name metric_type value :
  (field "value" (get_system_metrics server_name metric_type) = Some value
   <-> exists metrics,
         field "metrics" (get_system_metrics server_name "all") = Some metrics
         /\ field metric_type metrics = Some value)
  /\ (field "value" (get_system_metrics server_name metric_type) = Some value ->
      field "server" (get_system_metrics server_name metric_type) = Some (JStr server_name)
      /\ field "metric" (get_system_metrics server_name metric_type) = Some (JStr metric_type)
      /\ field "unit" (get_system_metrics server_name metric_type)
         = Some (JStr (if String.eqb metric_type "network_in" then "Mbps" else "%"))).
Proof.
  unfold get_system_metrics.
  assert (Hfield : forall server, field metric_type (gauges server)
                     = option_map JFloat (lookup_item metric_type server)).
  { intros server. unfold gauges. cbn [field].
    induction server as [|[k v] server IH]; [reflexivity |].
    cbn [map lookup_item]. now destruct (String.eqb metric_type k). }
  assert (Hall : forall server : list (string * float),
            Forall (fun k => k <> "all") (map fst server) ->
            lookup_item "all" server = None).
  { intros server H. induction server as [|[k v] server IH]; [reflexivity |].
    cbn [map fst] in H. inversion H as [|? ? Hk Hrest]; subst.
    cbn [lookup_item]. destruct (String.eqb "all" k) eqn:E.
    - apply String.eqb_eq in E. now destruct Hk.
    - now apply IH. }
  destruct (nonempty (get metrics_data server_name [])) eqn:Hne; cbn [negb].
  - rewrite String.eqb_refl. cbn [field lookup_item String.eqb Ascii.eqb Bool.eqb].
    literal metric_type "all".
    + cbn [field lookup_item String.eqb Ascii.eqb Bool.eqb].
      split; [| discriminate]. split; [discriminate |].
      intros (metrics & [= <-] & H). rewrite Hfield, Hall in H; [discriminate |].
      unfold get, metrics_data. cbn [lookup_item].
      repeat (destruct (String.eqb server_name _); [repeat constructor; discriminate |]).
      constructor.
    + destruct (lookup_item metric_type (get metrics_data server_name [])) as [v|] eqn:Hv.
      * cbn [field lookup_item String.eqb Ascii.eqb Bool.eqb]. split.
        -- split.
           ++ intros [= <-]. eexists. split; [reflexivity |]. now rewrite Hfield, Hv.
           ++ intros (metrics & [= <-] & H). rewrite Hfield, Hv in H. exact H.
        -- intros _. repeat split. now destruct (String.eqb metric_type "network_in").
      * cbn [field lookup_item String.eqb Ascii.eqb Bool.eqb]. split; [| discriminate].
        split; [discriminate |].
        intros (metrics & [= <-] & H). rewrite Hfield, Hv in H. discriminate H.
  - cbn [field lookup_item String.eqb Ascii.eqb Bool.eqb]. split; [| discriminate].
    split; [discriminate |]. intros (metrics & H & _). discriminate H.
Qed.

End Tools.

(** ** The servers *)

Section Servers.

Variable environ : Environ.

(** The exception the constructor of the chat client of agui_server.py
    raises in an environment for an endpoint and a deployment name, if any. *)
Variable refuses : Environ -> string -> string -> option exn.

(** Run as a script, agui_server.py ends in one of three ways. When
    PROJECT_ENDPOINT is unset or empty the module loads with no agent and no
    endpoint on its application, and the script raises the ValueError. When
    the constructor of the chat client raises for the endpoint, the module
    stops loading with that exception, which is what the script ends with:
    no application was made and nothing is served. Otherwise it serves on
    127.0.0.1:8888 the application on which the travel assistant is
    registered at "/", with both tools and a client for that endpoint and
    for the deployment MODEL_DEPLOYMENT_NAME, or gpt-4o when that is unset:
    it never serves an application with no agent. *)
Theorem agui_server_serves_the_agent :
  (is_set (environ "PROJECT_ENDPOINT") = false
   /\ agui_server.run refuses environ
      = Uncaught (ValueError "PROJECT_ENDPOINT environment variable is required")
   /\ exists g,
        agui_server.load refuses environ = Ok g
        /\ agui_server.agent g = None
        /\ FastAPI.endpoints (agui_server.app g) = [])
  \/ (exists e error,
        environ "PROJECT_ENDPOINT" = Some e /\ e <> ""
        /\ refuses environ e (default "gpt-4o" (environ "MODEL_DEPLOYMENT_NAME")) = Some error
        /\ agui_server.load refuses environ = Raise error
        /\ agui_server.run refuses environ = Uncaught error)
  \/ (exists e printed g agent,
        environ "PROJECT_ENDPOINT" = Some e /\ e <> ""
        /\ refuses environ e (default "gpt-4o" (environ "MODEL_DEPLOYMENT_NAME")) = None
        /\ agui_server.load refuses environ = Ok g
        /\ agui_server.run refuses environ
           = Uvicorn printed (Some (agui_server.app g)) "127.0.0.1" 8888
        /\ agui_server.agent g = Some agent
        /\ FastAPI.endpoints (agui_server.app g) = [("/", agent)]
        /\ travel_assistant agent
             (AzureOpenAIChatClient AzureCliCredential e
                (default "gpt-4o" (environ "MODEL_DEPLOYMENT_NAME")))).
Proof.
  unfold agui_server.run, agui_server.load.
  destruct (environ "PROJECT_ENDPOINT") as [e|] eqn:He; cbn [is_set].
  - destruct (truthy e) eqn:Ht.
    + assert (Hne : e <> "") by (intros ->; discriminate Ht).
      destruct (refuses environ e (default "gpt-4o" (environ "MODEL_DEPLOYMENT_NAME")))
        as [error|] eqn:Hr; cbn [bind].
      * right. left. exists e, error. repeat split; assumption.
      * right. right. do 4 eexists. split; [reflexivity |]. split; [exact Hne |].
        split; [exact Hr |]. split; [reflexivity |].
        cbn [agui_server.endpoint is_set negb]. rewrite Ht.
        split; [reflexivity |]. split; [reflexivity |]. split; [reflexivity |].
        repeat split.
    + left. cbn [bind agui_server.endpoint is_set negb]. rewrite Ht.
      split; [reflexivity |]. split; [reflexivity |].
      eexists. split; [reflexivity |]. split; reflexivity.
  - left. cbn [bind]. split; [reflexivity |]. split; [reflexivity |].
    eexists. split; [reflexivity |]. split; reflexivity.
Qed.

(** Run as a script, _agui_server.py exits with code 1 exactly when
    PROJECT_ENDPOINT is unset, empty or the placeholder of .env.sample (it
    starts with "https://<"), and then no application exists. Otherwise it
    serves on 127.0.0.1:8888 the application on which the travel assistant is
    registered at "/": uvicorn is never handed None. *)
Theorem underscore_agui_server_serves_the_agent :
  ((is_set (environ "PROJECT_ENDPOINT") = false
    \/ exists e, environ "PROJECT_ENDPOINT" = Some e /\ placeholder e = true)
   /\ (exists printed, _agui_server.run environ = Exit printed 1)
   /\ _agui_server.app (_agui_server.load environ) = None
   /\ _agui_server.agent (_agui_server.load environ) = None)
  \/ (exists e printed app agent,
        environ "PROJECT_ENDPOINT" = Some e /\ e <> "" /\ placeholder e = false
        /\ _agui_server.run environ = Uvicorn printed (Some app) "127.0.0.1" 8888
        /\ _agui_server.agent (_agui_server.load environ) = Some agent
        /\ FastAPI.endpoints app = [("/", agent)]
        /\ travel_assistant agent
             (AzureAIAgentClient e DefaultAzureCredential
                (default "gpt-4o" (environ "MODEL_DEPLOYMENT_NAME")))).
Proof.
  unfold _agui_server.run, _agui_server.load.
  destruct (environ "PROJECT_ENDPOINT") as [e|] eqn:He; cbn [is_set].
  - destruct (truthy e) eqn:Ht; cbn [andb].
    + destruct (placeholder e) eqn:Hp; cbn [negb].
      * left. cbn [_agui_server.PROJECT_ENDPOINT is_set]. rewrite Ht, Hp.
        split; [right; now exists e |]. split; [eexists; reflexivity |]. split; reflexivity.
      * right. do 4 eexists. split; [reflexivity |].
        split; [intros ->; discriminate Ht |]. split; [exact Hp |].
        cbn [_agui_server.PROJECT_ENDPOINT _agui_server.app is_set]. rewrite Ht, Hp.
        split; [reflexivity |]. split; [reflexivity |]. split; [reflexivity |].
        repeat split.
    + left. cbn [_agui_server.PROJECT_ENDPOINT is_set]. rewrite Ht.
      split; [now left |]. split; [eexists; reflexivity |]. split; reflexivity.
  - left. split; [now left |]. split; [eexists; reflexivity |]. split; reflexivity.
Qed.


(** _agui_server.py and _main.py serve for the same endpoints, and _main.py,
    when it serves, serves the SRE assistant alone, with its one tool. For
    agui_server.py the placeholder of .env.sample is an endpoint like any
    other, which it hands to the constructor of its chat client: the script
    then ends with the exception of the constructor, or serves when there is
    none. So it serves for the same endpoints as the two others exactly when
    the constructor raises for the placeholders among the non-empty
    endpoints, and for them alone. *)
Theorem servers_and_the_placeholder :
  serves (_agui_server.run environ) = serves (_main.run environ)
  /\ (forall e,
        environ "PROJECT_ENDPOINT" = Some e -> placeholder e = true ->
        serves (_main.run environ) = false
        /\ match refuses environ e (default "gpt-4o" (environ "MODEL_DEPLOYMENT_NAME")) with
           | Some error => agui_server.run refuses environ = Uncaught error
           | None => serves (agui_server.run refuses environ) = true
           end)
  /\ (serves (agui_server.run refuses environ) = serves (_main.run environ)
      <-> forall e,
            environ "PROJECT_ENDPOINT" = Some e -> e <> "" ->
            (placeholder e = true
             <-> refuses environ e (default "gpt-4o" (environ "MODEL_DEPLOYMENT_NAME")) <> None))
  /\ (serves (_main.run environ) = true ->
      exists e logged agent,
        environ "PROJECT_ENDPOINT" = Some e
        /\ _main.run environ = DevUI logged [agent] 8080 false
        /\ ChatAgent.name agent = "SRE-Assistant"
        /\ ChatAgent.chat_client agent = AzureAIAgentClient e DefaultAzureCredential "gpt-5.1"
        /\ ChatAgent.tools agent = [tool_get_system_metrics]).
Proof.
  unfold _agui_server.run, _agui_server.load, agui_server.run, agui_server.load,
    _main.run, _main.load.
  destruct (environ "PROJECT_ENDPOINT") as [e|] eqn:He; cbn [is_set].
  - assert (Hempty : truthy e = false -> placeholder e = false).
    { intros H. apply truthy_false in H. now subst e. }
    assert (Hne : truthy e = true -> e <> "") by (intros H ->; discriminate H).
    destruct (truthy e) eqn:Ht, (placeholder e) eqn:Hp;
      try (specialize (Hempty eq_refl); discriminate);
      destruct (refuses environ e (default "gpt-4o" (environ "MODEL_DEPLOYMENT_NAME")))
        as [error|] eqn:Hr;
      cbn [bind andb negb orb _agui_server.PROJECT_ENDPOINT is_set agui_server.endpoint];
      rewrite ?Ht, ?Hp; cbn [andb negb orb serves _main.main];
      (split; [reflexivity |]).
    + split; [intros e' [= <-] _; rewrite Hr; split; reflexivity |].
      split; [| discriminate].
      split; [| reflexivity].
      intros _ e' [= <-] _. rewrite Hr, Hp.
      split; [intros _; discriminate | reflexivity].
    + split; [intros e' [= <-] _; rewrite Hr; split; reflexivity |].
      split; [| discriminate].
      split; [discriminate |].
      intros H. destruct (H e eq_refl (Hne eq_refl)) as [H1 _].
      rewrite Hr in H1. exfalso. exact (H1 Hp eq_refl).
    + split; [intros e' [= <-] H; rewrite Hp in H; discriminate H |].
      split; [| intros _; do 3 eexists; repeat split].
      split; [discriminate |].
      intros H. destruct (H e eq_refl (Hne eq_refl)) as [_ H2].
      rewrite Hr, Hp in H2. exfalso. specialize (H2 ltac:(discriminate)). discriminate H2.
    + split; [intros e' [= <-] H; rewrite Hp in H; discriminate H |].
      split; [| intros _; do 3 eexists; repeat split].
      split; [| reflexivity].
      intros _ e' [= <-] _. rewrite Hr, Hp.
      split; [intros H; discriminate H | intros H; now contradict H].
    + split; [intros e' [= <-] H; rewrite Hp in H; discriminate H |].
      split; [| discriminate].
      split; [| reflexivity].
      intros _ e' [= <-] Hn. apply truthy_false in Ht. contradiction.
    + split; [intros e' [= <-] H; rewrite Hp in H; discriminate H |].
      split; [| discriminate].
      split; [| reflexivity].
      intros _ e' [= <-] Hn. apply truthy_false in Ht. contradiction.
  - cbn [bind serves]. split; [reflexivity |].
    split; [intros e H; discriminate H |].
    split; [| discriminate].
    split; [intros _ e H; discriminate H | reflexivity].
Qed.

End Servers.

(** On the placeholder, agui_server.py ends with the exception of a
    constructor that refuses it, and serves with one that does not; the two
    other scripts do not serve. *)
Lemma agui_server_on_the_placeholder :
  agui_server.run refuses_placeholders placeholder_environ
  = Uncaught ServiceInitializationError
  /\ serves (agui_server.run (fun _ _ _ => None) placeholder_environ) = true
  /\ serves (_agui_server.run placeholder_environ) = false
  /\ serves (_main.run placeholder_environ) = false.
Proof. repeat split; vm_compute; reflexivity. Qed.

(** ** The approval, for every alert *)

Section Approval.

Variable json_loads : string -> loaded.
Variable w : World.

(** Every critical or high alert whose metrics the triage can read suspends
    its run on the single request 0, which carries the triage; resuming it
    with any of the four answers completes the run with exactly one report,
    which shows the severity and the priority of the answer: those of the
    triage for "approve", those of the override otherwise. The metrics are
    readable when [json.loads] returns an object whose cpu_percent and
    memory_percent, when present, are numbers, or raises
    [json.JSONDecodeError]. *)
Theorem critical_and_high_complete_after_approval k k' a response :
  readable json_loads a = true ->
  needs_approval (AlertInput.severity a) = true ->
  exists r t r' report,
    Engine.submit (2 + k) (workflow json_loads w) (MAlertInput a) = Some r
    /\ Engine.status r = Engine.Suspended [(0%nat, MTriageResult t)]
    /\ TriageResult.incident_severity t = incident_severity_of (AlertInput.severity a)
    /\ Engine.resume (3 + k') (workflow json_loads w) r 0 (RTriageApproval response)
       = inr (Some r')
    /\ Engine.status r' = Engine.Completed [report]
    /\ Engine.pending r' = ∅
    /\ (let '(sev, prio) :=
          match TriageApproval.approved response with
          | approve => (incident_severity_of (AlertInput.severity a),
                        priority_of (AlertInput.severity a))
          | override_to_sev1 => ("sev1", "P1")
          | override_to_sev2 => ("sev2", "P2")
          | override_to_sev3 => ("sev3", "P3")
          end in
        str_in ("Severity: " +:+ upper sev) report = true
        /\ str_in ("Priority: " +:+ prio) report = true).
Proof.
  intros Hreadable Hneeds.
  destruct (readable_decoded json_loads a Hreadable) as (metrics & Hd & Hreads).
  destruct (approval_round_trip json_loads w k k' a metrics response Hd Hreads Hneeds)
    as (t & Hsub & Hst & Ha & Hs & Hp & Hres & Hst' & _).
  cbv zeta in *.
  eexists _, t, _, _. split; [exact Hsub |]. split; [exact Hst |]. split; [exact Hs |].
  split; [exact Hres |]. split; [exact Hst' |].
  split.
  { cbn [downstream Engine.pending]. unfold answered.
    cbn [Engine.responded Engine.consume Engine.pending awaiting_approval triaged processed
         Engine.invoked Engine.new_run Engine.next_id].
    apply map_eq. intros i. rewrite lookup_empty.
    destruct (decide (i = 0%nat)) as [-> | Hne].
    - now rewrite lookup_delete_eq.
    - rewrite lookup_delete_ne, lookup_insert_ne by congruence. apply lookup_empty. }
  destruct response as [[] notes]; cbn [TriageApproval.approved approved_triage];
    destruct (AlertInput.severity a); try discriminate Hneeds;
    cbn [incident_severity_of priority_of];
    (eapply report_shows_classification;
     [ first [exact Hs | reflexivity]
     | first [exact Hp | reflexivity]
     | reflexivity | reflexivity | reflexivity | reflexivity ]).
Qed.

End Approval.

Lemma critical_and_high_complete_after_approval_witness :
  readable sample_loads round_trip_alert = true
  /\ needs_approval (AlertInput.severity round_trip_alert) = true
  /\ exists r t r' report,
       Engine.submit 2 (workflow sample_loads sample_world) (MAlertInput round_trip_alert)
       = Some r
       /\ Engine.status r = Engine.Suspended [(0%nat, MTriageResult t)]
       /\ Engine.resume 3 (workflow sample_loads sample_world) r 0
            (RTriageApproval
               {| TriageApproval.approved := override_to_sev3;
                  TriageApproval.notes := "known maintenance window" |})
          = inr (Some r')
       /\ Engine.status r' = Engine.Completed [report]
       /\ str_in "Severity: SEV3" report = true
       /\ str_in "Priority: P3" report = true.
Proof.
  split; [vm_compute; reflexivity |]. split; [reflexivity |].
  destruct (critical_and_high_complete_after_approval sample_loads sample_world 0 0
              round_trip_alert
              {| TriageApproval.approved := override_to_sev3;
                 TriageApproval.notes := "known maintenance window" |}
              ltac:(vm_compute; reflexivity) eq_refl)
    as (r & t & r' & report & Hsub & Hst & _ & Hres & Hst' & _ & Hsev & Hprio).
  exists r, t, r', report. repeat split; assumption.
Defined.

(** ** The summary of the triage *)

Section Summary.

(** The summary names the metrics above 80. It is the description, the
    resource and, after "Current metrics show elevated", the keys of the
    metrics whose value is an int or a float above 80, in the order of the
    metrics and separated by commas. A value of any other type is skipped
    without an error, [true] and [false] included (they count as 1 and 0);
    when no metric is above 80 the sentence ends with "elevated ." *)
Theorem triage_summary_names_elevated_metrics p t :
  triage_result (triage_alert p) = Some t ->
  exists items,
    ProcessedAlert.metrics p = JDict items
    /\ TriageResult.summary t
       = ProcessedAlert.description p +:+ ". Resource: " +:+ ProcessedAlert.resource p
         +:+ ". Current metrics show elevated "
         +:+ join ", " (map fst (List.filter (fun '(_, v) => elevated v) items)) +:+ "."
    /\ (forall v, elevated v = true
                  <-> (exists n, v = JInt n /\ 80 < n)
                      \/ (exists f, v = JFloat f /\ float_gt_int f 80 = true))
    /\ (Forall (fun '(_, v) => elevated v = false) items ->
        TriageResult.summary t
        = ProcessedAlert.description p +:+ ". Resource: " +:+ ProcessedAlert.resource p
          +:+ ". Current metrics show elevated .").
Proof.
  intros H. destruct (triage_alert_fields p t H)
    as (items & ch & mh & Hm & _ & _ & _ & _ & _ & _ & _ & _ & Hsum & _).
  exists items. split; [exact Hm |]. split; [exact Hsum |]. split.
  - intros v. unfold elevated. destruct v as [| b | n | f | s | l | d];
      cbn [is_number json_gt_int andb].
    + split; [discriminate | intros [(n & [=] & _) | (f & [=] & _)]].
    + split; [destruct b; intros Hb; vm_compute in Hb; discriminate Hb
             | intros [(n & [=] & _) | (f & [=] & _)]].
    + split.
      * intros Hn. left. exists n. split; [reflexivity | now apply Z.ltb_lt].
      * intros [(n' & [= <-] & Hn) | (f & [=] & _)]. now apply Z.ltb_lt.
    + split.
      * intros Hf. right. now exists f.
      * intros [(n' & [=] & _) | (f' & [= <-] & Hf)]. exact Hf.
    + split; [discriminate | intros [(n & [=] & _) | (f & [=] & _)]].
    + split; [discriminate | intros [(n & [=] & _) | (f & [=] & _)]].
    + split; [discriminate | intros [(n & [=] & _) | (f & [=] & _)]].
  - intros Hnone. rewrite Hsum. clear Hm Hsum.
    replace (List.filter (fun '(_, v) => elevated v) items) with (@nil (string * json));
      [reflexivity |].
    induction Hnone as [|[k v] items' Hv Hrest IH]; [reflexivity |].
    cbn [List.filter]. rewrite Hv. apply IH.
Qed.

End Summary.

Lemma triage_summary_names_elevated_metrics_witness :
  exists t,
    triage_result (triage_alert api_db_alert) = Some t
    /\ TriageResult.summary t
       = "CPU and memory above threshold for 10 minutes. Resource: vm-api-db-01. "
         +:+ "Current metrics show elevated cpu_percent, memory_percent.".
Proof.
  eexists. split; [reflexivity |].
  destruct (triage_summary_names_elevated_metrics api_db_alert _ eq_refl)
    as (items & Hitems & Hsum & _).
  injection Hitems as <-. rewrite Hsum. vm_compute. reflexivity.
Defined.
